(** * Configuration management service: versioning engine over the SQLite store

    A shallow embedding of the Go sources

      - [internal/domain/entity/configuration.go]      (module [entity])
      - [pkg/errors]                                   (module [errors])
      - [pkg/validator/json_schema.go]                 (module [validator])
      - [internal/domain/repository]                   (module [repository])
      - [internal/repository/sqlite]                   (module [sqlite])
      - [internal/usecase] (ConfigurationUseCase)      (module [usecase])

    followed by the properties of the versioning engine.

    Conventions.
      - Go's [int] is the 64-bit two's complement integer: a [Z] kept in
        range by [int_wrap].
      - [json.RawMessage] is a byte slice that may be [nil]: [option string].
      - A Go result pair [(x, err)] is a pair of options, [None] being [nil].
      - [time.Now().UTC()] is an input [now] of the operation.
      - The database handle [*sql.DB] is the record [Conn]: the contents of
        the four tables and the schedule of driver failures still to come,
        one boolean per round trip to the driver (a statement, or a
        [rows.Next()] of the version listing). *)

From Stdlib Require Import ZArith String Ascii List Lia Sorting.Permutation.
From stdpp Require Import base option gmap strings list fin_maps pretty sorting.

Local Open Scope Z_scope.
Local Open Scope string_scope.

(** ** Go integers *)

Definition max_int : Z := 2 ^ 63 - 1.
Definition min_int : Z := - 2 ^ 63.

Definition int_wrap (z : Z) : Z := (z + 2 ^ 63) mod 2 ^ 64 - 2 ^ 63.

Definition int_add (a b : Z) : Z := int_wrap (a + b).

Definition Time := Z.

(** [json.RawMessage]: [None] is the nil slice. *)
Abbreviation RawMessage := (option string).

(** The conversion [string(data)]: a nil slice converts to the empty string. *)
Definition string_of_raw (data : RawMessage) : string :=
  match data with
  | Some s => s
  | None => ""
  end.

(** The conversion [json.RawMessage(s)]: never nil. *)
Definition raw_of_string (s : string) : RawMessage := Some s.

(** ** pkg/errors *)

Module errors.

Inductive ErrorCode :=
| ErrorCodeNotFound
| ErrorCodeValidationFailed
| ErrorCodeAlreadyExists
| ErrorCodeInvalidRequest
| ErrorCodeInternalError
| ErrorCodeUnauthorized.

Record ValidationError := mkValidationError {
  Field : string;
  Reason : string
}.

(** The values stored in [AppError.Details] ([interface{}]) by this code. *)
Inductive Details :=
| DetailsNil
| DetailsId (id : string)                       (* map[string]string{"id": id} *)
| DetailsString (s : string)
| DetailsValidation (errs : list ValidationError).

Record AppError := mkAppError {
  Message : string;
  Code : ErrorCode;
  AppDetails : Details
}.

Definition NewAppError (message : string) (code : ErrorCode) (details : Details) : AppError :=
  {| Message := message; Code := code; AppDetails := details |}.

Definition NewNotFoundError (resourceType resourceID : string) : AppError :=
  NewAppError (resourceType ++ " not found") ErrorCodeNotFound (DetailsId resourceID).

Definition NewAlreadyExistsError (resourceType resourceID : string) : AppError :=
  NewAppError (resourceType ++ " already exists") ErrorCodeAlreadyExists (DetailsId resourceID).

Definition NewInvalidRequestError (message : string) (details : Details) : AppError :=
  NewAppError message ErrorCodeInvalidRequest details.

Definition NewValidationFailedError (message : string) (details : Details) : AppError :=
  NewAppError message ErrorCodeValidationFailed details.

Definition NewInternalError (message : string) (details : Details) : AppError :=
  NewAppError message ErrorCodeInternalError details.

End errors.

(** Errors of [database/sql] and of the driver. *)
Inductive SqlErr :=
| ErrNoRows          (* sql.ErrNoRows: Scan on an empty result *)
| ErrConstraint      (* a PRIMARY KEY violation reported by SQLite *)
| ErrDriver.         (* any other failure of the driver: I/O, busy, closed *)

(** Go's [error] interface, as inhabited in this program. *)
Inductive error :=
| SqlError (e : SqlErr)
| AppErr (e : errors.AppError).

(** The method [Error()]. *)
Definition Error (e : error) : string :=
  match e with
  | SqlError ErrNoRows => "sql: no rows in result set"
  | SqlError ErrConstraint => "UNIQUE constraint failed"
  | SqlError ErrDriver => "driver: bad connection"
  | AppErr a => errors.Message a
  end.

(** The error kind a caller of the core can observe. *)
Definition code_of (e : error) : option errors.ErrorCode :=
  match e with
  | AppErr a => Some (errors.Code a)
  | _ => None
  end.

(** ** internal/domain/entity *)

Module entity.

Record Configuration := mkConfiguration {
  Name : string;
  Version : Z;
  Data : RawMessage;
  CreatedAt : Time;
  UpdatedAt : Time;
  RollbackFrom : Z;
  RollbackTo : Z
}.

Record VersionInfo := mkVersionInfo {
  VVersion : Z;
  VCreatedAt : Time;
  IsRollback : bool
}.

Record VersionList := mkVersionList {
  LName : string;
  Versions : list VersionInfo
}.

Definition NewConfiguration (name : string) (data : RawMessage) (now : Time) : Configuration :=
  {| Name := name;
     Version := 1;
     Data := data;
     CreatedAt := now;
     UpdatedAt := now;
     RollbackFrom := 0;
     RollbackTo := 0 |}.

Definition NewVersionFromRollback (config : Configuration) (targetVersion : Z)
    (targetData : RawMessage) (now : Time) : Configuration :=
  {| Name := Name config;
     Version := int_add (Version config) 1;
     Data := targetData;
     CreatedAt := CreatedAt config;
     UpdatedAt := now;
     RollbackFrom := Version config;
     RollbackTo := targetVersion |}.

Definition UpdateVersion (c : Configuration) (data : RawMessage) (now : Time) : Configuration :=
  {| Name := Name c;
     Version := int_add (Version c) 1;
     Data := data;
     CreatedAt := CreatedAt c;
     UpdatedAt := now;
     RollbackFrom := 0;
     RollbackTo := 0 |}.

End entity.

(** ** pkg/validator *)

Module validator.

(** The interface [Validator]. *)
Record Validator := mkValidator {
  ValidateJSON : RawMessage -> RawMessage -> option error;
  ValidateSchemaDefinition : RawMessage -> option error
}.

(** What [gojsonschema.Validate] answers: an error, or a result whose
    [Errors()] are the rule violations ([Valid()] is "no violation"). *)
Inductive GjsResult :=
| GjsError (msg : string)
| GjsChecked (violations : list errors.ValidationError).

Section JSONSchemaValidator.

(** The library github.com/xeipuuv/gojsonschema is outside the
    repository: its two entry points are parameters. *)
Variable gojsonschema_Validate : string -> string -> GjsResult.
Variable gojsonschema_NewSchema : string -> option string.

Definition JSONSchemaValidator_ValidateJSON (schema data : RawMessage) : option error :=
  match gojsonschema_Validate (string_of_raw schema) (string_of_raw data) with
  | GjsError msg =>
      Some (AppErr (errors.NewInternalError "Failed to validate JSON" (errors.DetailsString msg)))
  | GjsChecked violations =>
      match violations with
      | [] => None
      | _ :: _ =>
          Some (AppErr (errors.NewValidationFailedError "JSON validation failed"
                          (errors.DetailsValidation violations)))
      end
  end.

Definition JSONSchemaValidator_ValidateSchemaDefinition (schema : RawMessage) : option error :=
  match gojsonschema_NewSchema (string_of_raw schema) with
  | Some msg =>
      Some (AppErr (errors.NewInvalidRequestError "Invalid JSON Schema"
                      (errors.DetailsString ("Schema validation error: " ++ msg))))
  | None => None
  end.

Definition NewJSONSchemaValidator : Validator :=
  {| ValidateJSON := JSONSchemaValidator_ValidateJSON;
     ValidateSchemaDefinition := JSONSchemaValidator_ValidateSchemaDefinition |}.

End JSONSchemaValidator.

End validator.

(** ** internal/domain/repository: the storage interface *)

Module repository.

(** The interface [ConfigurationRepository]; [S] is the state the receiver
    of the methods gives access to. *)
Record ConfigurationRepository (S : Type) := mkRepository {
  CreateConfiguration : entity.Configuration -> S -> option error * S;
  UpdateConfiguration : entity.Configuration -> S -> option error * S;
  GetConfiguration : string -> S -> (option entity.Configuration * option error) * S;
  GetConfigurationVersion : string -> Z -> S -> (option entity.Configuration * option error) * S;
  ListConfigurationVersions : string -> S -> (option entity.VersionList * option error) * S;
  RegisterSchema : string -> RawMessage -> S -> option error * S;
  GetSchema : string -> S -> (RawMessage * option error) * S;
  StoreVersionData : string -> Z -> RawMessage -> S -> option error * S;
  GetVersionData : string -> Z -> S -> (RawMessage * option error) * S
}.

Arguments CreateConfiguration {S}.
Arguments UpdateConfiguration {S}.
Arguments GetConfiguration {S}.
Arguments GetConfigurationVersion {S}.
Arguments ListConfigurationVersions {S}.
Arguments RegisterSchema {S}.
Arguments GetSchema {S}.
Arguments StoreVersionData {S}.
Arguments GetVersionData {S}.

End repository.

(** ** internal/repository/sqlite *)

Module sqlite.

(** Rows of the four tables created by [initSchema]. The primary keys are
    the keys of the maps; [rollback_from] and [rollback_to] are nullable. *)
Record ConfigRow := mkConfigRow {
  version : Z;
  created_at : Time;
  updated_at : Time;
  rollback_from : option Z;
  rollback_to : option Z
}.

Record VersionRow := mkVersionRow {
  v_created_at : Time;
  is_rollback : bool
}.

Record DB := mkDB {
  configurations : gmap string ConfigRow;
  versions : gmap (string * Z) VersionRow;
  version_data : gmap (string * Z) string;
  schemas : gmap string string
}.

(** The database right after [initSchema]. *)
Definition empty_db : DB :=
  {| configurations := ∅; versions := ∅; version_data := ∅; schemas := ∅ |}.

(** The handle [r.db]: the tables, and for each statement still to be sent
    to the driver whether the driver fails on it (I/O error, database busy,
    connection closed); when the list is exhausted the driver does not fail
    any more. Texts and times are read back as they were written. *)
Record Conn := mkConn {
  db : DB;
  failures : list bool
}.

(** One round trip to the driver. *)
Definition driver (c : Conn) : bool * Conn :=
  (hd false (failures c), {| db := db c; failures := tl (failures c) |}).

(** *** Statements *)

(** INSERT INTO configurations (name, version, created_at, updated_at) *)
Definition insert_configuration (name : string) (ver : Z) (created updated : Time)
    (d : DB) : DB + SqlErr :=
  match configurations d !! name with
  | Some _ => inr ErrConstraint
  | None =>
      inl {| configurations :=
               <[name := {| version := ver; created_at := created; updated_at := updated;
                            rollback_from := None; rollback_to := None |}]> (configurations d);
             versions := versions d;
             version_data := version_data d;
             schemas := schemas d |}
  end.

(** INSERT INTO versions (name, version, created_at, is_rollback) *)
Definition insert_version (name : string) (ver : Z) (created : Time) (rb : bool)
    (d : DB) : DB + SqlErr :=
  match versions d !! (name, ver) with
  | Some _ => inr ErrConstraint
  | None =>
      inl {| configurations := configurations d;
             versions := <[(name, ver) := {| v_created_at := created; is_rollback := rb |}]> (versions d);
             version_data := version_data d;
             schemas := schemas d |}
  end.

(** UPDATE configurations SET version, updated_at, rollback_from,
    rollback_to WHERE name: no row matched is not an error. *)
Definition update_configuration (name : string) (ver : Z) (updated : Time) (rf rt : Z)
    (d : DB) : DB + SqlErr :=
  inl {| configurations :=
           alter (fun row => {| version := ver; created_at := created_at row;
                                updated_at := updated;
                                rollback_from := Some rf; rollback_to := Some rt |})
                 name (configurations d);
         versions := versions d;
         version_data := version_data d;
         schemas := schemas d |}.

(** INSERT OR REPLACE INTO version_data (name, version, data) *)
Definition replace_version_data (name : string) (ver : Z) (data : string)
    (d : DB) : DB + SqlErr :=
  inl {| configurations := configurations d;
         versions := versions d;
         version_data := <[(name, ver) := data]> (version_data d);
         schemas := schemas d |}.

(** UPDATE schemas SET schema WHERE name *)
Definition update_schema (name : string) (schema : string) (d : DB) : DB + SqlErr :=
  inl {| configurations := configurations d;
         versions := versions d;
         version_data := version_data d;
         schemas := alter (fun _ => schema) name (schemas d) |}.

(** INSERT INTO schemas (name, schema) *)
Definition insert_schema (name : string) (schema : string) (d : DB) : DB + SqlErr :=
  match schemas d !! name with
  | Some _ => inr ErrConstraint
  | None =>
      inl {| configurations := configurations d;
             versions := versions d;
             version_data := version_data d;
             schemas := <[name := schema]> (schemas d) |}
  end.

(** *** database/sql *)

(** [db.QueryRow(...).Scan(...)] of a query answering at most one row. *)
Definition QueryRow {A : Type} (select : DB -> option A) (c : Conn) : (A + SqlErr) * Conn :=
  let '(failed, c) := driver c in
  if failed then (inr ErrDriver, c)
  else match select (db c) with
       | Some a => (inl a, c)
       | None => (inr ErrNoRows, c)
       end.

(** [db.QueryRow("SELECT EXISTS(...)").Scan(&exists)]: always one row. *)
Definition QueryExists (test : DB -> bool) (c : Conn) : (bool + SqlErr) * Conn :=
  let '(failed, c) := driver c in
  if failed then (inr ErrDriver, c) else (inl (test (db c)), c).

(** [db.Exec(...)] outside a transaction. *)
Definition Exec (stmt : DB -> DB + SqlErr) (c : Conn) : option SqlErr * Conn :=
  let '(failed, c) := driver c in
  if failed then (Some ErrDriver, c)
  else match stmt (db c) with
       | inl d => (None, {| db := d; failures := failures c |})
       | inr e => (Some e, c)
       end.

(** [db.Begin()]: the transaction works on its own view of the tables. *)
Definition Begin (c : Conn) : (DB + SqlErr) * Conn :=
  let '(failed, c) := driver c in
  if failed then (inr ErrDriver, c) else (inl (db c), c).

(** [tx.Exec(...)] *)
Definition tx_Exec (stmt : DB -> DB + SqlErr) (tx : DB) (c : Conn) : (DB + SqlErr) * Conn :=
  let '(failed, c) := driver c in
  if failed then (inr ErrDriver, c) else (stmt tx, c).

(** [tx.Commit()]: on failure nothing of the transaction is kept. *)
Definition Commit (tx : DB) (c : Conn) : option SqlErr * Conn :=
  let '(failed, c) := driver c in
  if failed then (Some ErrDriver, c)
  else (None, {| db := tx; failures := failures c |}).

(** *** The repository *)

(** Every early [return err] leaves through the deferred [tx.Rollback()]:
    the tables of the connection are those before [Begin]. *)
Definition CreateConfiguration (config : entity.Configuration) (c : Conn) : option error * Conn :=
  let '(r, c) := Begin c in
  match r with
  | inr e => (Some (SqlError e), c)
  | inl tx =>
      let '(r, c) :=
        tx_Exec (insert_configuration (entity.Name config) (entity.Version config)
                   (entity.CreatedAt config) (entity.UpdatedAt config)) tx c in
      match r with
      | inr e => (Some (SqlError e), c)
      | inl tx =>
          let '(r, c) :=
            tx_Exec (insert_version (entity.Name config) (entity.Version config)
                       (entity.CreatedAt config) false) tx c in
          match r with
          | inr e => (Some (SqlError e), c)
          | inl tx =>
              let '(r, c) := Commit tx c in
              (SqlError <$> r, c)
          end
      end
  end.

Definition UpdateConfiguration (config : entity.Configuration) (c : Conn) : option error * Conn :=
  let '(r, c) := Begin c in
  match r with
  | inr e => (Some (SqlError e), c)
  | inl tx =>
      let '(r, c) :=
        tx_Exec (update_configuration (entity.Name config) (entity.Version config)
                   (entity.UpdatedAt config) (entity.RollbackFrom config)
                   (entity.RollbackTo config)) tx c in
      match r with
      | inr e => (Some (SqlError e), c)
      | inl tx =>
          let '(r, c) :=
            tx_Exec (insert_version (entity.Name config) (entity.Version config)
                       (entity.UpdatedAt config) (0 <? entity.RollbackFrom config)%Z) tx c in
          match r with
          | inr e => (Some (SqlError e), c)
          | inl tx =>
              let '(r, c) := Commit tx c in
              (SqlError <$> r, c)
          end
      end
  end.

Definition GetConfiguration (name : string) (c : Conn)
    : (option entity.Configuration * option error) * Conn :=
  let '(r, c) := QueryRow (fun d => configurations d !! name) c in
  match r with
  | inr ErrNoRows => ((None, Some (AppErr (errors.NewNotFoundError "Configuration" name))), c)
  | inr e => ((None, Some (SqlError e)), c)
  | inl row =>
      let '(r, c) := QueryRow (fun d => version_data d !! (name, version row)) c in
      match r with
      | inr e => ((None, Some (SqlError e)), c)
      | inl dataStr =>
          ((Some {| entity.Name := name;
                    entity.Version := version row;
                    entity.Data := raw_of_string dataStr;
                    entity.CreatedAt := created_at row;
                    entity.UpdatedAt := updated_at row;
                    entity.RollbackFrom := default 0 (rollback_from row);
                    entity.RollbackTo := default 0 (rollback_to row) |}, None), c)
      end
  end.

Definition GetConfigurationVersion (name : string) (ver : Z) (c : Conn)
    : (option entity.Configuration * option error) * Conn :=
  let '(r, c) := QueryExists (fun d => bool_decide (is_Some (versions d !! (name, ver)))) c in
  match r with
  | inr e => ((None, Some (SqlError e)), c)
  | inl false =>
      ((None, Some (AppErr (errors.NewNotFoundError "Configuration version"
                              (name ++ ":" ++ pretty ver)))), c)
  | inl true =>
      let '(r, c) := QueryRow (fun d => versions d !! (name, ver)) c in
      match r with
      | inr e => ((None, Some (SqlError e)), c)
      | inl vrow =>
          let '(r, c) := QueryRow (fun d => version_data d !! (name, ver)) c in
          match r with
          | inr e => ((None, Some (SqlError e)), c)
          | inl dataStr =>
              let '(r, c) := QueryRow (fun d => created_at <$> configurations d !! name) c in
              match r with
              | inr e => ((None, Some (SqlError e)), c)
              | inl originalCreatedAt =>
                  ((Some {| entity.Name := name;
                            entity.Version := ver;
                            entity.Data := raw_of_string dataStr;
                            entity.CreatedAt := originalCreatedAt;
                            entity.UpdatedAt := v_created_at vrow;
                            entity.RollbackFrom := 0;
                            entity.RollbackTo := 0 |}, None), c)
              end
          end
      end
  end.

(** ORDER BY version *)
Fixpoint insert_by_version (v : entity.VersionInfo) (l : list entity.VersionInfo)
    : list entity.VersionInfo :=
  match l with
  | [] => [v]
  | w :: l' =>
      if (entity.VVersion v <=? entity.VVersion w)%Z then v :: l
      else w :: insert_by_version v l'
  end.

Definition order_by_version (l : list entity.VersionInfo) : list entity.VersionInfo :=
  foldr insert_by_version [] l.

(** SELECT version, created_at, is_rollback FROM versions WHERE name = ? *)
Definition select_versions (name : string) (d : DB) : list entity.VersionInfo :=
  omap (fun kv : (string * Z) * VersionRow =>
          if decide (kv.1.1 = name)
          then Some {| entity.VVersion := kv.1.2;
                       entity.VCreatedAt := v_created_at kv.2;
                       entity.IsRollback := is_rollback kv.2 |}
          else None)
       (map_to_list (versions d)).

(** The loop [for rows.Next() { rows.Scan(...); append }] over the rows the
    query still has to deliver. Every [rows.Next()] is a round trip to the
    driver and answers false at the end of the rows and also when the
    driver fails; the loop stops at the first false and [rows.Err()] is
    never consulted, so after a failure the versions read so far are kept.
    [rows.Scan] converts a row already fetched and does not fail on the
    rows of this table. *)
Fixpoint rows_Next (rows : list entity.VersionInfo) (c : Conn)
    : list entity.VersionInfo * Conn :=
  let '(failed, c) := driver c in
  match rows with
  | [] => ([], c)
  | version :: rows =>
      if failed then ([], c)
      else let '(versions, c) := rows_Next rows c in (version :: versions, c)
  end.

(** [db.Query] is one statement; then the rows are read by [rows_Next]. *)
Definition ListConfigurationVersions (name : string) (c : Conn)
    : (option entity.VersionList * option error) * Conn :=
  let '(r, c) := QueryExists (fun d => bool_decide (is_Some (configurations d !! name))) c in
  match r with
  | inr e => ((None, Some (SqlError e)), c)
  | inl false => ((None, Some (AppErr (errors.NewNotFoundError "Configuration" name))), c)
  | inl true =>
      let '(failed, c) := driver c in
      if failed then ((None, Some (SqlError ErrDriver)), c)
      else
        let '(versions, c) := rows_Next (order_by_version (select_versions name (db c))) c in
        ((Some {| entity.LName := name; entity.Versions := versions |}, None), c)
  end.

Definition RegisterSchema (configName : string) (schema : RawMessage) (c : Conn)
    : option error * Conn :=
  let '(r, c) := QueryExists (fun d => bool_decide (is_Some (schemas d !! configName))) c in
  match r with
  | inr e => (Some (SqlError e), c)
  | inl true =>
      let '(r, c) := Exec (update_schema configName (string_of_raw schema)) c in
      (SqlError <$> r, c)
  | inl false =>
      let '(r, c) := Exec (insert_schema configName (string_of_raw schema)) c in
      (SqlError <$> r, c)
  end.

Definition GetSchema (configName : string) (c : Conn)
    : (RawMessage * option error) * Conn :=
  let '(r, c) := QueryRow (fun d => schemas d !! configName) c in
  match r with
  | inr ErrNoRows => ((None, Some (AppErr (errors.NewNotFoundError "Schema" configName))), c)
  | inr e => ((None, Some (SqlError e)), c)
  | inl schemaStr => ((raw_of_string schemaStr, None), c)
  end.

Definition StoreVersionData (configName : string) (ver : Z) (data : RawMessage) (c : Conn)
    : option error * Conn :=
  let '(r, c) := Exec (replace_version_data configName ver (string_of_raw data)) c in
  (SqlError <$> r, c).

Definition GetVersionData (configName : string) (ver : Z) (c : Conn)
    : (RawMessage * option error) * Conn :=
  let '(r, c) := QueryRow (fun d => version_data d !! (configName, ver)) c in
  match r with
  | inr ErrNoRows =>
      ((None, Some (AppErr (errors.NewNotFoundError "Version data"
                              (configName ++ ":" ++ pretty ver)))), c)
  | inr e => ((None, Some (SqlError e)), c)
  | inl dataStr => ((raw_of_string dataStr, None), c)
  end.

(** [*ConfigurationRepository] implements the interface. *)
Definition Repository : repository.ConfigurationRepository Conn :=
  {| repository.CreateConfiguration := CreateConfiguration;
     repository.UpdateConfiguration := UpdateConfiguration;
     repository.GetConfiguration := GetConfiguration;
     repository.GetConfigurationVersion := GetConfigurationVersion;
     repository.ListConfigurationVersions := ListConfigurationVersions;
     repository.RegisterSchema := RegisterSchema;
     repository.GetSchema := GetSchema;
     repository.StoreVersionData := StoreVersionData;
     repository.GetVersionData := GetVersionData |}.

End sqlite.

(** ** internal/usecase: the versioning engine *)

Module usecase.

Record ConfigurationUseCase (S : Type) := mkUseCase {
  repo : repository.ConfigurationRepository S;
  validator : validator.Validator
}.

Arguments repo {S}.
Arguments validator {S}.

(** [x == nil] *)
Definition is_nil {A : Type} (x : option A) : bool :=
  match x with
  | None => true
  | Some _ => false
  end.

Definition NewConfigurationUseCase {S : Type}
    (gojsonschema_Validate : string -> string -> validator.GjsResult)
    (gojsonschema_NewSchema : string -> option string)
    (r : repository.ConfigurationRepository S) : ConfigurationUseCase S :=
  {| repo := r;
     validator := validator.NewJSONSchemaValidator gojsonschema_Validate gojsonschema_NewSchema |}.

Section Methods.

Context {S : Type} (uc : ConfigurationUseCase S).

Definition CreateConfiguration (name : string) (data : RawMessage) (now : Time) (s : S)
    : (option entity.Configuration * option error) * S :=
  let '((existingConfig, err), s) := repository.GetConfiguration (repo uc) name s in
  if is_nil err && negb (is_nil existingConfig)
  then ((None, Some (AppErr (errors.NewAlreadyExistsError "Configuration" name))), s)
  else
    let '((schema, err), s) := repository.GetSchema (repo uc) name s in
    match (if is_nil err && negb (is_nil schema)
           then validator.ValidateJSON (validator uc) schema data
           else None) with
    | Some err => ((None, Some err), s)
    | None =>
        let config := entity.NewConfiguration name data now in
        let '(err, s) := repository.CreateConfiguration (repo uc) config s in
        match err with
        | Some err =>
            ((None, Some (AppErr (errors.NewInternalError "Failed to create configuration"
                                    (errors.DetailsString (Error err))))), s)
        | None =>
            let '(err, s) :=
              repository.StoreVersionData (repo uc) name (entity.Version config) data s in
            match err with
            | Some err =>
                ((None, Some (AppErr (errors.NewInternalError "Failed to store version data"
                                        (errors.DetailsString (Error err))))), s)
            | None => ((Some config, None), s)
            end
        end
    end.

Definition UpdateConfiguration (name : string) (data : RawMessage) (now : Time) (s : S)
    : (option entity.Configuration * option error) * S :=
  let '((existingConfig, err), s) := repository.GetConfiguration (repo uc) name s in
  match err, existingConfig with
  | None, Some existingConfig =>
      let '((schema, err), s) := repository.GetSchema (repo uc) name s in
      match (if is_nil err && negb (is_nil schema)
             then validator.ValidateJSON (validator uc) schema data
             else None) with
      | Some err => ((None, Some err), s)
      | None =>
          let newConfig := entity.UpdateVersion existingConfig data now in
          let '(err, s) := repository.UpdateConfiguration (repo uc) newConfig s in
          match err with
          | Some err =>
              ((None, Some (AppErr (errors.NewInternalError "Failed to update configuration"
                                      (errors.DetailsString (Error err))))), s)
          | None =>
              let '(err, s) :=
                repository.StoreVersionData (repo uc) name (entity.Version newConfig) data s in
              match err with
              | Some err =>
                  ((None, Some (AppErr (errors.NewInternalError "Failed to store version data"
                                          (errors.DetailsString (Error err))))), s)
              | None => ((Some newConfig, None), s)
              end
          end
      end
  | _, _ => ((None, Some (AppErr (errors.NewNotFoundError "Configuration" name))), s)
  end.

Definition GetConfiguration (name : string) (s : S)
    : (option entity.Configuration * option error) * S :=
  let '((config, err), s) := repository.GetConfiguration (repo uc) name s in
  match err with
  | Some _ => ((None, Some (AppErr (errors.NewNotFoundError "Configuration" name))), s)
  | None => ((config, None), s)
  end.

Definition GetConfigurationVersion (name : string) (ver : Z) (s : S)
    : (option entity.Configuration * option error) * S :=
  let '((config, err), s) := repository.GetConfigurationVersion (repo uc) name ver s in
  match err with
  | Some _ => ((None, Some (AppErr (errors.NewNotFoundError "Configuration version" name))), s)
  | None => ((config, None), s)
  end.

Definition ListConfigurationVersions (name : string) (s : S)
    : (option entity.VersionList * option error) * S :=
  let '((_, err), s) := repository.GetConfiguration (repo uc) name s in
  match err with
  | Some _ => ((None, Some (AppErr (errors.NewNotFoundError "Configuration" name))), s)
  | None =>
      let '((versions, err), s) := repository.ListConfigurationVersions (repo uc) name s in
      match err with
      | Some err =>
          ((None, Some (AppErr (errors.NewInternalError "Failed to list configuration versions"
                                  (errors.DetailsString (Error err))))), s)
      | None => ((versions, None), s)
      end
  end.

Definition RollbackConfiguration (name : string) (targetVersion : Z) (now : Time) (s : S)
    : (option entity.Configuration * option error) * S :=
  let '((currentConfig, err), s) := repository.GetConfiguration (repo uc) name s in
  match err, currentConfig with
  | None, Some currentConfig =>
      let '((targetData, err), s) := repository.GetVersionData (repo uc) name targetVersion s in
      if negb (is_nil err) || is_nil targetData
      then ((None, Some (AppErr (errors.NewNotFoundError "Configuration version" name))), s)
      else
        let newConfig :=
          entity.NewVersionFromRollback currentConfig targetVersion targetData now in
        let '(err, s) := repository.UpdateConfiguration (repo uc) newConfig s in
        match err with
        | Some err =>
            ((None, Some (AppErr (errors.NewInternalError "Failed to rollback configuration"
                                    (errors.DetailsString (Error err))))), s)
        | None =>
            let '(err, s) :=
              repository.StoreVersionData (repo uc) name (entity.Version newConfig)
                targetData s in
            match err with
            | Some err =>
                ((None, Some (AppErr (errors.NewInternalError "Failed to store version data"
                                        (errors.DetailsString (Error err))))), s)
            | None => ((Some newConfig, None), s)
            end
        end
  | _, _ => ((None, Some (AppErr (errors.NewNotFoundError "Configuration" name))), s)
  end.

Definition RegisterSchema (configName : string) (schema : RawMessage) (s : S)
    : option error * S :=
  match validator.ValidateSchemaDefinition (validator uc) schema with
  | Some err => (Some err, s)
  | None =>
      let '(err, s) := repository.RegisterSchema (repo uc) configName schema s in
      match err with
      | Some err =>
          (Some (AppErr (errors.NewInternalError "Failed to register schema"
                           (errors.DetailsString (Error err)))), s)
      | None => (None, s)
      end
  end.

Definition GetSchema (configName : string) (s : S) : (RawMessage * option error) * S :=
  let '((schema, err), s) := repository.GetSchema (repo uc) configName s in
  match err with
  | Some _ => ((None, Some (AppErr (errors.NewNotFoundError "Schema" configName))), s)
  | None => ((schema, None), s)
  end.

Definition ValidateConfigurationData (configName : string) (data : RawMessage) (s : S)
    : option error * S :=
  let '((schema, err), s) := repository.GetSchema (repo uc) configName s in
  match err with
  | Some _ => (Some (AppErr (errors.NewNotFoundError "Schema" configName)), s)
  | None => (validator.ValidateJSON (validator uc) schema data, s)
  end.

End Methods.

End usecase.

(** ** The service as wired in [main]: the engine over the SQLite store *)

Definition engine (v : validator.Validator) : usecase.ConfigurationUseCase sqlite.Conn :=
  {| usecase.repo := sqlite.Repository; usecase.validator := v |}.

(** The kind of the error of a result, [None] on success. *)
Definition kind_of {A : Type} (r : option A * option error) : option errors.ErrorCode :=
  r.2 ≫= code_of.

(** The calls that write, with the driver failures met during each. *)
Inductive Call :=
| Create (name : string) (data : RawMessage) (now : Time) (fs : list bool)
| Update (name : string) (data : RawMessage) (now : Time) (fs : list bool)
| Rollback (name : string) (targetVersion : Z) (now : Time) (fs : list bool)
| Register (name : string) (schema : RawMessage) (fs : list bool).

(** The tables after a call on the tables [d]. *)
Definition after (v : validator.Validator) (call : Call) (d : sqlite.DB) : sqlite.DB :=
  match call with
  | Create name data now fs =>
      sqlite.db (usecase.CreateConfiguration (engine v) name data now (sqlite.mkConn d fs)).2
  | Update name data now fs =>
      sqlite.db (usecase.UpdateConfiguration (engine v) name data now (sqlite.mkConn d fs)).2
  | Rollback name target now fs =>
      sqlite.db (usecase.RollbackConfiguration (engine v) name target now (sqlite.mkConn d fs)).2
  | Register name schema fs =>
      sqlite.db (usecase.RegisterSchema (engine v) name schema (sqlite.mkConn d fs)).2
  end.

(** The tables after a sequence of calls, starting from the empty database. *)
Definition run (v : validator.Validator) (calls : list Call) : sqlite.DB :=
  foldl (fun d call => after v call d) sqlite.empty_db calls.

(** A small validator for examples: the schema "strict" rejects every
    document but "ok", any other schema accepts everything. *)
Definition demo_Validate (schema data : string) : validator.GjsResult :=
  if bool_decide (schema = "strict") && negb (bool_decide (data = "ok"))
  then validator.GjsChecked [errors.mkValidationError "(root)" "k is required"]
  else validator.GjsChecked [].

Definition demo_validator : validator.Validator :=
  validator.NewJSONSchemaValidator demo_Validate (fun _ => None).

(** ** Go's package strings, for separators of one byte *)

Module gostrings.

(** [strings.Split(s, sep)] for a separator [sep] of one byte: the pieces
    of [s] between the occurrences of [sep], one more than there are
    occurrences. *)
Fixpoint Split (s : string) (sep : ascii) : list string :=
  match s with
  | EmptyString => [EmptyString]
  | String ch rest =>
      if Ascii.eqb ch sep then EmptyString :: Split rest sep
      else match Split rest sep with
           | piece :: pieces => String ch piece :: pieces
           | [] => [String ch EmptyString]
           end
  end.

(** [strings.Contains(s, sep)] for a separator of one byte. *)
Fixpoint Contains (s : string) (sep : ascii) : bool :=
  match s with
  | EmptyString => false
  | String ch rest => Ascii.eqb ch sep || Contains rest sep
  end.

(** [strings.LastIndex(s, sep)] for a separator of one byte: the index of
    its last occurrence, -1 when there is none. *)
Fixpoint LastIndex (s : string) (sep : ascii) : Z :=
  match s with
  | EmptyString => -1
  | String ch rest =>
      let i := LastIndex rest sep in
      if (0 <=? i)%Z then i + 1
      else if Ascii.eqb ch sep then 0 else -1
  end.

End gostrings.

(** ** pkg/errors: the body of an error response *)

Module errresp.

Record ErrorResponse := mkErrorResponse {
  RError : string;
  RDetails : errors.Details;
  RCode : errors.ErrorCode
}.

Definition NewErrorResponse (message : string) (code : errors.ErrorCode)
    (details : errors.Details) : ErrorResponse :=
  {| RError := message; RCode := code; RDetails := details |}.

Definition ToErrorResponse (e : errors.AppError) : ErrorResponse :=
  {| RError := errors.Message e; RCode := errors.Code e; RDetails := errors.AppDetails e |}.

End errresp.

(** ** net/http: the status codes the service uses *)

Definition StatusOK : Z := 200.
Definition StatusCreated : Z := 201.
Definition StatusBadRequest : Z := 400.
Definition StatusUnauthorized : Z := 401.
Definition StatusNotFound : Z := 404.
Definition StatusConflict : Z := 409.
Definition StatusInternalServerError : Z := 500.

(** ** internal/delivery/http/middleware: authentication *)

Module middleware.

(** What the middleware does with a request: answer it itself
    ([c.AbortWithStatusJSON]) or set "client_id" and pass it on ([c.Next]). *)
Inductive AuthResult :=
| Abort (status : Z) (body : errresp.ErrorResponse)
| Next (client_id : string).

Section Authenticate.

(** [strings.ToLower] of the Go library. *)
Variable ToLower : string -> string.

(** [m.apiKeys] *)
Variable apiKeys : gmap string string.

Definition Authenticate (authHeader : string) : AuthResult :=
  if bool_decide (authHeader = "")
  then Abort StatusUnauthorized
         (errresp.NewErrorResponse "API key is required" errors.ErrorCodeUnauthorized
            errors.DetailsNil)
  else
    let parts := gostrings.Split authHeader " " in
    match parts with
    | [scheme; apiKey] =>
        if bool_decide (ToLower scheme = "bearer")
        then match apiKeys !! apiKey with
             | Some clientID => Next clientID
             | None =>
                 Abort StatusUnauthorized
                   (errresp.NewErrorResponse "Invalid API key" errors.ErrorCodeUnauthorized
                      errors.DetailsNil)
             end
        else Abort StatusUnauthorized
               (errresp.NewErrorResponse "Invalid authorization format"
                  errors.ErrorCodeUnauthorized errors.DetailsNil)
    | _ =>
        Abort StatusUnauthorized
          (errresp.NewErrorResponse "Invalid authorization format"
             errors.ErrorCodeUnauthorized errors.DetailsNil)
    end.

End Authenticate.

End middleware.

(** ** The command: what [main] derives from the environment *)

Module main.

Section parseAPIKeys.

(** [strings.TrimSpace] of the Go library. *)
Variable TrimSpace : string -> string.

Definition parseAPIKeys (keysStr : string) : gmap string string :=
  if bool_decide (keysStr = "") then ∅
  else
    foldl (fun result pair =>
             match gostrings.Split pair ":" with
             | [key; client] => <[TrimSpace key := TrimSpace client]> result
             | _ => result
             end)
          ∅ (gostrings.Split keysStr ",").

(** The keys [main] hands to the middleware for the value of API_KEYS. *)
Definition apiKeys (env : string) : gmap string string :=
  let apiKeys := parseAPIKeys env in
  if bool_decide (size apiKeys = 0%nat)
  then <["dev-api-key" := "development"]> apiKeys
  else apiKeys.

End parseAPIKeys.

(** The directory [main] creates for the database file, for the value of
    SQLITE_DB_PATH: [dbPath[:strings.LastIndex(dbPath, "/")]], a slice that
    panics ([None]) when the index is -1. *)
Definition dir (env : string) : option string :=
  let dbPath := if bool_decide (env = "") then "data/config.db" else env in
  let i := gostrings.LastIndex dbPath "/" in
  if (i <? 0)%Z then None else Some (substring 0 (Z.to_nat i) dbPath).

End main.

(** ** internal/delivery/http/handler *)

Module handler.

(** What a handler writes with [c.JSON]: the status and the value encoded
    as the body. *)
Inductive Body :=
| ErrorBody (resp : errresp.ErrorResponse)
| ConfigurationBody (config : option entity.Configuration)
| VersionListBody (versions : option entity.VersionList)
| RegisteredBody (name status : string)      (* gin.H{"name": ..., "status": ...} *)
| SchemaBody (schemaObj : string).           (* the value the schema bytes decode to *)

Definition Response : Type := Z * Body.

Section Handlers.

(** [h.configService] *)
Context {S : Type} (configService : usecase.ConfigurationUseCase S).

(** [strconv.Atoi]: the error message, or the number. *)
Variable strconv_Atoi : string -> string + Z.

(** [json.Unmarshal] into an [interface{}]: its error message, [None] when
    the bytes decode. *)
Variable json_Unmarshal : string -> option string.

(** The request body is given as [c.ShouldBindJSON] leaves it: the message
    of its error, or the bound request. *)

Definition CreateConfiguration (req : string + (string * RawMessage)) (now : Time) (s : S)
    : Response * S :=
  match req with
  | inl err =>
      ((StatusBadRequest,
        ErrorBody (errresp.NewErrorResponse "Invalid request body"
                     errors.ErrorCodeInvalidRequest (errors.DetailsString err))), s)
  | inr (Name, Data) =>
      let '((config, err), s) := usecase.CreateConfiguration configService Name Data now s in
      match err with
      | Some (AppErr appErr) =>
          match errors.Code appErr with
          | errors.ErrorCodeAlreadyExists =>
              ((StatusConflict, ErrorBody (errresp.ToErrorResponse appErr)), s)
          | errors.ErrorCodeValidationFailed =>
              ((StatusBadRequest, ErrorBody (errresp.ToErrorResponse appErr)), s)
          | _ => ((StatusInternalServerError, ErrorBody (errresp.ToErrorResponse appErr)), s)
          end
      | Some err =>
          ((StatusInternalServerError,
            ErrorBody (errresp.NewErrorResponse "Failed to create configuration"
                         errors.ErrorCodeInternalError (errors.DetailsString (Error err)))), s)
      | None => ((StatusCreated, ConfigurationBody config), s)
      end
  end.

Definition UpdateConfiguration (name : string) (req : string + RawMessage) (now : Time) (s : S)
    : Response * S :=
  if bool_decide (name = "")
  then ((StatusBadRequest,
         ErrorBody (errresp.NewErrorResponse "Configuration name is required"
                      errors.ErrorCodeInvalidRequest errors.DetailsNil)), s)
  else
    match req with
    | inl err =>
        ((StatusBadRequest,
          ErrorBody (errresp.NewErrorResponse "Invalid request body"
                       errors.ErrorCodeInvalidRequest (errors.DetailsString err))), s)
    | inr Data =>
        let '((config, err), s) := usecase.UpdateConfiguration configService name Data now s in
        match err with
        | Some (AppErr appErr) =>
            match errors.Code appErr with
            | errors.ErrorCodeNotFound =>
                ((StatusNotFound, ErrorBody (errresp.ToErrorResponse appErr)), s)
            | errors.ErrorCodeValidationFailed =>
                ((StatusBadRequest, ErrorBody (errresp.ToErrorResponse appErr)), s)
            | _ => ((StatusInternalServerError, ErrorBody (errresp.ToErrorResponse appErr)), s)
            end
        | Some err =>
            ((StatusInternalServerError,
              ErrorBody (errresp.NewErrorResponse "Failed to update configuration"
                           errors.ErrorCodeInternalError (errors.DetailsString (Error err)))), s)
        | None => ((StatusOK, ConfigurationBody config), s)
        end
    end.

Definition GetConfiguration (name : string) (s : S) : Response * S :=
  if bool_decide (name = "")
  then ((StatusBadRequest,
         ErrorBody (errresp.NewErrorResponse "Configuration name is required"
                      errors.ErrorCodeInvalidRequest errors.DetailsNil)), s)
  else
    let '((config, err), s) := usecase.GetConfiguration configService name s in
    match err with
    | Some (AppErr appErr) =>
        match errors.Code appErr with
        | errors.ErrorCodeNotFound =>
            ((StatusNotFound, ErrorBody (errresp.ToErrorResponse appErr)), s)
        | _ => ((StatusInternalServerError, ErrorBody (errresp.ToErrorResponse appErr)), s)
        end
    | Some err =>
        ((StatusInternalServerError,
          ErrorBody (errresp.NewErrorResponse "Failed to get configuration"
                       errors.ErrorCodeInternalError (errors.DetailsString (Error err)))), s)
    | None => ((StatusOK, ConfigurationBody config), s)
    end.

Definition GetConfigurationVersion (name versionStr : string) (s : S) : Response * S :=
  if bool_decide (name = "")
  then ((StatusBadRequest,
         ErrorBody (errresp.NewErrorResponse "Configuration name is required"
                      errors.ErrorCodeInvalidRequest errors.DetailsNil)), s)
  else if bool_decide (versionStr = "")
  then ((StatusBadRequest,
         ErrorBody (errresp.NewErrorResponse "Version is required"
                      errors.ErrorCodeInvalidRequest errors.DetailsNil)), s)
  else
    match strconv_Atoi versionStr with
    | inl err =>
        ((StatusBadRequest,
          ErrorBody (errresp.NewErrorResponse "Invalid version format"
                       errors.ErrorCodeInvalidRequest (errors.DetailsString err))), s)
    | inr version =>
        let '((config, err), s) :=
          usecase.GetConfigurationVersion configService name version s in
        match err with
        | Some (AppErr appErr) =>
            match errors.Code appErr with
            | errors.ErrorCodeNotFound =>
                ((StatusNotFound, ErrorBody (errresp.ToErrorResponse appErr)), s)
            | _ => ((StatusInternalServerError, ErrorBody (errresp.ToErrorResponse appErr)), s)
            end
        | Some err =>
            ((StatusInternalServerError,
              ErrorBody (errresp.NewErrorResponse "Failed to get configuration version"
                           errors.ErrorCodeInternalError (errors.DetailsString (Error err)))), s)
        | None => ((StatusOK, ConfigurationBody config), s)
        end
    end.

Definition ListConfigurationVersions (name : string) (s : S) : Response * S :=
  if bool_decide (name = "")
  then ((StatusBadRequest,
         ErrorBody (errresp.NewErrorResponse "Configuration name is required"
                      errors.ErrorCodeInvalidRequest errors.DetailsNil)), s)
  else
    let '((versions, err), s) := usecase.ListConfigurationVersions configService name s in
    match err with
    | Some (AppErr appErr) =>
        match errors.Code appErr with
        | errors.ErrorCodeNotFound =>
            ((StatusNotFound, ErrorBody (errresp.ToErrorResponse appErr)), s)
        | _ => ((StatusInternalServerError, ErrorBody (errresp.ToErrorResponse appErr)), s)
        end
    | Some err =>
        ((StatusInternalServerError,
          ErrorBody (errresp.NewErrorResponse "Failed to list configuration versions"
                       errors.ErrorCodeInternalError (errors.DetailsString (Error err)))), s)
    | None => ((StatusOK, VersionListBody versions), s)
    end.

Definition RollbackConfiguration (name : string) (req : string + Z) (now : Time) (s : S)
    : Response * S :=
  if bool_decide (name = "")
  then ((StatusBadRequest,
         ErrorBody (errresp.NewErrorResponse "Configuration name is required"
                      errors.ErrorCodeInvalidRequest errors.DetailsNil)), s)
  else
    match req with
    | inl err =>
        ((StatusBadRequest,
          ErrorBody (errresp.NewErrorResponse "Invalid request body"
                       errors.ErrorCodeInvalidRequest (errors.DetailsString err))), s)
    | inr TargetVersion =>
        let '((config, err), s) :=
          usecase.RollbackConfiguration configService name TargetVersion now s in
        match err with
        | Some (AppErr appErr) =>
            match errors.Code appErr with
            | errors.ErrorCodeNotFound =>
                ((StatusNotFound, ErrorBody (errresp.ToErrorResponse appErr)), s)
            | _ => ((StatusInternalServerError, ErrorBody (errresp.ToErrorResponse appErr)), s)
            end
        | Some err =>
            ((StatusInternalServerError,
              ErrorBody (errresp.NewErrorResponse "Failed to rollback configuration"
                           errors.ErrorCodeInternalError (errors.DetailsString (Error err)))), s)
        | None => ((StatusOK, ConfigurationBody config), s)
        end
    end.

Definition RegisterSchema (name : string) (req : string + RawMessage) (s : S) : Response * S :=
  if bool_decide (name = "")
  then ((StatusBadRequest,
         ErrorBody (errresp.NewErrorResponse "Configuration name is required"
                      errors.ErrorCodeInvalidRequest errors.DetailsNil)), s)
  else
    match req with
    | inl err =>
        ((StatusBadRequest,
          ErrorBody (errresp.NewErrorResponse "Invalid schema format"
                       errors.ErrorCodeInvalidRequest (errors.DetailsString err))), s)
    | inr schema =>
        let '(err, s) := usecase.RegisterSchema configService name schema s in
        match err with
        | Some (AppErr appErr) =>
            match errors.Code appErr with
            | errors.ErrorCodeInvalidRequest =>
                ((StatusBadRequest, ErrorBody (errresp.ToErrorResponse appErr)), s)
            | _ => ((StatusInternalServerError, ErrorBody (errresp.ToErrorResponse appErr)), s)
            end
        | Some err =>
            ((StatusInternalServerError,
              ErrorBody (errresp.NewErrorResponse "Failed to register schema"
                           errors.ErrorCodeInternalError (errors.DetailsString (Error err)))), s)
        | None => ((StatusCreated, RegisteredBody name "schema registered successfully"), s)
        end
    end.

Definition GetSchema (name : string) (s : S) : Response * S :=
  if bool_decide (name = "")
  then ((StatusBadRequest,
         ErrorBody (errresp.NewErrorResponse "Configuration name is required"
                      errors.ErrorCodeInvalidRequest errors.DetailsNil)), s)
  else
    let '((schema, err), s) := usecase.GetSchema configService name s in
    match err with
    | Some (AppErr appErr) =>
        match errors.Code appErr with
        | errors.ErrorCodeNotFound =>
            ((StatusNotFound, ErrorBody (errresp.ToErrorResponse appErr)), s)
        | _ => ((StatusInternalServerError, ErrorBody (errresp.ToErrorResponse appErr)), s)
        end
    | Some err =>
        ((StatusInternalServerError,
          ErrorBody (errresp.NewErrorResponse "Failed to get schema"
                       errors.ErrorCodeInternalError (errors.DetailsString (Error err)))), s)
    | None =>
        match json_Unmarshal (string_of_raw schema) with
        | Some err =>
            ((StatusInternalServerError,
              ErrorBody (errresp.NewErrorResponse "Failed to parse schema"
                           errors.ErrorCodeInternalError (errors.DetailsString err))), s)
        | None => ((StatusOK, SchemaBody (string_of_raw schema)), s)
        end
    end.

End Handlers.

End handler.

(** ** pkg/validator: the validator that keeps its schemas by name *)

Module schema_validator.

Section SchemaValidator.

(** The library's compiled schema [*gojsonschema.Schema], its constructor
    [gojsonschema.NewSchema] over the bytes (the error message, or the
    schema) and its method [Validate]. *)
Variable Schema : Type.
Variable gojsonschema_NewSchema : string -> string + Schema.
Variable Schema_Validate : Schema -> string -> validator.GjsResult.

Record SchemaValidator := mkSchemaValidator {
  schemas : gmap string Schema;
  schemaJSON : gmap string RawMessage
}.

Definition NewSchemaValidator : SchemaValidator :=
  {| schemas := ∅; schemaJSON := ∅ |}.

(** The errors of this validator are made with [fmt.Errorf]: they are
    given by their message. *)
Definition RegisterSchema (v : SchemaValidator) (configName : string) (schemaJSON' : RawMessage)
    : option string * SchemaValidator :=
  match gojsonschema_NewSchema (string_of_raw schemaJSON') with
  | inl err => (Some ("invalid schema for " ++ configName ++ ": " ++ err), v)
  | inr schema =>
      (None, {| schemas := <[configName := schema]> (schemas v);
                schemaJSON := <[configName := schemaJSON']> (schemaJSON v) |})
  end.

Definition Validate (v : SchemaValidator) (configName : string) (data : RawMessage)
    : option (list errors.ValidationError) * option string :=
  match schemas v !! configName with
  | None => (None, Some ("no schema registered for configuration: " ++ configName))
  | Some schema =>
      match Schema_Validate schema (string_of_raw data) with
      | validator.GjsError err => (None, Some ("validation error: " ++ err))
      | validator.GjsChecked [] => (None, None)
      | validator.GjsChecked violations => (Some violations, None)
      end
  end.

Definition HasSchema (v : SchemaValidator) (configName : string) : bool :=
  match schemas v !! configName with
  | Some _ => true
  | None => false
  end.

Definition GetSchema (v : SchemaValidator) (configName : string) : RawMessage * option string :=
  match schemas v !! configName with
  | None => (None, Some ("no schema registered for configuration: " ++ configName))
  | Some _ => (default None (schemaJSON v !! configName), None)
  end.

End SchemaValidator.

End schema_validator.

(** ** Auxiliary definitions for the proofs *)

(** The configuration [sqlite.GetConfiguration] builds from the row of a
    name and the payload of its head. *)
Definition row_config (name : string) (row : sqlite.ConfigRow) (dataStr : string)
    : entity.Configuration :=
  {| entity.Name := name;
     entity.Version := sqlite.version row;
     entity.Data := raw_of_string dataStr;
     entity.CreatedAt := sqlite.created_at row;
     entity.UpdatedAt := sqlite.updated_at row;
     entity.RollbackFrom := default 0 (sqlite.rollback_from row);
     entity.RollbackTo := default 0 (sqlite.rollback_to row) |}.

(** The row the INSERT of [sqlite.CreateConfiguration] writes for [cfg]. *)
Definition created_row (cfg : entity.Configuration) : sqlite.ConfigRow :=
  {| sqlite.version := entity.Version cfg;
     sqlite.created_at := entity.CreatedAt cfg;
     sqlite.updated_at := entity.UpdatedAt cfg;
     sqlite.rollback_from := None;
     sqlite.rollback_to := None |}.

(** The row the UPDATE of [sqlite.UpdateConfiguration] makes of [row]. *)
Definition updated_row (cfg : entity.Configuration) (row : sqlite.ConfigRow) : sqlite.ConfigRow :=
  {| sqlite.version := entity.Version cfg;
     sqlite.created_at := sqlite.created_at row;
     sqlite.updated_at := entity.UpdatedAt cfg;
     sqlite.rollback_from := Some (entity.RollbackFrom cfg);
     sqlite.rollback_to := Some (entity.RollbackTo cfg) |}.

(** The tables of configurations, versions and payloads are the same. *)
Definition same_tables (d d' : sqlite.DB) : Prop :=
  sqlite.configurations d' = sqlite.configurations d /\
  sqlite.versions d' = sqlite.versions d /\
  sqlite.version_data d' = sqlite.version_data d.

(** The tables [d'] are the tables [d] after the head of [entity.Name cfg]
    has moved to [cfg]: head row altered and version record inserted in one
    transaction, payload [p] written afterwards when [stored]. *)
Definition advanced (cfg : entity.Configuration) (p : string) (stored : bool)
    (d d' : sqlite.DB) : Prop :=
  sqlite.versions d !! (entity.Name cfg, entity.Version cfg) = None /\
  sqlite.configurations d' =
    alter (updated_row cfg) (entity.Name cfg) (sqlite.configurations d) /\
  sqlite.versions d' =
    <[(entity.Name cfg, entity.Version cfg) :=
        {| sqlite.v_created_at := entity.UpdatedAt cfg;
           sqlite.is_rollback := (0 <? entity.RollbackFrom cfg)%Z |}]> (sqlite.versions d) /\
  sqlite.schemas d' = sqlite.schemas d /\
  sqlite.version_data d' =
    if stored then <[(entity.Name cfg, entity.Version cfg) := p]> (sqlite.version_data d)
    else sqlite.version_data d.

(** The tables [d'] are the tables [d] after the creation of [cfg]: row and
    version record inserted in one transaction, payload [p] written
    afterwards when [stored]. *)
Definition created (cfg : entity.Configuration) (p : string) (stored : bool)
    (d d' : sqlite.DB) : Prop :=
  sqlite.configurations d !! entity.Name cfg = None /\
  sqlite.versions d !! (entity.Name cfg, entity.Version cfg) = None /\
  sqlite.configurations d' = <[entity.Name cfg := created_row cfg]> (sqlite.configurations d) /\
  sqlite.versions d' =
    <[(entity.Name cfg, entity.Version cfg) :=
        {| sqlite.v_created_at := entity.CreatedAt cfg; sqlite.is_rollback := false |}]>
      (sqlite.versions d) /\
  sqlite.schemas d' = sqlite.schemas d /\
  sqlite.version_data d' =
    if stored then <[(entity.Name cfg, entity.Version cfg) := p]> (sqlite.version_data d)
    else sqlite.version_data d.

(** The invariant of the store. Every head is between 1 and the bound [n];
    the version records of a name are those of 1..head; a version record
    belongs to a configuration; a payload belongs to a version record; every
    version below the head has its payload. *)
Record store_inv (n : Z) (d : sqlite.DB) : Prop := mkStoreInv {
  inv_bound : 0 <= n;
  inv_head : forall name row,
    sqlite.configurations d !! name = Some row -> 1 <= sqlite.version row <= n;
  inv_records : forall name row ver,
    sqlite.configurations d !! name = Some row ->
    is_Some (sqlite.versions d !! (name, ver)) <-> 1 <= ver <= sqlite.version row;
  inv_owner : forall name ver,
    is_Some (sqlite.versions d !! (name, ver)) -> is_Some (sqlite.configurations d !! name);
  inv_payload_record : forall k,
    is_Some (sqlite.version_data d !! k) -> is_Some (sqlite.versions d !! k);
  inv_history : forall name row ver,
    sqlite.configurations d !! name = Some row ->
    1 <= ver < sqlite.version row -> is_Some (sqlite.version_data d !! (name, ver))
}.

(** The error [errors.NewNotFoundError resourceType name] as an [error]. *)
Definition not_found (resourceType name : string) : option error :=
  Some (AppErr (errors.NewNotFoundError resourceType name)).

(** Every error of the result is an application error of one of [kinds]. *)
Definition fails_only_with {A : Type} (kinds : list errors.ErrorCode)
    (r : option A * option error) : Prop :=
  forall e, r.2 = Some e -> exists k, code_of e = Some k /\ k ∈ kinds.

(** The driver failures of a call that reaches its last statement, the
    INSERT OR REPLACE of [StoreVersionData], and fails there. *)
Definition payload_failure : list bool := [false; false; false; false; false; false; true].

(** The same for an Update or a Rollback, which read the head with two
    statements where Create on a free name needs one. *)
Definition payload_failure_on_head : list bool :=
  [false; false; false; false; false; false; false; true].

(** The head [cfg] is in the tables [d]: its row, its version record and
    its payload [p]. *)
Definition head_written (cfg : entity.Configuration) (p : string) (d : sqlite.DB) : Prop :=
  (exists row, sqlite.configurations d !! entity.Name cfg = Some row /\
               sqlite.version row = entity.Version cfg) /\
  is_Some (sqlite.versions d !! (entity.Name cfg, entity.Version cfg)) /\
  sqlite.version_data d !! (entity.Name cfg, entity.Version cfg) = Some p.

(** The version numbers ListVersions lists for a name, in its order. *)
Definition listed_versions (name : string) (d : sqlite.DB) : list Z :=
  entity.VVersion <$> sqlite.order_by_version (sqlite.select_versions name d).

(** The order of ORDER BY version. *)
Definition version_le (a b : entity.VersionInfo) : Prop :=
  entity.VVersion a <= entity.VVersion b.

(** The pieces joined again with the separator: [strings.Join]. *)
Fixpoint join (sep : ascii) (pieces : list string) : string :=
  match pieces with
  | [] => EmptyString
  | [piece] => piece
  | piece :: pieces => piece ++ String sep (join sep pieces)
  end.

Definition unauthorized (message : string) : middleware.AuthResult :=
  middleware.Abort StatusUnauthorized
    (errresp.NewErrorResponse message errors.ErrorCodeUnauthorized errors.DetailsNil).

Definition add_pair (TrimSpace : string -> string) (result : gmap string string)
    (pair : string) : gmap string string :=
  match gostrings.Split pair ":" with
  | [key; client] => <[TrimSpace key := TrimSpace client]> result
  | _ => result
  end.

(** The status the handlers give to an error code. *)
Definition status_of_code (code : errors.ErrorCode) : Z :=
  match code with
  | errors.ErrorCodeNotFound => StatusNotFound
  | errors.ErrorCodeValidationFailed => StatusBadRequest
  | errors.ErrorCodeAlreadyExists => StatusConflict
  | errors.ErrorCodeInvalidRequest => StatusBadRequest
  | errors.ErrorCodeInternalError => StatusInternalServerError
  | errors.ErrorCodeUnauthorized => StatusUnauthorized
  end.

(** The response is the success [ok] with a result as its body, or an
    error body under the status of its code, which is one of [kinds]. *)
Definition answers (ok : Z) (kinds : list errors.ErrorCode) (resp : handler.Response) : Prop :=
  match resp.2 with
  | handler.ErrorBody e =>
      resp.1 = status_of_code (errresp.RCode e) /\ errresp.RCode e ∈ kinds
  | _ => resp.1 = ok
  end.

(** A status of the class 4xx. *)
Definition client_error (status : Z) : Prop := 400 <= status < 500.

(** The validator after the registrations [regs], made in this order on a
    new validator, failed ones included. *)
Definition registered {Schema : Type} (NewSchema : string -> string + Schema)
    (regs : list (string * RawMessage)) : schema_validator.SchemaValidator Schema :=
  foldl (fun v reg => (schema_validator.RegisterSchema Schema NewSchema v reg.1 reg.2).2)
        (schema_validator.NewSchemaValidator Schema) regs.

(** The compiled schema and the bytes a validator keeps for a name belong
    together. *)
Definition coherent {Schema : Type} (NewSchema : string -> string + Schema)
    (v : schema_validator.SchemaValidator Schema) : Prop :=
  forall name,
    match schema_validator.schemas Schema v !! name with
    | Some schema =>
        exists bytes,
          schema_validator.schemaJSON Schema v !! name = Some bytes /\
          NewSchema (string_of_raw bytes) = inr schema
    | None => schema_validator.schemaJSON Schema v !! name = None
    end.

(** The fields of a configuration a reader can compare: the data as bytes. *)
Definition same_configuration (a b : entity.Configuration) : Prop :=
  entity.Name a = entity.Name b /\
  entity.Version a = entity.Version b /\
  string_of_raw (entity.Data a) = string_of_raw (entity.Data b) /\
  entity.CreatedAt a = entity.CreatedAt b /\
  entity.UpdatedAt a = entity.UpdatedAt b /\
  entity.RollbackFrom a = entity.RollbackFrom b /\
  entity.RollbackTo a = entity.RollbackTo b.

(** A configuration whose head has no payload. *)
Definition head_without_payload (name : string) (d : sqlite.DB) : Prop :=
  exists row, sqlite.configurations d !! name = Some row /\
              sqlite.version_data d !! (name, sqlite.version row) = None.

(** Stand-ins for examples: [strings.ToLower] and [strings.TrimSpace] on
    ASCII text. *)
Definition demo_ToLower (s : string) : string :=
  string_of_list_ascii
    (map (fun ch => let n := nat_of_ascii ch in
                    if (65 <=? n)%nat && (n <=? 90)%nat then ascii_of_nat (n + 32) else ch)
         (list_ascii_of_string s)).

Fixpoint trim_left (s : string) : string :=
  match s with
  | String ch rest => if Ascii.eqb ch " " then trim_left rest else s
  | EmptyString => EmptyString
  end.

Definition demo_TrimSpace (s : string) : string :=
  String.rev (trim_left (String.rev (trim_left s))).

(** * Facts about the SQLite repository *)

Ltac sql_simpl := cbn [sqlite.db sqlite.failures fst snd hd tl fmap option_fmap option_map] in *.

Ltac sql_unfold :=
  unfold sqlite.QueryRow, sqlite.QueryExists, sqlite.Exec, sqlite.Begin, sqlite.tx_Exec,
    sqlite.Commit, sqlite.driver in *;
  sql_simpl.

Ltac sql_step :=
  match goal with
  | |- context [hd false ?fs] => destruct (hd false fs)
  | H : context [hd false ?fs] |- _ => destruct (hd false fs)
  | |- context [match ?m !! ?k with _ => _ end] => destruct (m !! k) eqn:?
  | H : context [match ?m !! ?k with _ => _ end] |- _ => destruct (m !! k) eqn:?
  | H : context [match ?x with ErrNoRows => _ | _ => _ end] |- _ => destruct x
  | |- context [match ?x with ErrNoRows => _ | _ => _ end] => destruct x
  | H : context [if bool_decide ?P then _ else _] |- _ => destruct (bool_decide_reflect P)
  | |- context [if bool_decide ?P then _ else _] => destruct (bool_decide_reflect P)
  end.

Ltac sql_cases := repeat (first [progress sql_simpl | sql_step]).

Lemma GetConfiguration_inv name c oc oe c' :
  sqlite.GetConfiguration name c = ((oc, oe), c') ->
  sqlite.db c' = sqlite.db c /\
  ((exists row dataStr,
      sqlite.configurations (sqlite.db c) !! name = Some row /\
      sqlite.version_data (sqlite.db c) !! (name, sqlite.version row) = Some dataStr /\
      oc = Some (row_config name row dataStr) /\ oe = None)
   \/ (oc = None /\ is_Some oe)).
Proof.
  unfold sqlite.GetConfiguration. sql_unfold. intros H.
  sql_cases; simplify_eq; cbn [sqlite.db]; split; eauto 10.
Qed.

Lemma GetConfiguration_healthy name d :
  sqlite.GetConfiguration name (sqlite.mkConn d []) =
  (match sqlite.configurations d !! name with
   | None => (None, Some (AppErr (errors.NewNotFoundError "Configuration" name)))
   | Some row =>
       match sqlite.version_data d !! (name, sqlite.version row) with
       | None => (None, Some (SqlError ErrNoRows))
       | Some dataStr => (Some (row_config name row dataStr), None)
       end
   end, sqlite.mkConn d []).
Proof.
  unfold sqlite.GetConfiguration. sql_unfold.
  sql_cases; reflexivity.
Qed.

Lemma GetSchema_inv name c os oe c' :
  sqlite.GetSchema name c = ((os, oe), c') ->
  sqlite.db c' = sqlite.db c /\
  ((exists s, sqlite.schemas (sqlite.db c) !! name = Some s /\ os = Some s /\ oe = None)
   \/ (os = None /\ is_Some oe)).
Proof.
  unfold sqlite.GetSchema, raw_of_string. sql_unfold. intros H.
  sql_cases; simplify_eq; cbn [sqlite.db]; split; eauto 10.
Qed.

Lemma GetSchema_healthy name d :
  sqlite.GetSchema name (sqlite.mkConn d []) =
  (match sqlite.schemas d !! name with
   | None => (None, Some (AppErr (errors.NewNotFoundError "Schema" name)))
   | Some s => (Some s, None)
   end, sqlite.mkConn d []).
Proof.
  unfold sqlite.GetSchema, raw_of_string. sql_unfold.
  sql_cases; reflexivity.
Qed.

Lemma GetVersionData_inv name ver c od oe c' :
  sqlite.GetVersionData name ver c = ((od, oe), c') ->
  sqlite.db c' = sqlite.db c /\
  ((exists s, sqlite.version_data (sqlite.db c) !! (name, ver) = Some s /\ od = Some s /\ oe = None)
   \/ (od = None /\ is_Some oe)).
Proof.
  unfold sqlite.GetVersionData, raw_of_string. sql_unfold. intros H.
  sql_cases; simplify_eq; cbn [sqlite.db]; split; eauto 10.
Qed.

Lemma GetVersionData_healthy name ver d :
  sqlite.GetVersionData name ver (sqlite.mkConn d []) =
  (match sqlite.version_data d !! (name, ver) with
   | None => (None, Some (AppErr (errors.NewNotFoundError "Version data" (name ++ ":" ++ pretty ver))))
   | Some s => (Some s, None)
   end, sqlite.mkConn d []).
Proof.
  unfold sqlite.GetVersionData, raw_of_string. sql_unfold.
  sql_cases; reflexivity.
Qed.

Ltac stmt_unfold :=
  unfold sqlite.insert_configuration, sqlite.insert_version, sqlite.update_configuration,
    sqlite.replace_version_data, sqlite.update_schema, sqlite.insert_schema in *.

Lemma CreateConfiguration_inv cfg c oe c' :
  sqlite.CreateConfiguration cfg c = (oe, c') ->
  (is_Some oe /\ sqlite.db c' = sqlite.db c)
  \/ (oe = None /\
      sqlite.configurations (sqlite.db c) !! entity.Name cfg = None /\
      sqlite.versions (sqlite.db c) !! (entity.Name cfg, entity.Version cfg) = None /\
      sqlite.configurations (sqlite.db c') =
        <[entity.Name cfg := created_row cfg]> (sqlite.configurations (sqlite.db c)) /\
      sqlite.versions (sqlite.db c') =
        <[(entity.Name cfg, entity.Version cfg) :=
            {| sqlite.v_created_at := entity.CreatedAt cfg; sqlite.is_rollback := false |}]>
          (sqlite.versions (sqlite.db c)) /\
      sqlite.version_data (sqlite.db c') = sqlite.version_data (sqlite.db c) /\
      sqlite.schemas (sqlite.db c') = sqlite.schemas (sqlite.db c)).
Proof.
  unfold sqlite.CreateConfiguration. sql_unfold. stmt_unfold. intros H.
  sql_cases; simplify_eq; cbn [sqlite.db sqlite.configurations sqlite.versions
    sqlite.version_data sqlite.schemas] in *; eauto 10.
Qed.

Lemma CreateConfiguration_healthy cfg d :
  sqlite.configurations d !! entity.Name cfg = None ->
  sqlite.versions d !! (entity.Name cfg, entity.Version cfg) = None ->
  exists d',
    sqlite.CreateConfiguration cfg (sqlite.mkConn d []) = (None, sqlite.mkConn d' []).
Proof.
  intros H1 H2.
  unfold sqlite.CreateConfiguration. sql_unfold. stmt_unfold.
  rewrite H1. sql_simpl. cbn [sqlite.versions]. rewrite H2. sql_simpl. eauto.
Qed.

Lemma UpdateConfiguration_inv cfg c oe c' :
  sqlite.UpdateConfiguration cfg c = (oe, c') ->
  (is_Some oe /\ sqlite.db c' = sqlite.db c)
  \/ (oe = None /\
      sqlite.versions (sqlite.db c) !! (entity.Name cfg, entity.Version cfg) = None /\
      sqlite.configurations (sqlite.db c') =
        alter (updated_row cfg) (entity.Name cfg) (sqlite.configurations (sqlite.db c)) /\
      sqlite.versions (sqlite.db c') =
        <[(entity.Name cfg, entity.Version cfg) :=
            {| sqlite.v_created_at := entity.UpdatedAt cfg;
               sqlite.is_rollback := (0 <? entity.RollbackFrom cfg)%Z |}]>
          (sqlite.versions (sqlite.db c)) /\
      sqlite.version_data (sqlite.db c') = sqlite.version_data (sqlite.db c) /\
      sqlite.schemas (sqlite.db c') = sqlite.schemas (sqlite.db c)).
Proof.
  unfold sqlite.UpdateConfiguration. sql_unfold. stmt_unfold. intros H.
  sql_cases; simplify_eq; cbn [sqlite.db sqlite.configurations sqlite.versions
    sqlite.version_data sqlite.schemas] in *; eauto 10.
Qed.

Lemma UpdateConfiguration_healthy cfg d :
  sqlite.versions d !! (entity.Name cfg, entity.Version cfg) = None ->
  exists d',
    sqlite.UpdateConfiguration cfg (sqlite.mkConn d []) = (None, sqlite.mkConn d' []).
Proof.
  intros H2.
  unfold sqlite.UpdateConfiguration. sql_unfold. stmt_unfold.
  cbn [sqlite.versions]. rewrite H2. sql_simpl. eauto.
Qed.

Lemma StoreVersionData_inv name ver data c oe c' :
  sqlite.StoreVersionData name ver data c = (oe, c') ->
  (is_Some oe /\ sqlite.db c' = sqlite.db c)
  \/ (oe = None /\
      sqlite.configurations (sqlite.db c') = sqlite.configurations (sqlite.db c) /\
      sqlite.versions (sqlite.db c') = sqlite.versions (sqlite.db c) /\
      sqlite.version_data (sqlite.db c') =
        <[(name, ver) := string_of_raw data]> (sqlite.version_data (sqlite.db c)) /\
      sqlite.schemas (sqlite.db c') = sqlite.schemas (sqlite.db c)).
Proof.
  unfold sqlite.StoreVersionData. sql_unfold. stmt_unfold. intros H.
  sql_cases; simplify_eq; cbn [sqlite.db sqlite.configurations sqlite.versions
    sqlite.version_data sqlite.schemas] in *; eauto 10.
Qed.

Lemma StoreVersionData_healthy name ver data d :
  exists d', sqlite.StoreVersionData name ver data (sqlite.mkConn d []) = (None, sqlite.mkConn d' []).
Proof.
  unfold sqlite.StoreVersionData. sql_unfold. stmt_unfold. sql_simpl. eauto.
Qed.

Lemma RegisterSchema_inv name schema c oe c' :
  sqlite.RegisterSchema name schema c = (oe, c') ->
  same_tables (sqlite.db c) (sqlite.db c').
Proof.
  unfold sqlite.RegisterSchema, same_tables. sql_unfold. stmt_unfold. intros H.
  sql_cases; simplify_eq; cbn [sqlite.db sqlite.configurations sqlite.versions
    sqlite.version_data sqlite.schemas] in *; eauto 10.
Qed.

Lemma GetConfigurationVersion_healthy name ver d :
  sqlite.GetConfigurationVersion name ver (sqlite.mkConn d []) =
  (match sqlite.versions d !! (name, ver) with
   | None => (None, Some (AppErr (errors.NewNotFoundError "Configuration version"
                                    (name ++ ":" ++ pretty ver))))
   | Some vrow =>
       match sqlite.version_data d !! (name, ver) with
       | None => (None, Some (SqlError ErrNoRows))
       | Some dataStr =>
           match sqlite.configurations d !! name with
           | None => (None, Some (SqlError ErrNoRows))
           | Some row =>
               (Some {| entity.Name := name;
                        entity.Version := ver;
                        entity.Data := Some dataStr;
                        entity.CreatedAt := sqlite.created_at row;
                        entity.UpdatedAt := sqlite.v_created_at vrow;
                        entity.RollbackFrom := 0;
                        entity.RollbackTo := 0 |}, None)
           end
       end
   end, sqlite.mkConn d []).
Proof.
  unfold sqlite.GetConfigurationVersion, raw_of_string. sql_unfold.
  sql_cases; simplify_eq; try done.
  all: match goal with H : is_Some _ |- _ => destruct H; congruence
                     | H : ¬ is_Some _ |- _ => exfalso; apply H; eauto end.
Qed.

Lemma rows_Next_healthy rows d :
  sqlite.rows_Next rows (sqlite.mkConn d []) = (rows, sqlite.mkConn d []).
Proof.
  induction rows as [|version rows IH]; cbn [sqlite.rows_Next]; sql_unfold; [done|].
  by rewrite IH.
Qed.

Lemma rows_Next_db rows c : sqlite.db (sqlite.rows_Next rows c).2 = sqlite.db c.
Proof.
  revert c. induction rows as [|version rows IH]; intros c; cbn [sqlite.rows_Next]; sql_unfold.
  { done. }
  destruct (hd false (sqlite.failures c)); [done|].
  specialize (IH {| sqlite.db := sqlite.db c; sqlite.failures := tl (sqlite.failures c) |}).
  destruct (sqlite.rows_Next rows _) as [versions c']. exact IH.
Qed.


Lemma rows_Next_prefix rows c : (sqlite.rows_Next rows c).1 `prefix_of` rows.
Proof.
  revert c. induction rows as [|version rows IH]; intros c; cbn [sqlite.rows_Next]; sql_unfold.
  { done. }
  destruct (hd false (sqlite.failures c)); [apply prefix_nil|].
  specialize (IH {| sqlite.db := sqlite.db c; sqlite.failures := tl (sqlite.failures c) |}).
  destruct (sqlite.rows_Next rows _) as [versions c']. by apply prefix_cons.
Qed.

Lemma ListConfigurationVersions_healthy name d :
  sqlite.ListConfigurationVersions name (sqlite.mkConn d []) =
  (match sqlite.configurations d !! name with
   | None => (None, Some (AppErr (errors.NewNotFoundError "Configuration" name)))
   | Some _ =>
       (Some {| entity.LName := name;
                entity.Versions := sqlite.order_by_version (sqlite.select_versions name d) |},
        None)
   end, sqlite.mkConn d []).
Proof.
  unfold sqlite.ListConfigurationVersions. sql_unfold.
  rewrite rows_Next_healthy.
  sql_cases; simplify_eq; try done.
  all: match goal with H : is_Some _ |- _ => destruct H; congruence
                     | H : ¬ is_Some _ |- _ => exfalso; apply H; eauto end.
Qed.

Ltac uc_unfold :=
  unfold usecase.CreateConfiguration, usecase.UpdateConfiguration, usecase.GetConfiguration,
    usecase.GetConfigurationVersion, usecase.ListConfigurationVersions,
    usecase.RollbackConfiguration, usecase.RegisterSchema, usecase.GetSchema,
    usecase.ValidateConfigurationData, engine in *;
  cbn [usecase.repo usecase.validator repository.CreateConfiguration
       repository.UpdateConfiguration repository.GetConfiguration
       repository.GetConfigurationVersion repository.ListConfigurationVersions
       repository.RegisterSchema repository.GetSchema repository.StoreVersionData
       repository.GetVersionData sqlite.Repository] in *.

Ltac uc_simpl :=
  cbn [usecase.is_nil negb andb orb fst snd sqlite.db sqlite.failures] in *.

Ltac some_cleanup :=
  repeat match goal with
         | H : is_Some (Some _) |- _ => clear H
         | H : is_Some None |- _ => by destruct H
         | H : is_Some ?x |- _ => is_var x; destruct H as [? ->]
         end.

Ltac repo_step :=
  match goal with
  | H : context [sqlite.GetConfiguration ?n ?c] |- _ =>
      let E := fresh "E" in
      destruct (sqlite.GetConfiguration n c) as [[? ?] [? ?]] eqn:E;
      apply GetConfiguration_inv in E as [? [(?&?&?&?&?&?)|[? ?]]]
  | H : context [sqlite.GetSchema ?n ?c] |- _ =>
      let E := fresh "E" in
      destruct (sqlite.GetSchema n c) as [[? ?] [? ?]] eqn:E;
      apply GetSchema_inv in E as [? [(?&?&?&?)|[? ?]]]
  | H : context [sqlite.GetVersionData ?n ?k ?c] |- _ =>
      let E := fresh "E" in
      destruct (sqlite.GetVersionData n k c) as [[? ?] [? ?]] eqn:E;
      apply GetVersionData_inv in E as [? [(?&?&?&?)|[? ?]]]
  | H : context [sqlite.CreateConfiguration ?cfg ?c] |- _ =>
      let E := fresh "E" in
      destruct (sqlite.CreateConfiguration cfg c) as [? [? ?]] eqn:E;
      apply CreateConfiguration_inv in E as [[? ?]|(?&?&?&?&?&?&?)]
  | H : context [sqlite.UpdateConfiguration ?cfg ?c] |- _ =>
      let E := fresh "E" in
      destruct (sqlite.UpdateConfiguration cfg c) as [? [? ?]] eqn:E;
      apply UpdateConfiguration_inv in E as [[? ?]|(?&?&?&?&?&?)]
  | H : context [sqlite.StoreVersionData ?n ?k ?x ?c] |- _ =>
      let E := fresh "E" in
      destruct (sqlite.StoreVersionData n k x c) as [? [? ?]] eqn:E;
      apply StoreVersionData_inv in E as [[? ?]|(?&?&?&?&?)]
  | H : context [match validator.ValidateJSON ?v ?s ?x with _ => _ end] |- _ =>
      destruct (validator.ValidateJSON v s x) eqn:?
  end; uc_simpl; some_cleanup; simplify_eq; uc_simpl.

Lemma Create_inv v name data now c r c' :
  usecase.CreateConfiguration (engine v) name data now c = (r, c') ->
  (r.1 = None /\ is_Some r.2 /\ sqlite.db c' = sqlite.db c)
  \/ (sqlite.configurations (sqlite.db c) !! name = None /\
      sqlite.versions (sqlite.db c) !! (name, 1) = None /\
      sqlite.configurations (sqlite.db c') =
        <[name := created_row (entity.NewConfiguration name data now)]>
          (sqlite.configurations (sqlite.db c)) /\
      sqlite.versions (sqlite.db c') =
        <[(name, 1) := {| sqlite.v_created_at := now; sqlite.is_rollback := false |}]>
          (sqlite.versions (sqlite.db c)) /\
      sqlite.schemas (sqlite.db c') = sqlite.schemas (sqlite.db c) /\
      ((r.1 = None /\ kind_of r = Some errors.ErrorCodeInternalError /\
        sqlite.version_data (sqlite.db c') = sqlite.version_data (sqlite.db c))
       \/ (r = (Some (entity.NewConfiguration name data now), None) /\
           sqlite.version_data (sqlite.db c') =
             <[(name, 1) := string_of_raw data]> (sqlite.version_data (sqlite.db c))))).
Proof.
  intros H. uc_unfold.
  repeat repo_step; simplify_eq; uc_simpl.
  all: try (left; by eauto).
  all: right; cbn [entity.NewConfiguration entity.Name entity.Version entity.CreatedAt] in *.
  all: split_and!; try congruence.
  all: try (left; split_and!; [done|done|congruence]).
  all: try (right; split_and!; [done|congruence]).
Qed.

Lemma Update_inv v name data now c r c' :
  usecase.UpdateConfiguration (engine v) name data now c = (r, c') ->
  (r.1 = None /\ is_Some r.2 /\ sqlite.db c' = sqlite.db c)
  \/ (exists row dataStr,
        sqlite.configurations (sqlite.db c) !! name = Some row /\
        sqlite.version_data (sqlite.db c) !! (name, sqlite.version row) = Some dataStr /\
        let cfg := entity.UpdateVersion (row_config name row dataStr) data now in
        (r.1 = None /\ kind_of r = Some errors.ErrorCodeInternalError /\
         advanced cfg (string_of_raw data) false (sqlite.db c) (sqlite.db c'))
        \/ (r = (Some cfg, None) /\
            advanced cfg (string_of_raw data) true (sqlite.db c) (sqlite.db c'))).
Proof.
  intros H. uc_unfold.
  repeat repo_step; simplify_eq; uc_simpl.
  all: try (left; by eauto).
  all: right; do 2 eexists; split_and!; [done|done|]; unfold advanced;
    cbn [entity.UpdateVersion row_config entity.Name entity.Version entity.UpdatedAt
         entity.RollbackFrom] in *.
  all: try (left; split_and!; try done; congruence).
  all: try (right; split_and!; try done; congruence).
Qed.

Lemma Rollback_inv v name target now c r c' :
  usecase.RollbackConfiguration (engine v) name target now c = (r, c') ->
  (r.1 = None /\ kind_of r = Some errors.ErrorCodeNotFound /\ sqlite.db c' = sqlite.db c)
  \/ (exists row dataStr payload,
        sqlite.configurations (sqlite.db c) !! name = Some row /\
        sqlite.version_data (sqlite.db c) !! (name, sqlite.version row) = Some dataStr /\
        sqlite.version_data (sqlite.db c) !! (name, target) = Some payload /\
        let cfg :=
          entity.NewVersionFromRollback (row_config name row dataStr) target (Some payload) now in
        (r.1 = None /\ kind_of r = Some errors.ErrorCodeInternalError /\
         sqlite.db c' = sqlite.db c)
        \/ (r.1 = None /\ kind_of r = Some errors.ErrorCodeInternalError /\
            advanced cfg payload false (sqlite.db c) (sqlite.db c'))
        \/ (r = (Some cfg, None) /\
            advanced cfg payload true (sqlite.db c) (sqlite.db c'))).
Proof.
  intros H. uc_unfold.
  repeat repo_step; simplify_eq; uc_simpl.
  all: try (left; split_and!; by eauto).
  all: right; do 3 eexists; split_and!; [done|done|done|]; unfold advanced;
    cbn [entity.NewVersionFromRollback row_config entity.Name entity.Version entity.UpdatedAt
         entity.RollbackFrom string_of_raw] in *.
  all: try (left; split_and!; try done; congruence).
  all: try (right; left; split_and!; try done; congruence).
  all: try (right; right; split_and!; try done; congruence).
Qed.

Lemma Register_inv v name schema c r c' :
  usecase.RegisterSchema (engine v) name schema c = (r, c') ->
  same_tables (sqlite.db c) (sqlite.db c').
Proof.
  intros H. uc_unfold.
  destruct (validator.ValidateSchemaDefinition v schema).
  { simplify_eq. by unfold same_tables. }
  destruct (sqlite.RegisterSchema name schema c) as [oe c1] eqn:E.
  apply RegisterSchema_inv in E. destruct oe; by simplify_eq.
Qed.

(** * The invariant of the store *)

Lemma int_add_1 (a : Z) : min_int <= a < max_int -> int_add a 1 = a + 1.
Proof.
  unfold int_add, int_wrap, min_int, max_int. intros H.
  rewrite Z.mod_small; lia.
Qed.

Lemma store_inv_empty : store_inv 0 sqlite.empty_db.
Proof.
  split; cbn; intros; try lia.
  all: match goal with H : context [_ !! _] |- _ => rewrite lookup_empty in H end.
  all: first [done | by destruct H].
Qed.

Lemma store_inv_mono n m d : store_inv n d -> n <= m -> store_inv m d.
Proof.
  intros [Hb Hh Hr Ho Hp Hy] ?. split; try done; try lia.
  intros name row Hrow. specialize (Hh _ _ Hrow). lia.
Qed.

Lemma store_inv_same n d d' : store_inv n d -> same_tables d d' -> store_inv n d'.
Proof.
  intros [Hb Hh Hr Ho Hp Hy] (Hc & Hv & Hd). split; rewrite ?Hc, ?Hv, ?Hd; done.
Qed.

Lemma created_inv n cfg p stored d d' :
  store_inv n d -> entity.Version cfg = 1 -> created cfg p stored d d' -> store_inv (n + 1) d'.
Proof.
  intros [Hb Hh Hr Ho Hp Hy] Hver (Hfresh & _ & Hc & Hv & _ & Hd). rewrite Hver in *.
  assert (Hnone : forall ver, sqlite.versions d !! (entity.Name cfg, ver) = None).
  { intros ver. destruct (sqlite.versions d !! (entity.Name cfg, ver)) eqn:E; [|done].
    destruct (Ho (entity.Name cfg) ver) as [? ?]; [eauto|congruence]. }
  split; rewrite ?Hc, ?Hv; try lia.
  - intros name row. rewrite lookup_insert. case_decide; intros Hrow; simplify_eq.
    + unfold created_row; cbn. lia.
    + specialize (Hh _ _ Hrow). lia.
  - intros name row ver. rewrite lookup_insert. case_decide; intros Hrow; simplify_eq.
    + unfold created_row; cbn. rewrite Hver. rewrite lookup_insert.
      case_decide as Hk; simplify_eq.
      * split; [lia|done].
      * rewrite Hnone. split; [by intros [? ?]|]. intros ?. exfalso. apply Hk.
        f_equal; lia.
    + rewrite lookup_insert_ne by congruence. by apply Hr.
  - intros name ver. rewrite !lookup_insert. repeat case_decide; simplify_eq; eauto.
  - intros k Hk. rewrite lookup_insert. case_decide; [eauto|].
    apply Hp. destruct stored; rewrite Hd in Hk; [|done].
    by rewrite lookup_insert_ne in Hk.
  - intros name row ver. rewrite lookup_insert. case_decide; intros Hrow Hlt; simplify_eq.
    + unfold created_row in *; cbn in *. lia.
    + assert (is_Some (sqlite.version_data d !! (name, ver))) by eauto.
      destruct stored; rewrite Hd; [|done].
      rewrite lookup_insert_ne; [done|congruence].
Qed.

Lemma advanced_inv n cfg p stored d d' row :
  store_inv n d ->
  sqlite.configurations d !! entity.Name cfg = Some row ->
  is_Some (sqlite.version_data d !! (entity.Name cfg, sqlite.version row)) ->
  entity.Version cfg = sqlite.version row + 1 ->
  advanced cfg p stored d d' ->
  store_inv (n + 1) d'.
Proof.
  intros [Hb Hh Hr Ho Hp Hy] Hrow Hhead Hver (_ & Hc & Hv & _ & Hd).
  pose proof (Hh _ _ Hrow) as Hrange.
  split; rewrite ?Hc, ?Hv; try lia.
  - intros name row'. rewrite lookup_alter. case_decide; intros Hrow'; simplify_eq.
    + rewrite Hrow in Hrow'. cbn in Hrow'. simplify_eq. unfold updated_row; cbn. lia.
    + specialize (Hh _ _ Hrow'). lia.
  - intros name row' ver. rewrite lookup_alter. case_decide; intros Hrow'; simplify_eq.
    + rewrite Hrow in Hrow'. cbn in Hrow'. simplify_eq. unfold updated_row; cbn.
      rewrite lookup_insert. case_decide as Hk; simplify_eq.
      * split; [lia|done].
      * rewrite (Hr _ _ ver Hrow). split; [lia|]. intros ?.
        assert (ver <> entity.Version cfg) by congruence. lia.
    + rewrite lookup_insert_ne by congruence. by apply Hr.
  - intros name ver. rewrite lookup_insert, lookup_alter.
    repeat case_decide; simplify_eq; rewrite ?Hrow; eauto.
  - intros k Hk. rewrite lookup_insert. case_decide as Hne; [eauto|].
    apply Hp. destruct stored; rewrite Hd in Hk; [|done].
    by rewrite lookup_insert_ne in Hk.
  - intros name row' ver. rewrite lookup_alter. case_decide; intros Hrow' Hlt; simplify_eq.
    + rewrite Hrow in Hrow'. cbn in Hrow'. simplify_eq. unfold updated_row in Hlt; cbn in Hlt.
      assert (is_Some (sqlite.version_data d !! (entity.Name cfg, ver))) as Hsome.
      { destruct (decide (ver = sqlite.version row)) as [->|]; [done|].
        apply (Hy _ _ _ Hrow). lia. }
      destruct stored; rewrite Hd; [|done].
      rewrite lookup_insert_ne; [done|]. intros ?; simplify_eq. lia.
    + assert (is_Some (sqlite.version_data d !! (name, ver))) by eauto.
      destruct stored; rewrite Hd; [|done].
      rewrite lookup_insert_ne; [done|congruence].
Qed.

Lemma after_inv v n call d :
  store_inv n d -> n < max_int -> store_inv (n + 1) (after v call d).
Proof.
  intros Hinv Hn. pose proof (inv_bound _ _ Hinv) as Hb.
  assert (Hstay : store_inv (n + 1) d) by (eapply store_inv_mono; [done|lia]).
  destruct call as [name data now fs|name data now fs|name target now fs|name schema fs];
    unfold after.
  - destruct (usecase.CreateConfiguration _ _ _ _ _) as [r c'] eqn:E.
    apply Create_inv in E as [(_ & _ & Hsame)|(Hf & Hv & Hc & Hvs & Hs & Hcase)];
      cbn [snd sqlite.db] in *.
    { by rewrite Hsame. }
    destruct Hcase as [(_ & _ & Hd)|(_ & Hd)].
    + eapply (created_inv n (entity.NewConfiguration name data now) "" false); [done|done|].
      by unfold created.
    + eapply (created_inv n (entity.NewConfiguration name data now) _ true); [done|done|].
      by unfold created.
  - destruct (usecase.UpdateConfiguration _ _ _ _ _) as [r c'] eqn:E.
    apply Update_inv in E as [(_ & _ & Hsame)|(row & dataStr & Hrow & Hdata & Hcase)];
      cbn [snd sqlite.db] in *.
    { by rewrite Hsame. }
    pose proof (inv_head _ _ Hinv _ _ Hrow) as Hrange.
    destruct Hcase as [(_ & _ & Hadv)|(_ & Hadv)];
      (eapply advanced_inv; [done| | | |exact Hadv]; cbn;
       [done|by rewrite Hdata|apply int_add_1; unfold min_int; lia]).
  - destruct (usecase.RollbackConfiguration _ _ _ _ _) as [r c'] eqn:E.
    apply Rollback_inv in E as [(_ & _ & Hsame)|(row & dataStr & payload & Hrow & Hdata & _ & Hcase)];
      cbn [snd sqlite.db] in *.
    { by rewrite Hsame. }
    pose proof (inv_head _ _ Hinv _ _ Hrow) as Hrange.
    destruct Hcase as [(_ & _ & Hsame)|[(_ & _ & Hadv)|(_ & Hadv)]].
    { by rewrite Hsame. }
    all: (eapply advanced_inv; [done| | | |exact Hadv]; cbn;
       [done|by rewrite Hdata|apply int_add_1; unfold min_int; lia]).
  - destruct (usecase.RegisterSchema _ _ _ _) as [r c'] eqn:E.
    apply Register_inv in E. cbn [snd sqlite.db] in *.
    by eapply store_inv_same.
Qed.

Lemma foldl_after_inv v calls : forall n d,
  store_inv n d -> n + Z.of_nat (length calls) <= max_int ->
  store_inv (n + Z.of_nat (length calls)) (foldl (fun d call => after v call d) d calls).
Proof.
  induction calls as [|call calls IH]; intros n d Hinv Hn; cbn [foldl length] in *.
  - by rewrite Z.add_0_r.
  - replace (n + Z.of_nat (S (length calls))) with ((n + 1) + Z.of_nat (length calls)) by lia.
    apply IH; [|lia]. apply after_inv; [done|lia].
Qed.

Lemma run_inv v calls :
  Z.of_nat (length calls) <= max_int -> store_inv (Z.of_nat (length calls)) (run v calls).
Proof.
  intros Hn. unfold run.
  apply (foldl_after_inv v calls 0 sqlite.empty_db); [apply store_inv_empty|lia].
Qed.

(** * The engine on a store whose driver does not fail *)

Lemma uc_GetConfiguration_healthy v name d :
  (usecase.GetConfiguration (engine v) name (sqlite.mkConn d [])).1 =
  match sqlite.configurations d !! name with
  | None => (None, not_found "Configuration" name)
  | Some row =>
      match sqlite.version_data d !! (name, sqlite.version row) with
      | None => (None, not_found "Configuration" name)
      | Some dataStr => (Some (row_config name row dataStr), None)
      end
  end.
Proof.
  uc_unfold. rewrite GetConfiguration_healthy.
  destruct (sqlite.configurations d !! name); [|done].
  by destruct (sqlite.version_data d !! _).
Qed.

Lemma uc_GetConfigurationVersion_healthy v name ver d :
  (usecase.GetConfigurationVersion (engine v) name ver (sqlite.mkConn d [])).1 =
  match sqlite.versions d !! (name, ver), sqlite.version_data d !! (name, ver),
        sqlite.configurations d !! name with
  | Some vrow, Some dataStr, Some row =>
      (Some {| entity.Name := name;
               entity.Version := ver;
               entity.Data := Some dataStr;
               entity.CreatedAt := sqlite.created_at row;
               entity.UpdatedAt := sqlite.v_created_at vrow;
               entity.RollbackFrom := 0;
               entity.RollbackTo := 0 |}, None)
  | _, _, _ => (None, not_found "Configuration version" name)
  end.
Proof.
  uc_unfold. rewrite GetConfigurationVersion_healthy.
  destruct (sqlite.versions d !! _); [|done].
  destruct (sqlite.version_data d !! _); [|done].
  by destruct (sqlite.configurations d !! _).
Qed.

Lemma uc_ListConfigurationVersions_healthy v name d :
  (usecase.ListConfigurationVersions (engine v) name (sqlite.mkConn d [])).1 =
  match sqlite.configurations d !! name with
  | None => (None, not_found "Configuration" name)
  | Some row =>
      match sqlite.version_data d !! (name, sqlite.version row) with
      | None => (None, not_found "Configuration" name)
      | Some _ =>
          (Some {| entity.LName := name;
                   entity.Versions := sqlite.order_by_version (sqlite.select_versions name d) |},
           None)
      end
  end.
Proof.
  uc_unfold. rewrite GetConfiguration_healthy.
  destruct (sqlite.configurations d !! name) eqn:E; [|done].
  destruct (sqlite.version_data d !! _); [|done].
  rewrite ListConfigurationVersions_healthy. by rewrite E.
Qed.

Lemma length_insert_by_version x l :
  length (sqlite.insert_by_version x l) = S (length l).
Proof.
  induction l as [|y l IH]; cbn; [done|].
  destruct (_ <=? _)%Z; cbn; by rewrite ?IH.
Qed.

Lemma length_order_by_version l : length (sqlite.order_by_version l) = length l.
Proof.
  unfold sqlite.order_by_version.
  induction l as [|x l IH]; cbn [foldr]; [done|].
  by rewrite length_insert_by_version, IH.
Qed.

Lemma select_versions_insert name ver vrow d d' :
  sqlite.versions d !! (name, ver) = None ->
  sqlite.versions d' = <[(name, ver) := vrow]> (sqlite.versions d) ->
  length (sqlite.select_versions name d') = S (length (sqlite.select_versions name d)).
Proof.
  intros Hnone Hv. unfold sqlite.select_versions. rewrite Hv.
  rewrite (Permutation_length
    (omap_Permutation _ _ _ (map_to_list_insert (sqlite.versions d) (name, ver) vrow Hnone))).
  cbn. by rewrite decide_True.
Qed.

Lemma advanced_head cfg p stored d d' row :
  sqlite.configurations d !! entity.Name cfg = Some row ->
  advanced cfg p stored d d' ->
  sqlite.configurations d' !! entity.Name cfg = Some (updated_row cfg row).
Proof.
  intros Hrow (_ & Hc & _). rewrite Hc, lookup_alter, decide_True by done.
  by rewrite Hrow.
Qed.

Lemma Rollback_healthy v name target now d row dataStr payload :
  sqlite.configurations d !! name = Some row ->
  sqlite.version_data d !! (name, sqlite.version row) = Some dataStr ->
  sqlite.version_data d !! (name, target) = Some payload ->
  sqlite.versions d !! (name, int_add (sqlite.version row) 1) = None ->
  (usecase.RollbackConfiguration (engine v) name target now (sqlite.mkConn d [])).1 =
  (Some (entity.NewVersionFromRollback (row_config name row dataStr) target (Some payload) now),
   None).
Proof.
  intros Hrow Hdata Htarget Hfresh. uc_unfold.
  rewrite GetConfiguration_healthy, Hrow, Hdata.
  rewrite GetVersionData_healthy, Htarget. uc_simpl.
  set (cfg := entity.NewVersionFromRollback _ _ _ _).
  destruct (UpdateConfiguration_healthy cfg d Hfresh) as [d1 ->].
  by destruct (StoreVersionData_healthy name (entity.Version cfg) (Some payload) d1) as [d2 ->].
Qed.

(** * Error kinds, for any repository *)

Ltac gen_unfold :=
  unfold usecase.CreateConfiguration, usecase.UpdateConfiguration, usecase.GetConfiguration,
    usecase.GetConfigurationVersion, usecase.ListConfigurationVersions,
    usecase.RollbackConfiguration, usecase.RegisterSchema, usecase.GetSchema,
    usecase.ValidateConfigurationData, usecase.NewConfigurationUseCase in *;
  cbn [usecase.repo usecase.validator validator.ValidateJSON validator.ValidateSchemaDefinition
       validator.NewJSONSchemaValidator] in *;
  unfold validator.JSONSchemaValidator_ValidateJSON,
    validator.JSONSchemaValidator_ValidateSchemaDefinition in *.

Ltac gen_step :=
  match goal with
  | |- context [repository.GetConfiguration ?r ?n ?s] =>
      destruct (repository.GetConfiguration r n s) as [[[?|] [?|]] ?]
  | |- context [repository.GetConfigurationVersion ?r ?n ?k ?s] =>
      destruct (repository.GetConfigurationVersion r n k s) as [[[?|] [?|]] ?]
  | |- context [repository.ListConfigurationVersions ?r ?n ?s] =>
      destruct (repository.ListConfigurationVersions r n s) as [[[?|] [?|]] ?]
  | |- context [repository.GetSchema ?r ?n ?s] =>
      destruct (repository.GetSchema r n s) as [[[?|] [?|]] ?]
  | |- context [repository.GetVersionData ?r ?n ?k ?s] =>
      destruct (repository.GetVersionData r n k s) as [[[?|] [?|]] ?]
  | |- context [repository.CreateConfiguration ?r ?cfg ?s] =>
      destruct (repository.CreateConfiguration r cfg s) as [[?|] ?]
  | |- context [repository.UpdateConfiguration ?r ?cfg ?s] =>
      destruct (repository.UpdateConfiguration r cfg s) as [[?|] ?]
  | |- context [repository.StoreVersionData ?r ?n ?k ?x ?s] =>
      destruct (repository.StoreVersionData r n k x s) as [[?|] ?]
  | |- context [repository.RegisterSchema ?r ?n ?x ?s] =>
      destruct (repository.RegisterSchema r n x s) as [[?|] ?]
  | |- context [match ?gv ?a ?b with validator.GjsError _ => _ | _ => _ end] =>
      destruct (gv a b) as [?|[|? ?]]
  | |- context [match ?gn ?a with Some _ => _ | None => _ end] =>
      destruct (gn a)
  end; cbn [usecase.is_nil negb andb orb fst snd].

Ltac kinds_done :=
  cbn [fst snd]; intros ? ?; simplify_eq;
  try (eexists; split; [reflexivity|set_solver]).

Section ErrorKinds.

Context {S : Type} (r : repository.ConfigurationRepository S).
Variable gojsonschema_Validate : string -> string -> validator.GjsResult.
Variable gojsonschema_NewSchema : string -> option string.

Local Abbreviation uc :=
  (usecase.NewConfigurationUseCase gojsonschema_Validate gojsonschema_NewSchema r).

Lemma Create_kinds name data now s :
  fails_only_with [errors.ErrorCodeAlreadyExists; errors.ErrorCodeValidationFailed;
                   errors.ErrorCodeInternalError]
    (usecase.CreateConfiguration uc name data now s).1.
Proof.
  gen_unfold. unfold fails_only_with.
  repeat gen_step; kinds_done.
Qed.

Lemma Update_kinds name data now s :
  fails_only_with [errors.ErrorCodeNotFound; errors.ErrorCodeValidationFailed;
                   errors.ErrorCodeInternalError]
    (usecase.UpdateConfiguration uc name data now s).1.
Proof.
  gen_unfold. unfold fails_only_with.
  repeat gen_step; kinds_done.
Qed.

Lemma Rollback_kinds name target now s :
  fails_only_with [errors.ErrorCodeNotFound; errors.ErrorCodeInternalError]
    (usecase.RollbackConfiguration uc name target now s).1.
Proof.
  gen_unfold. unfold fails_only_with.
  repeat gen_step; kinds_done.
Qed.

Lemma Get_kinds name s :
  fails_only_with [errors.ErrorCodeNotFound] (usecase.GetConfiguration uc name s).1.
Proof.
  gen_unfold. unfold fails_only_with.
  repeat gen_step; kinds_done.
Qed.

Lemma GetVersion_kinds name ver s :
  fails_only_with [errors.ErrorCodeNotFound] (usecase.GetConfigurationVersion uc name ver s).1.
Proof.
  gen_unfold. unfold fails_only_with.
  repeat gen_step; kinds_done.
Qed.

Lemma List_kinds name s :
  fails_only_with [errors.ErrorCodeNotFound; errors.ErrorCodeInternalError]
    (usecase.ListConfigurationVersions uc name s).1.
Proof.
  gen_unfold. unfold fails_only_with.
  repeat gen_step; kinds_done.
Qed.

Lemma GetSchema_kinds name s :
  fails_only_with [errors.ErrorCodeNotFound] (usecase.GetSchema uc name s).1.
Proof.
  gen_unfold. unfold fails_only_with.
  repeat gen_step; kinds_done.
Qed.

Lemma Register_kinds name schema s :
  fails_only_with [errors.ErrorCodeInvalidRequest; errors.ErrorCodeInternalError]
    (None : option unit, (usecase.RegisterSchema uc name schema s).1).
Proof.
  gen_unfold. unfold fails_only_with.
  repeat gen_step; kinds_done.
Qed.


End ErrorKinds.

(** * What a call that succeeds has written, and what a failed lookup gives *)

Lemma created_written cfg p d d' : created cfg p true d d' -> head_written cfg p d'.
Proof.
  intros (_ & _ & Hc & Hv & _ & Hd). unfold head_written.
  rewrite Hc, Hv, Hd, !lookup_insert_eq. split_and!; [by eexists|done|done].
Qed.

Lemma advanced_written cfg p d d' row :
  sqlite.configurations d !! entity.Name cfg = Some row ->
  advanced cfg p true d d' -> head_written cfg p d'.
Proof.
  intros Hrow Hadv. pose proof (advanced_head _ _ _ _ _ _ Hrow Hadv) as Hhead.
  destruct Hadv as (_ & _ & Hv & _ & Hd). unfold head_written.
  rewrite Hhead, Hv, Hd, !lookup_insert_eq. split_and!; [by eexists|done|done].
Qed.

Lemma success_written v :
  (forall name data now c cfg,
     (usecase.CreateConfiguration (engine v) name data now c).1 = (Some cfg, None) ->
     head_written cfg (string_of_raw data)
       (sqlite.db (usecase.CreateConfiguration (engine v) name data now c).2)) /\
  (forall name data now c cfg,
     (usecase.UpdateConfiguration (engine v) name data now c).1 = (Some cfg, None) ->
     head_written cfg (string_of_raw data)
       (sqlite.db (usecase.UpdateConfiguration (engine v) name data now c).2)) /\
  (forall name target now c cfg,
     (usecase.RollbackConfiguration (engine v) name target now c).1 = (Some cfg, None) ->
     head_written cfg (string_of_raw (entity.Data cfg))
       (sqlite.db (usecase.RollbackConfiguration (engine v) name target now c).2)).
Proof.
  split_and!.
  - intros name data now c cfg.
    destruct (usecase.CreateConfiguration _ _ _ _ _) as [r c'] eqn:E. cbn [fst snd]. intros ->.
    apply Create_inv in E as [(? & _)|(Hf & Hfv & Hc & Hv & Hs & Hcase)]; cbn [fst snd] in *;
      [done|].
    destruct Hcase as [(? & _)|(? & Hd)]; [done|]. simplify_eq.
    by apply (created_written _ _ (sqlite.db c)).
  - intros name data now c cfg.
    destruct (usecase.UpdateConfiguration _ _ _ _ _) as [r c'] eqn:E. cbn [fst snd]. intros ->.
    apply Update_inv in E as [(? & _)|(row & dataStr & Hrow & _ & Hcase)]; cbn [fst snd] in *;
      [done|].
    destruct Hcase as [(? & _)|(? & Hadv)]; [done|]. simplify_eq.
    by eapply advanced_written; [|exact Hadv].
  - intros name target now c cfg.
    destruct (usecase.RollbackConfiguration _ _ _ _ _) as [r c'] eqn:E. cbn [fst snd]. intros ->.
    apply Rollback_inv in E as [(? & _)|(row & dataStr & payload & Hrow & _ & _ & Hcase)];
      cbn [fst snd] in *; [done|].
    destruct Hcase as [(? & _)|[(? & _)|(? & Hadv)]]; [done|done|]. simplify_eq.
    by eapply advanced_written; [|exact Hadv].
Qed.

Section LookupFailures.

Context {S : Type} (r : repository.ConfigurationRepository S).
Variable gojsonschema_Validate : string -> string -> validator.GjsResult.
Variable gojsonschema_NewSchema : string -> option string.

Local Abbreviation uc :=
  (usecase.NewConfigurationUseCase gojsonschema_Validate gojsonschema_NewSchema r).







End LookupFailures.

(** A failed write of the store, on the path that reaches it. *)

Section WriteFailures.

Context {S : Type} (r : repository.ConfigurationRepository S).
Variable gojsonschema_Validate : string -> string -> validator.GjsResult.
Variable gojsonschema_NewSchema : string -> option string.

Local Abbreviation uc :=
  (usecase.NewConfigurationUseCase gojsonschema_Validate gojsonschema_NewSchema r).
Local Abbreviation jv :=
  (validator.NewJSONSchemaValidator gojsonschema_Validate gojsonschema_NewSchema).







End WriteFailures.




Lemma Create_healthy_rejected v name data now d schema e :
  sqlite.configurations d !! name = None ->
  sqlite.schemas d !! name = Some schema ->
  validator.ValidateJSON v (Some schema) data = Some e ->
  usecase.CreateConfiguration (engine v) name data now (sqlite.mkConn d [])
  = ((None, Some e), sqlite.mkConn d []).
Proof.
  intros Hnone Hschema Hv. uc_unfold.
  rewrite GetConfiguration_healthy, Hnone. uc_simpl.
  rewrite GetSchema_healthy, Hschema. uc_simpl. by rewrite Hv.
Qed.

Lemma Create_healthy_exists v name data now d row dataStr :
  sqlite.configurations d !! name = Some row ->
  sqlite.version_data d !! (name, sqlite.version row) = Some dataStr ->
  usecase.CreateConfiguration (engine v) name data now (sqlite.mkConn d [])
  = ((None, Some (AppErr (errors.NewAlreadyExistsError "Configuration" name))),
     sqlite.mkConn d []).
Proof.
  intros Hrow Hdata. uc_unfold.
  by rewrite GetConfiguration_healthy, Hrow, Hdata.
Qed.

Lemma Update_healthy_rejected v name data now d row dataStr schema e :
  sqlite.configurations d !! name = Some row ->
  sqlite.version_data d !! (name, sqlite.version row) = Some dataStr ->
  sqlite.schemas d !! name = Some schema ->
  validator.ValidateJSON v (Some schema) data = Some e ->
  usecase.UpdateConfiguration (engine v) name data now (sqlite.mkConn d [])
  = ((None, Some e), sqlite.mkConn d []).
Proof.
  intros Hrow Hdata Hschema Hv. uc_unfold.
  rewrite GetConfiguration_healthy, Hrow, Hdata.
  rewrite GetSchema_healthy, Hschema. uc_simpl. by rewrite Hv.
Qed.

Lemma Update_healthy_missing v name data now d :
  sqlite.configurations d !! name = None ->
  usecase.UpdateConfiguration (engine v) name data now (sqlite.mkConn d [])
  = ((None, not_found "Configuration" name), sqlite.mkConn d []).
Proof.
  intros Hnone. uc_unfold. by rewrite GetConfiguration_healthy, Hnone.
Qed.

Lemma Create_rejected_unchanged v name data now c :
  kind_of (usecase.CreateConfiguration (engine v) name data now c).1
    = Some errors.ErrorCodeValidationFailed ->
  sqlite.db (usecase.CreateConfiguration (engine v) name data now c).2 = sqlite.db c.
Proof.
  destruct (usecase.CreateConfiguration _ _ _ _ _) as [r c'] eqn:E. cbn [fst snd]. intros Hk.
  apply Create_inv in E as [(_ & _ & ?)|(_ & _ & _ & _ & _ & Hcase)]; [done|].
  destruct Hcase as [(_ & Hk' & _)|(-> & _)]; [congruence|done].
Qed.

Lemma Update_rejected_unchanged v name data now c :
  kind_of (usecase.UpdateConfiguration (engine v) name data now c).1
    = Some errors.ErrorCodeValidationFailed ->
  sqlite.db (usecase.UpdateConfiguration (engine v) name data now c).2 = sqlite.db c.
Proof.
  destruct (usecase.UpdateConfiguration _ _ _ _ _) as [r c'] eqn:E. cbn [fst snd]. intros Hk.
  apply Update_inv in E as [(_ & _ & ?)|(row & dataStr & _ & _ & Hcase)]; [done|].
  destruct Hcase as [(_ & Hk' & _)|(-> & _)]; [congruence|done].
Qed.

(** * The listing of versions *)

Lemma insert_by_version_perm x l : sqlite.insert_by_version x l ≡ₚ x :: l.
Proof.
  induction l as [|y l IH]; cbn; [done|].
  destruct (_ <=? _)%Z; [done|]. rewrite IH. apply Permutation_swap.
Qed.

Lemma order_by_version_perm l : sqlite.order_by_version l ≡ₚ l.
Proof.
  unfold sqlite.order_by_version.
  induction l as [|x l IH]; cbn [foldr]; [done|].
  by rewrite insert_by_version_perm, IH.
Qed.

Lemma insert_by_version_sorted x l :
  StronglySorted version_le l -> StronglySorted version_le (sqlite.insert_by_version x l).
Proof.
  induction 1 as [|y l Hl IH Hy]; cbn.
  { repeat constructor. }
  destruct (Z.leb_spec (entity.VVersion x) (entity.VVersion y)) as [Hle|Hgt].
  - constructor; [by constructor|]. constructor; [done|].
    eapply Forall_impl; [exact Hy|]. unfold version_le. intros; cbn in *. lia.
  - constructor; [done|]. rewrite insert_by_version_perm.
    constructor; [|done]. unfold version_le. lia.
Qed.

Lemma order_by_version_sorted l : StronglySorted version_le (sqlite.order_by_version l).
Proof.
  unfold sqlite.order_by_version.
  induction l as [|x l IH]; cbn [foldr]; [constructor|].
  by apply insert_by_version_sorted.
Qed.

Lemma elem_of_selected name d ver :
  ver ∈ entity.VVersion <$> sqlite.select_versions name d
  <-> is_Some (sqlite.versions d !! (name, ver)).
Proof.
  unfold sqlite.select_versions. rewrite list_elem_of_fmap. split.
  - intros (x & -> & Hx). apply list_elem_of_omap in Hx as ([[n k] vrow] & Hin & Hf).
    apply elem_of_map_to_list in Hin. cbn in Hf. case_decide; simplify_eq. cbn. eauto.
  - intros [vrow Hv]. eexists. split; [|apply list_elem_of_omap].
    2:{ exists ((name, ver), vrow). split; [by apply elem_of_map_to_list|].
        cbn. by rewrite decide_True. }
    done.
Qed.

Lemma NoDup_selected name d : NoDup (entity.VVersion <$> sqlite.select_versions name d).
Proof.
  unfold sqlite.select_versions.
  pose proof (NoDup_fst_map_to_list (sqlite.versions d)) as Hnd.
  induction (map_to_list (sqlite.versions d)) as [|[[n k] vrow] l IH]; cbn [omap list_omap].
  { constructor. }
  cbn in Hnd. apply NoDup_cons in Hnd as [Hnotin Hnd]. cbn [fst snd].
  case_decide; [|by apply IH]. subst n. cbn. apply NoDup_cons. split; [|by apply IH].
  intros Hin. apply Hnotin. apply list_elem_of_fmap in Hin as (x & Hk & Hx).
  apply list_elem_of_omap in Hx as ([[n' k'] vrow'] & Hin' & Hf).
  cbn in Hf. case_decide; simplify_eq. cbn in *.
  apply list_elem_of_fmap. by exists ((name, k'), vrow').
Qed.

Lemma seqZ_sorted n : forall m, StronglySorted Z.le (seqZ m (Z.of_nat n)).
Proof.
  induction n as [|n IH]; intros m.
  { constructor. }
  rewrite seqZ_cons by lia. replace (Z.pred (Z.of_nat (S n))) with (Z.of_nat n) by lia.
  constructor; [apply IH|]. apply Forall_seqZ. lia.
Qed.

Lemma listed_versions_range name d h :
  0 <= h ->
  (forall ver, is_Some (sqlite.versions d !! (name, ver)) <-> 1 <= ver <= h) ->
  listed_versions name d = seqZ 1 h.
Proof.
  intros Hh Hiff. unfold listed_versions.
  apply (StronglySorted_unique_strong Z.le).
  - intros; lia.
  - apply (StronglySorted_fmap _ version_le); [done|apply order_by_version_sorted].
  - rewrite <-(Z2Nat.id h) by lia. apply seqZ_sorted.
  - rewrite order_by_version_perm. apply NoDup_Permutation.
    + apply NoDup_selected.
    + apply NoDup_seqZ.
    + intros ver. rewrite elem_of_selected, Hiff, elem_of_seqZ. lia.
Qed.

(** * Properties of the versioning engine *)

(** ** Create and its payload *)

(** C1, as stated, fails: starting from the empty database, a Create whose
    last statement (the payload insert of StoreVersionData) is failed by the
    driver returns InternalError and leaves the Configuration row and the
    version-1 record of the name in the tables, without a version-1 payload. *)
Lemma create_payload_failure_counterexample :
  let out := usecase.CreateConfiguration (engine demo_validator) "x" (Some "a") 10
               (sqlite.mkConn sqlite.empty_db payload_failure) in
  kind_of out.1 = Some errors.ErrorCodeInternalError /\
  sqlite.db out.2 = run demo_validator [Create "x" (Some "a") 10 payload_failure] /\
  is_Some (sqlite.configurations (sqlite.db out.2) !! "x") /\
  is_Some (sqlite.versions (sqlite.db out.2) !! ("x", 1)) /\
  sqlite.version_data (sqlite.db out.2) !! ("x", 1) = None.
Proof.
  vm_compute. split_and!; try done; by eexists.
Qed.

(** C1, amended: for every Create(name, data) call, whatever the driver does,
    the Configuration row and the version-1 record are written as a unit:
    either the call fails and the tables are unchanged, or the name was free
    and both the row and the version-1 record are in the tables afterwards.
    The payload is written after that unit: it is stored when the call
    succeeds, and otherwise the call returns InternalError with the payload
    table unchanged. *)
Theorem create_row_and_record_atomic v name data now c :
  let out := usecase.CreateConfiguration (engine v) name data now c in
  (out.1.1 = None /\ sqlite.db out.2 = sqlite.db c)
  \/ (sqlite.configurations (sqlite.db c) !! name = None /\
      sqlite.versions (sqlite.db c) !! (name, 1) = None /\
      is_Some (sqlite.configurations (sqlite.db out.2) !! name) /\
      is_Some (sqlite.versions (sqlite.db out.2) !! (name, 1)) /\
      ((is_Some out.1.1 /\
        sqlite.version_data (sqlite.db out.2) !! (name, 1) = Some (string_of_raw data))
       \/ (out.1.1 = None /\ kind_of out.1 = Some errors.ErrorCodeInternalError /\
           sqlite.version_data (sqlite.db out.2) = sqlite.version_data (sqlite.db c)))).
Proof.
  intros out. subst out.
  destruct (usecase.CreateConfiguration _ _ _ _ _) as [r c'] eqn:E.
  apply Create_inv in E as [(? & ? & ?)|(Hf & Hfv & Hc & Hv & _ & Hcase)]; cbn [fst snd] in *.
  { by left. }
  right. rewrite Hc, Hv, !lookup_insert_eq. split_and!; try done.
  destruct Hcase as [(? & ? & ?)|(-> & Hd)]; [by right|left].
  split; [done|]. by rewrite Hd, lookup_insert_eq.
Qed.

(** C9: a successful Create(name, data) returns version 1 with createdAt
    equal to updatedAt, and a GetVersion(name, 1) on the resulting tables
    returns the name, version 1 and the bytes of data. *)
Theorem create_roundtrip v name data now c cfg :
  (usecase.CreateConfiguration (engine v) name data now c).1 = (Some cfg, None) ->
  let d' := sqlite.db (usecase.CreateConfiguration (engine v) name data now c).2 in
  entity.Version cfg = 1 /\
  entity.CreatedAt cfg = entity.UpdatedAt cfg /\
  exists got,
    (usecase.GetConfigurationVersion (engine v) name 1 (sqlite.mkConn d' [])).1
      = (Some got, None) /\
    entity.Name got = name /\
    entity.Version got = 1 /\
    string_of_raw (entity.Data got) = string_of_raw data.
Proof.
  destruct (usecase.CreateConfiguration _ _ _ _ _) as [r c'] eqn:H. cbn [fst snd]. intros ->.
  apply Create_inv in H as [(? & ? & _)|(_ & _ & Hc & Hv & _ & Hcase)];
    cbn [fst snd] in *; [done|].
  destruct Hcase as [(? & _)|(Heq & Hd)]; [done|]. simplify_eq.
  split; [done|]. split; [done|].
  rewrite uc_GetConfigurationVersion_healthy, Hv, Hd, Hc, !lookup_insert_eq.
  eexists. split; [done|]. done.
Qed.

Lemma create_roundtrip_witness :
  let out := usecase.CreateConfiguration (engine demo_validator) "x" (Some "a") 10
               (sqlite.mkConn sqlite.empty_db []) in
  let cfg := entity.NewConfiguration "x" (Some "a") 10 in
  out.1 = (Some cfg, None) /\
  entity.Version cfg = 1 /\
  entity.CreatedAt cfg = entity.UpdatedAt cfg /\
  exists got,
    (usecase.GetConfigurationVersion (engine demo_validator) "x" 1
       (sqlite.mkConn (sqlite.db out.2) [])).1 = (Some got, None) /\
    entity.Name got = "x" /\
    entity.Version got = 1 /\
    string_of_raw (entity.Data got) = string_of_raw (Some "a").
Proof.
  intros out cfg.
  assert (H : out.1 = (Some cfg, None)) by (vm_compute; reflexivity).
  exact (conj H (create_roundtrip demo_validator "x" (Some "a") 10
                   (sqlite.mkConn sqlite.empty_db []) cfg H)).
Defined.

(** ** Update *)

(** C6: a successful Update(name, data) on a configuration whose head is N
    (1 <= N < max_int) returns version N+1 and the creation time of the
    stored row, which the row keeps; ListVersions(name) on the resulting
    tables has exactly one entry more than on the tables before; and for
    every M <= N, GetVersion(name, M) returns on the resulting tables what it
    returned before. *)
Theorem update_result v name data now c cfg row :
  sqlite.configurations (sqlite.db c) !! name = Some row ->
  1 <= sqlite.version row < max_int ->
  (usecase.UpdateConfiguration (engine v) name data now c).1 = (Some cfg, None) ->
  let d' := sqlite.db (usecase.UpdateConfiguration (engine v) name data now c).2 in
  entity.Version cfg = sqlite.version row + 1 /\
  entity.CreatedAt cfg = sqlite.created_at row /\
  sqlite.created_at <$> sqlite.configurations d' !! name = Some (sqlite.created_at row) /\
  (exists before after,
     (usecase.ListConfigurationVersions (engine v) name (sqlite.mkConn (sqlite.db c) [])).1
       = (Some before, None) /\
     (usecase.ListConfigurationVersions (engine v) name (sqlite.mkConn d' [])).1
       = (Some after, None) /\
     length (entity.Versions after) = S (length (entity.Versions before))) /\
  forall m, m <= sqlite.version row ->
    (usecase.GetConfigurationVersion (engine v) name m (sqlite.mkConn d' [])).1
    = (usecase.GetConfigurationVersion (engine v) name m (sqlite.mkConn (sqlite.db c) [])).1.
Proof.
  intros Hrow Hrange.
  destruct (usecase.UpdateConfiguration _ _ _ _ _) as [r c'] eqn:H. cbn [fst snd]. intros ->.
  apply Update_inv in H as [(? & ? & _)|(row' & dataStr & Hrow' & Hdata & Hcase)];
    cbn [fst snd] in *; [done|].
  destruct Hcase as [(? & _)|(Heq & Hadv)]; [done|]. simplify_eq.
  pose proof Hadv as Hhead. eapply advanced_head in Hhead; [|exact Hrow].
  destruct Hadv as (Hfresh & Hc & Hv & _ & Hd).
  cbn [entity.UpdateVersion row_config entity.Name entity.Version entity.RollbackFrom
       entity.RollbackTo entity.UpdatedAt entity.CreatedAt] in *.
  rewrite int_add_1 in * by (unfold min_int; lia).
  split_and!; try done.
  - by rewrite Hhead.
  - do 2 eexists. rewrite !uc_ListConfigurationVersions_healthy, Hrow, Hdata, Hhead.
    cbn [updated_row sqlite.version entity.Version entity.UpdateVersion row_config].
    rewrite int_add_1 by (unfold min_int; lia). rewrite Hd, lookup_insert_eq.
    split_and!; [done|done|]. cbn [entity.Versions].
    rewrite !length_order_by_version. by eapply select_versions_insert.
  - intros m Hm. rewrite !uc_GetConfigurationVersion_healthy, Hv, Hd, Hhead, Hrow.
    rewrite !lookup_insert_ne by (intros ?; simplify_eq; lia).
    done.
Qed.

Lemma update_result_witness :
  let d := run demo_validator [Create "x" (Some "a") 10 []] in
  let row := {| sqlite.version := 1; sqlite.created_at := 10; sqlite.updated_at := 10;
                sqlite.rollback_from := None; sqlite.rollback_to := None |} in
  let cfg := {| entity.Name := "x"; entity.Version := 2; entity.Data := Some "b";
                entity.CreatedAt := 10; entity.UpdatedAt := 20;
                entity.RollbackFrom := 0; entity.RollbackTo := 0 |} in
  let out := usecase.UpdateConfiguration (engine demo_validator) "x" (Some "b") 20
               (sqlite.mkConn d []) in
  sqlite.configurations d !! "x" = Some row /\
  1 <= sqlite.version row < max_int /\
  out.1 = (Some cfg, None) /\
  entity.Version cfg = sqlite.version row + 1 /\
  entity.CreatedAt cfg = sqlite.created_at row /\
  sqlite.created_at <$> sqlite.configurations (sqlite.db out.2) !! "x"
    = Some (sqlite.created_at row) /\
  (exists before after,
     (usecase.ListConfigurationVersions (engine demo_validator) "x" (sqlite.mkConn d [])).1
       = (Some before, None) /\
     (usecase.ListConfigurationVersions (engine demo_validator) "x"
        (sqlite.mkConn (sqlite.db out.2) [])).1 = (Some after, None) /\
     length (entity.Versions after) = S (length (entity.Versions before))) /\
  forall m, m <= sqlite.version row ->
    (usecase.GetConfigurationVersion (engine demo_validator) "x" m
       (sqlite.mkConn (sqlite.db out.2) [])).1
    = (usecase.GetConfigurationVersion (engine demo_validator) "x" m (sqlite.mkConn d [])).1.
Proof.
  intros d row cfg out.
  assert (H1 : sqlite.configurations d !! "x" = Some row) by (vm_compute; reflexivity).
  assert (H2 : 1 <= sqlite.version row < max_int) by (unfold max_int; simpl; lia).
  assert (H3 : out.1 = (Some cfg, None)) by (vm_compute; reflexivity).
  exact (conj H1 (conj H2 (conj H3
           (update_result demo_validator "x" (Some "b") 20 (sqlite.mkConn d []) cfg row
              H1 H2 H3)))).
Defined.

(** C10: a successful Update(name, data) returns a configuration whose
    rollbackFrom and rollbackTo are zero, and overwrites the provenance of
    the stored head with zero whatever it was before (also when the head had
    been produced by a Rollback): Get(name) on the resulting tables returns
    the new version with rollbackFrom = rollbackTo = 0. *)
Theorem update_clears_provenance v name data now c cfg :
  (usecase.UpdateConfiguration (engine v) name data now c).1 = (Some cfg, None) ->
  let d' := sqlite.db (usecase.UpdateConfiguration (engine v) name data now c).2 in
  entity.RollbackFrom cfg = 0 /\
  entity.RollbackTo cfg = 0 /\
  (exists row,
     sqlite.configurations d' !! name = Some row /\
     sqlite.rollback_from row = Some 0 /\ sqlite.rollback_to row = Some 0) /\
  exists got,
    (usecase.GetConfiguration (engine v) name (sqlite.mkConn d' [])).1 = (Some got, None) /\
    entity.Version got = entity.Version cfg /\
    entity.RollbackFrom got = 0 /\
    entity.RollbackTo got = 0.
Proof.
  destruct (usecase.UpdateConfiguration _ _ _ _ _) as [r c'] eqn:H. cbn [fst snd]. intros ->.
  apply Update_inv in H as [(? & ? & _)|(row & dataStr & Hrow & Hdata & Hcase)];
    cbn [fst snd] in *; [done|].
  destruct Hcase as [(? & _)|(Heq & Hadv)]; [done|]. simplify_eq.
  pose proof Hadv as Hhead. eapply advanced_head in Hhead; [|exact Hrow].
  destruct Hadv as (_ & _ & _ & _ & Hd).
  cbn [entity.UpdateVersion row_config entity.Name entity.Version entity.RollbackFrom
       entity.RollbackTo] in *.
  split_and!; [done|done|by eexists|].
  rewrite uc_GetConfiguration_healthy, Hhead. cbn [updated_row sqlite.version entity.Version].
  rewrite Hd, lookup_insert_eq. eexists. by split.
Qed.

Lemma update_clears_provenance_witness :
  let d := run demo_validator
             [Create "x" (Some "a") 10 []; Rollback "x" 1 20 []] in
  let cfg := {| entity.Name := "x"; entity.Version := 3; entity.Data := Some "b";
                entity.CreatedAt := 10; entity.UpdatedAt := 30;
                entity.RollbackFrom := 0; entity.RollbackTo := 0 |} in
  let out := usecase.UpdateConfiguration (engine demo_validator) "x" (Some "b") 30
               (sqlite.mkConn d []) in
  out.1 = (Some cfg, None) /\
  entity.RollbackFrom cfg = 0 /\
  entity.RollbackTo cfg = 0 /\
  (exists row,
     sqlite.configurations (sqlite.db out.2) !! "x" = Some row /\
     sqlite.rollback_from row = Some 0 /\ sqlite.rollback_to row = Some 0) /\
  exists got,
    (usecase.GetConfiguration (engine demo_validator) "x"
       (sqlite.mkConn (sqlite.db out.2) [])).1 = (Some got, None) /\
    entity.Version got = entity.Version cfg /\
    entity.RollbackFrom got = 0 /\
    entity.RollbackTo got = 0.
Proof.
  intros d cfg out.
  assert (H : out.1 = (Some cfg, None)) by (vm_compute; reflexivity).
  exact (conj H (update_clears_provenance demo_validator "x" (Some "b") 30
                   (sqlite.mkConn d []) cfg H)).
Defined.

(** Before the Update of the witness of C10 the head carried the provenance
    of the Rollback that produced it. *)
Example provenance_before_update :
  (usecase.GetConfiguration (engine demo_validator) "x"
     (sqlite.mkConn (run demo_validator [Create "x" (Some "a") 10 []; Rollback "x" 1 20 []])
        [])).1
  = (Some {| entity.Name := "x"; entity.Version := 2; entity.Data := Some "a";
             entity.CreatedAt := 10; entity.UpdatedAt := 20;
             entity.RollbackFrom := 1; entity.RollbackTo := 1 |}, None).
Proof. vm_compute. reflexivity. Qed.

(** ** Rollback *)

(** C3: a successful Rollback(name, targetVersion) on a configuration whose
    head is N (1 <= N < max_int), for any targetVersion (N included), returns
    version N+1, the payload stored at targetVersion as its data,
    rollbackFrom = N and rollbackTo = targetVersion; the version record
    written for N+1 is marked is_rollback and its payload is that same
    payload. *)
Theorem rollback_result v name target now c cfg row :
  sqlite.configurations (sqlite.db c) !! name = Some row ->
  1 <= sqlite.version row < max_int ->
  (usecase.RollbackConfiguration (engine v) name target now c).1 = (Some cfg, None) ->
  let d' := sqlite.db (usecase.RollbackConfiguration (engine v) name target now c).2 in
  exists payload,
    sqlite.version_data (sqlite.db c) !! (name, target) = Some payload /\
    entity.Version cfg = sqlite.version row + 1 /\
    entity.Data cfg = Some payload /\
    entity.RollbackFrom cfg = sqlite.version row /\
    entity.RollbackTo cfg = target /\
    sqlite.versions d' !! (name, sqlite.version row + 1)
      = Some {| sqlite.v_created_at := now; sqlite.is_rollback := true |} /\
    sqlite.version_data d' !! (name, sqlite.version row + 1) = Some payload.
Proof.
  intros Hrow Hrange.
  destruct (usecase.RollbackConfiguration _ _ _ _ _) as [r c'] eqn:H. cbn [fst snd]. intros ->.
  apply Rollback_inv in H
    as [(? & ? & _)|(row' & dataStr & payload & Hrow' & Hdata & Htarget & Hcase)];
    cbn [fst snd] in *; [done|].
  destruct Hcase as [(? & _)|[(? & _)|(Heq & Hadv)]]; [done|done|]. simplify_eq.
  destruct Hadv as (_ & _ & Hv & _ & Hd).
  cbn [entity.NewVersionFromRollback row_config entity.Name entity.Version entity.RollbackFrom
       entity.RollbackTo entity.UpdatedAt entity.Data] in *.
  rewrite int_add_1 in * by (unfold min_int; lia).
  exists payload. split_and!; try done.
  - rewrite Hv, lookup_insert_eq. do 2 f_equal. apply Z.ltb_lt. lia.
  - by rewrite Hd, lookup_insert_eq.
Qed.

Lemma rollback_result_witness :
  let d := run demo_validator
             [Create "x" (Some "a") 10 []; Update "x" (Some "b") 20 []] in
  let row := {| sqlite.version := 2; sqlite.created_at := 10; sqlite.updated_at := 20;
                sqlite.rollback_from := Some 0; sqlite.rollback_to := Some 0 |} in
  let cfg := {| entity.Name := "x"; entity.Version := 3; entity.Data := Some "b";
                entity.CreatedAt := 10; entity.UpdatedAt := 30;
                entity.RollbackFrom := 2; entity.RollbackTo := 2 |} in
  let out := usecase.RollbackConfiguration (engine demo_validator) "x" 2 30
               (sqlite.mkConn d []) in
  sqlite.configurations d !! "x" = Some row /\
  1 <= sqlite.version row < max_int /\
  out.1 = (Some cfg, None) /\
  exists payload,
    sqlite.version_data d !! ("x", 2) = Some payload /\
    entity.Version cfg = sqlite.version row + 1 /\
    entity.Data cfg = Some payload /\
    entity.RollbackFrom cfg = sqlite.version row /\
    entity.RollbackTo cfg = 2 /\
    sqlite.versions (sqlite.db out.2) !! ("x", sqlite.version row + 1)
      = Some {| sqlite.v_created_at := 30; sqlite.is_rollback := true |} /\
    sqlite.version_data (sqlite.db out.2) !! ("x", sqlite.version row + 1) = Some payload.
Proof.
  intros d row cfg out.
  assert (H1 : sqlite.configurations d !! "x" = Some row) by (vm_compute; reflexivity).
  assert (H2 : 1 <= sqlite.version row < max_int) by (unfold max_int; simpl; lia).
  assert (H3 : out.1 = (Some cfg, None)) by (vm_compute; reflexivity).
  exact (conj H1 (conj H2 (conj H3
           (rollback_result demo_validator "x" 2 30 (sqlite.mkConn d []) cfg row H1 H2 H3)))).
Defined.

(** C7: in every state reached from the empty database by at most max_int
    calls (whatever the driver did during them), a Rollback(name,
    targetVersion) where no configuration exists for name, or no version
    record exists for targetVersion, or targetVersion is greater than the
    head, fails with NotFound whatever the driver does, leaves the tables
    unchanged, and a Get(name) afterwards returns what it returned before. *)
Theorem rollback_missing_target_not_found v calls name target now fs :
  Z.of_nat (length calls) <= max_int ->
  sqlite.configurations (run v calls) !! name = None \/
  sqlite.versions (run v calls) !! (name, target) = None \/
  (exists row, sqlite.configurations (run v calls) !! name = Some row /\
               sqlite.version row < target) ->
  let out := usecase.RollbackConfiguration (engine v) name target now
               (sqlite.mkConn (run v calls) fs) in
  out.1.1 = None /\
  kind_of out.1 = Some errors.ErrorCodeNotFound /\
  sqlite.db out.2 = run v calls /\
  (usecase.GetConfiguration (engine v) name (sqlite.mkConn (sqlite.db out.2) [])).1
  = (usecase.GetConfiguration (engine v) name (sqlite.mkConn (run v calls) [])).1.
Proof.
  intros Hn Hmiss out. pose proof (run_inv v calls Hn) as [Hb Hh Hr Ho Hp Hy].
  subst out.
  destruct (usecase.RollbackConfiguration _ _ _ _ _) as [r c'] eqn:E.
  apply Rollback_inv in E
    as [(? & ? & Hsame)|(row & dataStr & payload & Hrow & Hdata & Htarget & _)];
    cbn [fst snd sqlite.db] in *.
  { by rewrite Hsame. }
  exfalso.
  assert (is_Some (sqlite.versions (run v calls) !! (name, target))) as Hrec
    by (apply Hp; eauto).
  destruct Hmiss as [Hnone|[Hnone|(row' & Hrow' & Hlt)]].
  - congruence.
  - rewrite Hnone in Hrec. by destruct Hrec.
  - assert (row' = row) as -> by congruence. apply (Hr _ _ _ Hrow) in Hrec. lia.
Qed.

Lemma rollback_missing_target_not_found_witness :
  let calls := [Create "x" (Some "a") 10 []; Update "x" (Some "b") 20 []] in
  let out := usecase.RollbackConfiguration (engine demo_validator) "x" 3 30
               (sqlite.mkConn (run demo_validator calls) []) in
  Z.of_nat (length calls) <= max_int /\
  (sqlite.configurations (run demo_validator calls) !! "x" = None \/
   sqlite.versions (run demo_validator calls) !! ("x", 3) = None \/
   (exists row, sqlite.configurations (run demo_validator calls) !! "x" = Some row /\
                sqlite.version row < 3)) /\
  out.1.1 = None /\
  kind_of out.1 = Some errors.ErrorCodeNotFound /\
  sqlite.db out.2 = run demo_validator calls /\
  (usecase.GetConfiguration (engine demo_validator) "x"
     (sqlite.mkConn (sqlite.db out.2) [])).1
  = (usecase.GetConfiguration (engine demo_validator) "x"
       (sqlite.mkConn (run demo_validator calls) [])).1.
Proof.
  intros calls out.
  assert (H1 : Z.of_nat (length calls) <= max_int) by (unfold max_int; simpl; lia).
  assert (H2 : sqlite.configurations (run demo_validator calls) !! "x" = None \/
               sqlite.versions (run demo_validator calls) !! ("x", 3) = None \/
               (exists row, sqlite.configurations (run demo_validator calls) !! "x" = Some row /\
                            sqlite.version row < 3))
    by (right; left; vm_compute; reflexivity).
  exact (conj H1 (conj H2
           (rollback_missing_target_not_found demo_validator calls "x" 3 30 [] H1 H2))).
Defined.

(** C8, as stated, fails when the head cannot be read. After a Create and
    an Update whose payload write failed, the configuration "x" and the
    record of its version 1 exist (the payload of version 1 too) and the
    driver is healthy, yet Rollback to version 1 answers NotFound: the head
    is read first, and its payload is missing. *)
Lemma rollback_unreadable_head_counterexample :
  let d := run demo_validator
             [Create "x" (Some "a") 10 []; Update "x" (Some "b") 20 payload_failure_on_head] in
  is_Some (sqlite.configurations d !! "x") /\
  is_Some (sqlite.versions d !! ("x", 1)) /\
  sqlite.version_data d !! ("x", 1) = Some "a" /\
  (usecase.RollbackConfiguration (engine demo_validator) "x" 1 30 (sqlite.mkConn d [])).1
  = (None, not_found "Configuration" "x").
Proof.
  vm_compute. split_and!; try done; by eexists.
Qed.

(** C8, amended: Rollback performs no schema validation, its result is the
    same whatever the validator of the engine is. In every state reached
    from the empty database by fewer than max_int calls, when the
    configuration can be read (its row and the payload of its head exist),
    a version record exists for targetVersion and the driver does not fail,
    the rollback succeeds, whatever schema is registered and whatever the
    validator would answer on the historical payload: it returns the
    version after the head, carrying the payload of targetVersion, with
    rollbackFrom the old head and rollbackTo targetVersion; this version is
    then the head of the store with that payload, and a Get returns it. *)
Theorem rollback_skips_validation v w calls name target now row dataStr :
  Z.of_nat (length calls) < max_int ->
  sqlite.configurations (run v calls) !! name = Some row ->
  sqlite.version_data (run v calls) !! (name, sqlite.version row) = Some dataStr ->
  is_Some (sqlite.versions (run v calls) !! (name, target)) ->
  let out := usecase.RollbackConfiguration (engine w) name target now
               (sqlite.mkConn (run v calls) []) in
  (exists payload cfg,
     sqlite.version_data (run v calls) !! (name, target) = Some payload /\
     out.1 = (Some cfg, None) /\
     entity.Name cfg = name /\
     entity.Version cfg = sqlite.version row + 1 /\
     entity.Data cfg = Some payload /\
     entity.RollbackFrom cfg = sqlite.version row /\
     entity.RollbackTo cfg = target /\
     head_written cfg payload (sqlite.db out.2) /\
     exists got,
       (usecase.GetConfiguration (engine w) name (sqlite.mkConn (sqlite.db out.2) [])).1
         = (Some got, None) /\
       entity.Version got = sqlite.version row + 1 /\
       entity.Data got = Some payload) /\
  (forall w' c,
     usecase.RollbackConfiguration (engine w') name target now c
     = usecase.RollbackConfiguration (engine w) name target now c).
Proof.
  intros Hn Hrow Hdata Hrec out. split; [|done].
  pose proof (run_inv v calls ltac:(lia)) as [Hb Hh Hr Ho Hp Hy].
  pose proof (Hh _ _ Hrow) as Hrange.
  assert (exists payload, sqlite.version_data (run v calls) !! (name, target) = Some payload)
    as [payload Htarget].
  { apply (Hr _ _ _ Hrow) in Hrec.
    destruct (decide (target = sqlite.version row)) as [->|]; [eauto|].
    destruct (Hy _ _ target Hrow) as [p Hp']; [lia|eauto]. }
  assert (out.1 = (Some (entity.NewVersionFromRollback (row_config name row dataStr) target
                           (Some payload) now), None)) as Hout.
  { subst out. eapply Rollback_healthy; [done..|].
    rewrite int_add_1 by (unfold min_int; lia).
    destruct (sqlite.versions (run v calls) !! (name, sqlite.version row + 1)) eqn:E; [|done].
    assert (1 <= sqlite.version row + 1 <= sqlite.version row)
      by (apply (Hr _ _ _ Hrow); eauto).
    lia. }
  set (cfg := entity.NewVersionFromRollback _ _ _ _) in Hout.
  assert (entity.Version cfg = sqlite.version row + 1) as Hver.
  { subst cfg. cbn [entity.NewVersionFromRollback entity.Version row_config].
    apply int_add_1. unfold min_int. lia. }
  pose proof (proj2 (proj2 (success_written w)) name target now
                (sqlite.mkConn (run v calls) []) cfg Hout) as Hw.
  fold out in Hw. change (string_of_raw (entity.Data cfg)) with payload in Hw.
  exists payload, cfg. split_and!; try done.
  destruct Hw as ((row' & Hrow' & Hv') & _ & Hp').
  change (entity.Name cfg) with name in Hrow', Hp'.
  rewrite uc_GetConfiguration_healthy, Hrow', Hv', Hp'.
  eexists. split; [done|]. split; [|done].
  cbn [row_config entity.Version]. by rewrite Hv'.
Qed.

Lemma rollback_skips_validation_witness :
  let calls := [Create "x" (Some "bad") 10 []; Update "x" (Some "ok") 20 [];
                Register "x" (Some "strict") []] in
  let row := {| sqlite.version := 2; sqlite.created_at := 10; sqlite.updated_at := 20;
                sqlite.rollback_from := Some 0; sqlite.rollback_to := Some 0 |} in
  let out := usecase.RollbackConfiguration (engine demo_validator) "x" 1 30
               (sqlite.mkConn (run demo_validator calls) []) in
  (sqlite.schemas (run demo_validator calls) !! "x" = Some "strict" /\
   sqlite.version_data (run demo_validator calls) !! ("x", 1) = Some "bad" /\
   is_Some (validator.ValidateJSON demo_validator (Some "strict") (Some "bad"))) /\
  Z.of_nat (length calls) < max_int /\
  sqlite.configurations (run demo_validator calls) !! "x" = Some row /\
  sqlite.version_data (run demo_validator calls) !! ("x", sqlite.version row) = Some "ok" /\
  is_Some (sqlite.versions (run demo_validator calls) !! ("x", 1)) /\
  (exists payload cfg,
     sqlite.version_data (run demo_validator calls) !! ("x", 1) = Some payload /\
     out.1 = (Some cfg, None) /\
     entity.Name cfg = "x" /\
     entity.Version cfg = sqlite.version row + 1 /\
     entity.Data cfg = Some payload /\
     entity.RollbackFrom cfg = sqlite.version row /\
     entity.RollbackTo cfg = 1 /\
     head_written cfg payload (sqlite.db out.2) /\
     exists got,
       (usecase.GetConfiguration (engine demo_validator) "x"
          (sqlite.mkConn (sqlite.db out.2) [])).1 = (Some got, None) /\
       entity.Version got = sqlite.version row + 1 /\
       entity.Data got = Some payload) /\
  (forall w' c,
     usecase.RollbackConfiguration (engine w') "x" 1 30 c
     = usecase.RollbackConfiguration (engine demo_validator) "x" 1 30 c).
Proof.
  intros calls row out.
  assert (H0 : sqlite.schemas (run demo_validator calls) !! "x" = Some "strict" /\
               sqlite.version_data (run demo_validator calls) !! ("x", 1) = Some "bad" /\
               is_Some (validator.ValidateJSON demo_validator (Some "strict") (Some "bad")))
    by (vm_compute; split_and!; try reflexivity; eexists; reflexivity).
  assert (H1 : Z.of_nat (length calls) < max_int) by (unfold max_int; simpl; lia).
  assert (H2 : sqlite.configurations (run demo_validator calls) !! "x" = Some row)
    by (vm_compute; reflexivity).
  assert (H3 : sqlite.version_data (run demo_validator calls) !! ("x", sqlite.version row)
               = Some "ok") by (vm_compute; reflexivity).
  assert (H4 : is_Some (sqlite.versions (run demo_validator calls) !! ("x", 1)))
    by (vm_compute; eexists; reflexivity).
  exact (conj H0 (conj H1 (conj H2 (conj H3 (conj H4
           (rollback_skips_validation demo_validator demo_validator calls "x" 1 30 row "ok"
              H1 H2 H3 H4)))))).
Defined.

(** In the state of the witness of C8 the schema registered for the name
    rejects the payload of version 1, and the rollback to version 1 makes
    that payload the head again. *)
Example rollback_to_payload_the_schema_rejects :
  let d := run demo_validator
             [Create "x" (Some "bad") 10 []; Update "x" (Some "ok") 20 [];
              Register "x" (Some "strict") []] in
  sqlite.schemas d !! "x" = Some "strict" /\
  kind_of (None : option unit,
           validator.ValidateJSON demo_validator (Some "strict") (Some "bad"))
    = Some errors.ErrorCodeValidationFailed /\
  (usecase.RollbackConfiguration (engine demo_validator) "x" 1 30 (sqlite.mkConn d [])).1
  = (Some {| entity.Name := "x"; entity.Version := 3; entity.Data := Some "bad";
             entity.CreatedAt := 10; entity.UpdatedAt := 30;
             entity.RollbackFrom := 2; entity.RollbackTo := 1 |}, None).
Proof. vm_compute. done. Qed.

(** ** The sequence of versions *)

(** C5: in every state reached from the empty database by at most max_int
    Create, Update, Rollback and RegisterSchema calls, whether they succeeded
    or failed and whatever the driver did, for every configuration name the
    head stored in the Configuration row is at least 1, a version record
    exists for exactly the numbers 1..head (so the head is their maximum),
    the version numbers in the order of ListVersions are exactly 1, 2, ...,
    head, each once, and that is what a ListVersions that succeeds returns;
    a name without Configuration row has no version record. *)
Theorem head_is_max_and_versions_contiguous v calls :
  Z.of_nat (length calls) <= max_int ->
  let d := run v calls in
  (forall name row,
     sqlite.configurations d !! name = Some row ->
     1 <= sqlite.version row /\
     (forall ver,
        is_Some (sqlite.versions d !! (name, ver)) <-> 1 <= ver <= sqlite.version row) /\
     listed_versions name d = seqZ 1 (sqlite.version row) /\
     (forall l,
        (usecase.ListConfigurationVersions (engine v) name (sqlite.mkConn d [])).1
          = (Some l, None) ->
        entity.VVersion <$> entity.Versions l = seqZ 1 (sqlite.version row))) /\
  (forall name ver,
     sqlite.configurations d !! name = None -> sqlite.versions d !! (name, ver) = None).
Proof.
  intros Hn d. pose proof (run_inv v calls Hn) as [Hb Hh Hr Ho Hp Hy]. fold d in Hh, Hr, Ho.
  split.
  - intros name row Hrow. pose proof (Hh _ _ Hrow) as Hrange.
    assert (listed_versions name d = seqZ 1 (sqlite.version row)) as Hlist.
    { apply listed_versions_range; [lia|]. intros ver. by apply Hr. }
    split_and!; [lia|by intros ver; apply Hr|done|].
    intros l. rewrite uc_ListConfigurationVersions_healthy, Hrow.
    destruct (sqlite.version_data d !! (name, sqlite.version row)); [|done].
    by intros [= <-].
  - intros name ver Hnone.
    destruct (sqlite.versions d !! (name, ver)) eqn:E; [|done].
    destruct (Ho name ver) as [? ?]; [eauto|congruence].
Qed.

Lemma head_is_max_and_versions_contiguous_witness :
  let calls := [Create "x" (Some "a") 10 []; Update "x" (Some "b") 20 payload_failure_on_head;
                Rollback "y" 1 30 []; Create "y" (Some "c") 40 []] in
  let d := run demo_validator calls in
  Z.of_nat (length calls) <= max_int /\
  (forall name row,
     sqlite.configurations d !! name = Some row ->
     1 <= sqlite.version row /\
     (forall ver,
        is_Some (sqlite.versions d !! (name, ver)) <-> 1 <= ver <= sqlite.version row) /\
     listed_versions name d = seqZ 1 (sqlite.version row) /\
     (forall l,
        (usecase.ListConfigurationVersions (engine demo_validator) name (sqlite.mkConn d [])).1
          = (Some l, None) ->
        entity.VVersion <$> entity.Versions l = seqZ 1 (sqlite.version row))) /\
  (forall name ver,
     sqlite.configurations d !! name = None -> sqlite.versions d !! (name, ver) = None).
Proof.
  intros calls d.
  assert (H : Z.of_nat (length calls) <= max_int) by (unfold max_int; simpl; lia).
  exact (conj H (head_is_max_and_versions_contiguous demo_validator calls H)).
Defined.

(** In the state of the witness of C5 the head of "x" is 2 although the
    Update that produced it failed on its payload, and the listing is 1, 2. *)
Example listing_after_failed_update :
  let d := run demo_validator
             [Create "x" (Some "a") 10 []; Update "x" (Some "b") 20 payload_failure_on_head;
              Rollback "y" 1 30 []; Create "y" (Some "c") 40 []] in
  sqlite.version <$> sqlite.configurations d !! "x" = Some 2 /\
  listed_versions "x" d = [1; 2] /\
  listed_versions "y" d = [1].
Proof. vm_compute. done. Qed.

(** ** Schema validation before a write *)

(** C4, as stated, fails: with the schema "strict" registered for "x" and a
    configuration "x" in the store, Create("x", "bad"), whose data the
    schema rejects, returns AlreadyExists, not ValidationFailed. And with
    that schema registered for the free name "y", a Create("y", "bad")
    during which the driver fails on the schema lookup skips validation,
    succeeds and stores the rejected data. *)
Lemma create_invalid_on_existing_counterexample :
  let d := run demo_validator
             [Register "x" (Some "strict") []; Create "x" (Some "ok") 10 []] in
  let d2 := run demo_validator [Register "y" (Some "strict") []] in
  let out := usecase.CreateConfiguration (engine demo_validator) "y" (Some "bad") 10
               (sqlite.mkConn d2 [false; true]) in
  kind_of (None : option unit,
           validator.ValidateJSON demo_validator (Some "strict") (Some "bad"))
    = Some errors.ErrorCodeValidationFailed /\
  (sqlite.schemas d !! "x" = Some "strict" /\
   kind_of (usecase.CreateConfiguration (engine demo_validator) "x" (Some "bad") 20
              (sqlite.mkConn d [])).1
     = Some errors.ErrorCodeAlreadyExists) /\
  (sqlite.schemas d2 !! "y" = Some "strict" /\
   out.1 = (Some (entity.NewConfiguration "y" (Some "bad") 10), None) /\
   sqlite.version_data (sqlite.db out.2) !! ("y", 1) = Some "bad").
Proof.
  vm_compute. done.
Qed.

(** C4, amended: when a schema is registered for name, is read, and data
    fails validation against it with the violations [violations], a Create
    on a name without configuration and an Update on a configuration that
    can be read return the ValidationFailed error carrying those violations
    and leave the store unchanged. The existence check comes before
    validation: Create on a name whose configuration can be read returns
    AlreadyExists and Update on a name without configuration returns
    NotFound, store unchanged. Whatever the driver does during the call, a
    Create or Update that returns ValidationFailed has written nothing. *)
Theorem validation_failure_writes_nothing gv gn name data now d schema violations :
  let v := validator.NewJSONSchemaValidator gv gn in
  let rejected :=
    AppErr (errors.NewValidationFailedError "JSON validation failed"
              (errors.DetailsValidation violations)) in
  sqlite.schemas d !! name = Some schema ->
  gv schema (string_of_raw data) = validator.GjsChecked violations ->
  violations <> [] ->
  (sqlite.configurations d !! name = None ->
   usecase.CreateConfiguration (engine v) name data now (sqlite.mkConn d [])
   = ((None, Some rejected), sqlite.mkConn d [])) /\
  (forall row dataStr,
     sqlite.configurations d !! name = Some row ->
     sqlite.version_data d !! (name, sqlite.version row) = Some dataStr ->
     usecase.UpdateConfiguration (engine v) name data now (sqlite.mkConn d [])
     = ((None, Some rejected), sqlite.mkConn d [])) /\
  (forall row dataStr,
     sqlite.configurations d !! name = Some row ->
     sqlite.version_data d !! (name, sqlite.version row) = Some dataStr ->
     usecase.CreateConfiguration (engine v) name data now (sqlite.mkConn d [])
     = ((None, Some (AppErr (errors.NewAlreadyExistsError "Configuration" name))),
        sqlite.mkConn d [])) /\
  (sqlite.configurations d !! name = None ->
   usecase.UpdateConfiguration (engine v) name data now (sqlite.mkConn d [])
   = ((None, not_found "Configuration" name), sqlite.mkConn d [])) /\
  (forall fs,
     kind_of (usecase.CreateConfiguration (engine v) name data now (sqlite.mkConn d fs)).1
       = Some errors.ErrorCodeValidationFailed ->
     sqlite.db (usecase.CreateConfiguration (engine v) name data now (sqlite.mkConn d fs)).2 = d) /\
  (forall fs,
     kind_of (usecase.UpdateConfiguration (engine v) name data now (sqlite.mkConn d fs)).1
       = Some errors.ErrorCodeValidationFailed ->
     sqlite.db (usecase.UpdateConfiguration (engine v) name data now (sqlite.mkConn d fs)).2 = d).
Proof.
  intros v rejected Hschema Hgv Hne.
  assert (validator.ValidateJSON v (Some schema) data = Some rejected) as Hv.
  { subst v rejected. cbn [validator.ValidateJSON validator.NewJSONSchemaValidator].
    unfold validator.JSONSchemaValidator_ValidateJSON. cbn [string_of_raw]. rewrite Hgv.
    by destruct violations. }
  split_and!.
  - intros Hnone. by apply Create_healthy_rejected with schema.
  - intros row dataStr Hrow Hdata. by apply Update_healthy_rejected with row dataStr schema.
  - intros row dataStr Hrow Hdata. by apply Create_healthy_exists with row dataStr.
  - intros Hnone. by apply Update_healthy_missing.
  - intros fs Hk. by apply Create_rejected_unchanged in Hk.
  - intros fs Hk. by apply Update_rejected_unchanged in Hk.
Qed.

Lemma validation_failure_writes_nothing_witness :
  let d := run demo_validator [Register "x" (Some "strict") []] in
  let violations := [errors.mkValidationError "(root)" "k is required"] in
  sqlite.schemas d !! "x" = Some "strict" /\
  demo_Validate "strict" (string_of_raw (Some "bad")) = validator.GjsChecked violations /\
  violations <> [] /\
  sqlite.configurations d !! "x" = None /\
  usecase.CreateConfiguration (engine demo_validator) "x" (Some "bad") 10 (sqlite.mkConn d [])
  = ((None, Some (AppErr (errors.NewValidationFailedError "JSON validation failed"
                            (errors.DetailsValidation violations)))),
     sqlite.mkConn d []).
Proof.
  intros d violations.
  assert (H1 : sqlite.schemas d !! "x" = Some "strict") by (vm_compute; reflexivity).
  assert (H2 : demo_Validate "strict" (string_of_raw (Some "bad"))
               = validator.GjsChecked violations) by (vm_compute; reflexivity).
  assert (H3 : violations <> []) by discriminate.
  assert (H4 : sqlite.configurations d !! "x" = None) by (vm_compute; reflexivity).
  split_and!; [exact H1|exact H2|exact H3|exact H4|].
  exact (proj1 (validation_failure_writes_nothing demo_Validate (fun _ => None)
                  "x" (Some "bad") 10 d "strict" violations H1 H2 H3) H4).
Defined.

(** ** Classification of failures *)




(** ** The scenario of the specification *)

(** Create at version 1, Update to version 2 with the creation time kept,
    Rollback to 1 giving version 3 with the data of version 1 and the
    provenance 2 -> 1, and a listing 1, 2, 3 whose last entry is a rollback. *)
Example payment_config_scenario :
  let v1 := "{max_limit:1000,enabled:true}" in
  let v2 := "{max_limit:2000,enabled:false}" in
  let c0 := sqlite.mkConn sqlite.empty_db [] in
  let r1 := usecase.CreateConfiguration (engine demo_validator) "payment-config" (Some v1) 10 c0 in
  let r2 := usecase.UpdateConfiguration (engine demo_validator) "payment-config" (Some v2) 20 r1.2 in
  let r3 := usecase.RollbackConfiguration (engine demo_validator) "payment-config" 1 30 r2.2 in
  let r4 := usecase.ListConfigurationVersions (engine demo_validator) "payment-config" r3.2 in
  r1.1 = (Some {| entity.Name := "payment-config"; entity.Version := 1; entity.Data := Some v1;
                  entity.CreatedAt := 10; entity.UpdatedAt := 10;
                  entity.RollbackFrom := 0; entity.RollbackTo := 0 |}, None) /\
  r2.1 = (Some {| entity.Name := "payment-config"; entity.Version := 2; entity.Data := Some v2;
                  entity.CreatedAt := 10; entity.UpdatedAt := 20;
                  entity.RollbackFrom := 0; entity.RollbackTo := 0 |}, None) /\
  r3.1 = (Some {| entity.Name := "payment-config"; entity.Version := 3; entity.Data := Some v1;
                  entity.CreatedAt := 10; entity.UpdatedAt := 30;
                  entity.RollbackFrom := 2; entity.RollbackTo := 1 |}, None) /\
  r4.1 = (Some {| entity.LName := "payment-config";
                  entity.Versions :=
                    [ {| entity.VVersion := 1; entity.VCreatedAt := 10; entity.IsRollback := false |};
                      {| entity.VVersion := 2; entity.VCreatedAt := 20; entity.IsRollback := false |};
                      {| entity.VVersion := 3; entity.VCreatedAt := 30; entity.IsRollback := true |} ]
               |}, None).
Proof. vm_compute. done. Qed.

(** * The store and the engine: reads, round trips, history *)

Lemma RegisterSchema_spec name schema c oe c' :
  sqlite.RegisterSchema name schema c = (oe, c') ->
  (is_Some oe /\ sqlite.db c' = sqlite.db c)
  \/ (oe = None /\
      sqlite.schemas (sqlite.db c') = <[name := string_of_raw schema]> (sqlite.schemas (sqlite.db c)) /\
      same_tables (sqlite.db c) (sqlite.db c')).
Proof.
  unfold sqlite.RegisterSchema, same_tables. sql_unfold.
  unfold sqlite.update_schema, sqlite.insert_schema. intros H.
  sql_cases; simplify_eq; cbn [sqlite.db sqlite.configurations sqlite.versions
    sqlite.version_data sqlite.schemas] in *; eauto 10.
  all: try match goal with H : is_Some _ |- _ => destruct H as [? ?] end.
  all: try match goal with H : ¬ is_Some _ |- _ => exfalso; apply H; eauto end.
  all: try congruence.
  right. split_and!; try done. apply map_eq. intros k.
  rewrite lookup_alter, lookup_insert. case_decide; [|done]. subst. by rewrite Heqo.
Qed.

Lemma GetSchema_unchanged name c : sqlite.db (sqlite.GetSchema name c).2 = sqlite.db c.
Proof.
  destruct (sqlite.GetSchema name c) as [[os oe] c'] eqn:E.
  by apply GetSchema_inv in E as [? _].
Qed.

Lemma GetConfiguration_unchanged name c :
  sqlite.db (sqlite.GetConfiguration name c).2 = sqlite.db c.
Proof.
  destruct (sqlite.GetConfiguration name c) as [[os oe] c'] eqn:E.
  by apply GetConfiguration_inv in E as [? _].
Qed.

Lemma GetConfigurationVersion_unchanged name ver c :
  sqlite.db (sqlite.GetConfigurationVersion name ver c).2 = sqlite.db c.
Proof.
  unfold sqlite.GetConfigurationVersion. sql_unfold. sql_cases; try done.
  all: by destruct (sqlite.configurations _ !! _).
Qed.

Lemma ListConfigurationVersions_unchanged name c :
  sqlite.db (sqlite.ListConfigurationVersions name c).2 = sqlite.db c.
Proof.
  unfold sqlite.ListConfigurationVersions. sql_unfold. sql_cases; try done.
  all: match goal with
       | |- context [sqlite.rows_Next ?rows ?c1] =>
           pose proof (rows_Next_db rows c1) as Hdb; destruct (sqlite.rows_Next rows c1)
       end.
  all: exact Hdb.
Qed.

(** X1: the five reading operations of the service (GetConfiguration,
    GetConfigurationVersion, ListConfigurationVersions, GetSchema and
    ValidateConfigurationData) leave every table of the store as it was,
    whether they succeed or fail and whatever the failures of the driver. *)
Theorem reads_leave_the_store_unchanged v c :
  (forall name, sqlite.db (usecase.GetConfiguration (engine v) name c).2 = sqlite.db c) /\
  (forall name ver,
     sqlite.db (usecase.GetConfigurationVersion (engine v) name ver c).2 = sqlite.db c) /\
  (forall name, sqlite.db (usecase.ListConfigurationVersions (engine v) name c).2 = sqlite.db c) /\
  (forall name, sqlite.db (usecase.GetSchema (engine v) name c).2 = sqlite.db c) /\
  (forall name data,
     sqlite.db (usecase.ValidateConfigurationData (engine v) name data c).2 = sqlite.db c).
Proof.
  split_and!; intros; uc_unfold.
  - pose proof (GetConfiguration_unchanged name c) as H.
    destruct (sqlite.GetConfiguration name c) as [[? [?|]] ?]; done.
  - pose proof (GetConfigurationVersion_unchanged name ver c) as H.
    destruct (sqlite.GetConfigurationVersion name ver c) as [[? [?|]] ?]; done.
  - pose proof (GetConfiguration_unchanged name c) as H.
    destruct (sqlite.GetConfiguration name c) as [[? [?|]] c1]; [done|]. cbn [snd] in H.
    pose proof (ListConfigurationVersions_unchanged name c1) as H1.
    destruct (sqlite.ListConfigurationVersions name c1) as [[? [?|]] ?]; cbn [snd] in *;
      congruence.
  - pose proof (GetSchema_unchanged name c) as H.
    destruct (sqlite.GetSchema name c) as [[? [?|]] ?]; done.
  - pose proof (GetSchema_unchanged name c) as H.
    destruct (sqlite.GetSchema name c) as [[? [?|]] ?]; done.
Qed.

Lemma uc_GetSchema_healthy v name d :
  (usecase.GetSchema (engine v) name (sqlite.mkConn d [])).1 =
  match sqlite.schemas d !! name with
  | Some s => (Some s, None)
  | None => (None, not_found "Schema" name)
  end.
Proof.
  uc_unfold. rewrite GetSchema_healthy. by destruct (sqlite.schemas d !! name).
Qed.

Lemma uc_RegisterSchema_spec v name schema c :
  let out := usecase.RegisterSchema (engine v) name schema c in
  (is_Some out.1 /\ sqlite.db out.2 = sqlite.db c)
  \/ (out.1 = None /\
      validator.ValidateSchemaDefinition v schema = None /\
      sqlite.schemas (sqlite.db out.2)
        = <[name := string_of_raw schema]> (sqlite.schemas (sqlite.db c)) /\
      same_tables (sqlite.db c) (sqlite.db out.2)).
Proof.
  intros out. subst out. uc_unfold.
  destruct (validator.ValidateSchemaDefinition v schema) eqn:Hv.
  { left. cbn. eauto. }
  destruct (sqlite.RegisterSchema name schema c) as [oe c1] eqn:E.
  apply RegisterSchema_spec in E as [[[e ->] Hsame]|(-> & Hs & Ht)]; cbn [fst snd].
  - left. eauto.
  - right. eauto.
Qed.

(** X2: after a RegisterSchema that returned no error, GetSchema of that
    name on a healthy connection returns the registered bytes; the schemas
    of the other names and the tables of configurations, versions and
    payloads are as before. *)
Theorem register_schema_roundtrip v name schema c :
  (usecase.RegisterSchema (engine v) name schema c).1 = None ->
  let d' := sqlite.db (usecase.RegisterSchema (engine v) name schema c).2 in
  (usecase.GetSchema (engine v) name (sqlite.mkConn d' [])).1
    = (Some (string_of_raw schema), None) /\
  (forall other, other <> name ->
     sqlite.schemas d' !! other = sqlite.schemas (sqlite.db c) !! other) /\
  sqlite.configurations d' = sqlite.configurations (sqlite.db c) /\
  sqlite.versions d' = sqlite.versions (sqlite.db c) /\
  sqlite.version_data d' = sqlite.version_data (sqlite.db c).
Proof.
  intros Hok d'. subst d'.
  destruct (uc_RegisterSchema_spec v name schema c) as [[[e He] _]|(_ & _ & Hs & Hc & Hv & Hd)].
  { congruence. }
  rewrite uc_GetSchema_healthy, Hs, lookup_insert_eq. split_and!; try done.
  intros other Hne. by rewrite lookup_insert_ne.
Qed.

(** X3: with the JSON schema validator, a RegisterSchema that returns an
    error leaves the store unchanged; a definition the library refuses is
    answered INVALID_REQUEST [Invalid JSON Schema] with the message of the
    library, on the connection as it was; and a registration that
    returned no error was accepted by the library. *)
Theorem register_schema_rejected gv gn name schema c :
  let v := validator.NewJSONSchemaValidator gv gn in
  let out := usecase.RegisterSchema (engine v) name schema c in
  (is_Some out.1 -> sqlite.db out.2 = sqlite.db c) /\
  (forall msg,
     gn (string_of_raw schema) = Some msg ->
     out = (Some (AppErr (errors.NewInvalidRequestError "Invalid JSON Schema"
                            (errors.DetailsString ("Schema validation error: " ++ msg)))), c)) /\
  (out.1 = None -> gn (string_of_raw schema) = None).
Proof.
  intros v out. split_and!.
  - intros Herr.
    destruct (uc_RegisterSchema_spec v name schema c) as [[_ H]|(Hnone & _)]; [done|].
    fold out in Hnone. rewrite Hnone in Herr. by destruct Herr.
  - intros msg Hmsg. subst out v. uc_unfold.
    cbn [validator.ValidateSchemaDefinition validator.NewJSONSchemaValidator].
    unfold validator.JSONSchemaValidator_ValidateSchemaDefinition. by rewrite Hmsg.
  - intros Hok.
    destruct (uc_RegisterSchema_spec v name schema c) as [[[e He] _]|(_ & Hv & _)].
    { fold out in He. congruence. }
    subst v. cbn [validator.ValidateSchemaDefinition validator.NewJSONSchemaValidator] in Hv.
    unfold validator.JSONSchemaValidator_ValidateSchemaDefinition in Hv.
    by destruct (gn (string_of_raw schema)).
Qed.

(** X4: CreateConfiguration on a name that has a row fails, and
    UpdateConfiguration and RollbackConfiguration on a name without a row
    answer NOT_FOUND; each of them leaves the store unchanged, whatever
    the failures of the driver. *)
Theorem existence_guards_write_nothing v name c :
  (forall row data now,
     sqlite.configurations (sqlite.db c) !! name = Some row ->
     let out := usecase.CreateConfiguration (engine v) name data now c in
     out.1.1 = None /\ is_Some out.1.2 /\ sqlite.db out.2 = sqlite.db c) /\
  (forall data now,
     sqlite.configurations (sqlite.db c) !! name = None ->
     let out := usecase.UpdateConfiguration (engine v) name data now c in
     out.1.1 = None /\ kind_of out.1 = Some errors.ErrorCodeNotFound /\
     sqlite.db out.2 = sqlite.db c) /\
  (forall target now,
     sqlite.configurations (sqlite.db c) !! name = None ->
     let out := usecase.RollbackConfiguration (engine v) name target now c in
     out.1.1 = None /\ kind_of out.1 = Some errors.ErrorCodeNotFound /\
     sqlite.db out.2 = sqlite.db c).
Proof.
  split_and!.
  - intros row data now Hrow out. subst out.
    destruct (usecase.CreateConfiguration _ _ _ _ _) as [r c'] eqn:E.
    apply Create_inv in E as [?|(Hnone & _)]; cbn [fst snd]; [done|congruence].
  - intros data now Hnone out. subst out.
    destruct (usecase.UpdateConfiguration _ _ _ _ _) as [r c'] eqn:E. cbn [fst snd].
    uc_unfold. repeat repo_step; simplify_eq; uc_simpl; done.
  - intros target now Hnone out. subst out.
    destruct (usecase.RollbackConfiguration _ _ _ _ _) as [r c'] eqn:E. cbn [fst snd].
    apply Rollback_inv in E as [?|(row & ? & ? & Hrow & _)]; [done|congruence].
Qed.

Lemma Get_after_advanced v cfg p d d' row :
  sqlite.configurations d !! entity.Name cfg = Some row ->
  entity.CreatedAt cfg = sqlite.created_at row ->
  string_of_raw (entity.Data cfg) = p ->
  advanced cfg p true d d' ->
  exists got,
    (usecase.GetConfiguration (engine v) (entity.Name cfg) (sqlite.mkConn d' [])).1
      = (Some got, None) /\
    same_configuration got cfg.
Proof.
  intros Hrow Hcreated Hp Hadv.
  pose proof (advanced_head _ _ _ _ _ _ Hrow Hadv) as Hhead.
  destruct Hadv as (_ & _ & _ & _ & Hd).
  rewrite uc_GetConfiguration_healthy, Hhead. cbn [updated_row sqlite.version].
  rewrite Hd, lookup_insert_eq. eexists. split; [done|].
  unfold same_configuration, row_config, raw_of_string; cbn. by rewrite Hp, Hcreated.
Qed.

Lemma Get_after_Create v c cfg name data now :
  (usecase.CreateConfiguration (engine v) name data now c).1 = (Some cfg, None) ->
  exists got,
    (usecase.GetConfiguration (engine v) name
       (sqlite.mkConn (sqlite.db (usecase.CreateConfiguration (engine v) name data now c).2)
          [])).1 = (Some got, None) /\
    same_configuration got cfg.
Proof.
  destruct (usecase.CreateConfiguration _ _ _ _ _) as [r c'] eqn:E. cbn [fst snd]. intros ->.
  apply Create_inv in E as [(? & _)|(_ & _ & Hc & Hv & _ & Hcase)]; cbn [fst snd] in *; [done|].
  destruct Hcase as [(? & _)|(? & Hd)]; [done|]. simplify_eq.
  rewrite uc_GetConfiguration_healthy, Hc, lookup_insert_eq.
  cbn [created_row sqlite.version entity.NewConfiguration entity.Version].
  rewrite Hd, lookup_insert_eq. eexists. split; [done|].
  unfold same_configuration, row_config, raw_of_string; cbn. done.
Qed.

Lemma Get_after_Update v c cfg name data now :
  (usecase.UpdateConfiguration (engine v) name data now c).1 = (Some cfg, None) ->
  exists got,
    (usecase.GetConfiguration (engine v) name
       (sqlite.mkConn (sqlite.db (usecase.UpdateConfiguration (engine v) name data now c).2)
          [])).1 = (Some got, None) /\
    same_configuration got cfg.
Proof.
  destruct (usecase.UpdateConfiguration _ _ _ _ _) as [r c'] eqn:E. cbn [fst snd]. intros ->.
  apply Update_inv in E as [(? & _)|(row & dataStr & Hrow & _ & Hcase)]; cbn [fst snd] in *;
    [done|].
  destruct Hcase as [(? & _)|(? & Hadv)]; [done|]. simplify_eq.
  by refine (Get_after_advanced v
               (entity.UpdateVersion (row_config name row dataStr) data now)
               _ _ _ row Hrow _ _ Hadv).
Qed.

Lemma Get_after_Rollback v c cfg name target now :
  (usecase.RollbackConfiguration (engine v) name target now c).1 = (Some cfg, None) ->
  exists got,
    (usecase.GetConfiguration (engine v) name
       (sqlite.mkConn
          (sqlite.db (usecase.RollbackConfiguration (engine v) name target now c).2) [])).1
      = (Some got, None) /\
    same_configuration got cfg.
Proof.
  destruct (usecase.RollbackConfiguration _ _ _ _ _) as [r c'] eqn:E. cbn [fst snd].
  intros ->.
  apply Rollback_inv in E as [(? & _)|(row & dataStr & payload & Hrow & _ & _ & Hcase)];
    cbn [fst snd] in *; [done|].
  destruct Hcase as [(? & _)|[(? & _)|(? & Hadv)]]; [done|done|]. simplify_eq.
  by refine (Get_after_advanced v
               (entity.NewVersionFromRollback (row_config name row dataStr) target
                  (Some payload) now)
               _ _ _ row Hrow _ _ Hadv).
Qed.

(** X5: the configuration a successful CreateConfiguration,
    UpdateConfiguration or RollbackConfiguration returns is the one
    GetConfiguration returns right afterwards on a healthy connection:
    same name, version, data bytes, times and rollback fields. *)
Theorem get_returns_what_the_write_returned v c cfg :
  (forall name data now,
     (usecase.CreateConfiguration (engine v) name data now c).1 = (Some cfg, None) ->
     exists got,
       (usecase.GetConfiguration (engine v) name
          (sqlite.mkConn (sqlite.db (usecase.CreateConfiguration (engine v) name data now c).2)
             [])).1 = (Some got, None) /\
       same_configuration got cfg) /\
  (forall name data now,
     (usecase.UpdateConfiguration (engine v) name data now c).1 = (Some cfg, None) ->
     exists got,
       (usecase.GetConfiguration (engine v) name
          (sqlite.mkConn (sqlite.db (usecase.UpdateConfiguration (engine v) name data now c).2)
             [])).1 = (Some got, None) /\
       same_configuration got cfg) /\
  (forall name target now,
     (usecase.RollbackConfiguration (engine v) name target now c).1 = (Some cfg, None) ->
     exists got,
       (usecase.GetConfiguration (engine v) name
          (sqlite.mkConn
             (sqlite.db (usecase.RollbackConfiguration (engine v) name target now c).2) [])).1
         = (Some got, None) /\
       same_configuration got cfg).
Proof.
  split_and!.
  - intros name data now Hok. by apply Get_after_Create.
  - intros name data now Hok. by apply Get_after_Update.
  - intros name target now Hok. by apply Get_after_Rollback.
Qed.

Lemma after_cases v call d :
  same_tables d (after v call d)
  \/ (exists cfg p stored,
        entity.Version cfg = 1 /\ created cfg p stored d (after v call d))
  \/ (exists cfg p stored row,
        sqlite.configurations d !! entity.Name cfg = Some row /\
        is_Some (sqlite.version_data d !! (entity.Name cfg, sqlite.version row)) /\
        entity.Version cfg = int_add (sqlite.version row) 1 /\
        advanced cfg p stored d (after v call d)).
Proof.
  destruct call as [name data now fs|name data now fs|name target now fs|name schema fs];
    unfold after.
  - destruct (usecase.CreateConfiguration _ _ _ _ _) as [r c'] eqn:E.
    apply Create_inv in E as [(_ & _ & Hsame)|(Hf & Hv & Hc & Hvs & Hs & Hcase)];
      cbn [snd sqlite.db] in *.
    { left. rewrite Hsame. by unfold same_tables. }
    right; left. exists (entity.NewConfiguration name data now), (string_of_raw data).
    destruct Hcase as [(_ & _ & Hd)|(_ & Hd)]; [exists false|exists true];
      (split; [done|by unfold created]).
  - destruct (usecase.UpdateConfiguration _ _ _ _ _) as [r c'] eqn:E.
    apply Update_inv in E as [(_ & _ & Hsame)|(row & dataStr & Hrow & Hdata & Hcase)];
      cbn [snd sqlite.db] in *.
    { left. rewrite Hsame. by unfold same_tables. }
    right; right.
    exists (entity.UpdateVersion (row_config name row dataStr) data now), (string_of_raw data).
    destruct Hcase as [(_ & _ & Hadv)|(_ & Hadv)]; [exists false|exists true];
      (exists row; split_and!; [exact Hrow|exists dataStr; exact Hdata|done|exact Hadv]).
  - destruct (usecase.RollbackConfiguration _ _ _ _ _) as [r c'] eqn:E.
    apply Rollback_inv in E
      as [(_ & _ & Hsame)|(row & dataStr & payload & Hrow & Hdata & _ & Hcase)];
      cbn [snd sqlite.db] in *.
    { left. rewrite Hsame. by unfold same_tables. }
    destruct Hcase as [(_ & _ & Hsame)|[(_ & _ & Hadv)|(_ & Hadv)]].
    { left. rewrite Hsame. by unfold same_tables. }
    all: right; right;
      exists (entity.NewVersionFromRollback (row_config name row dataStr) target
                (Some payload) now), payload.
    1: exists false. 2: exists true.
    all: exists row; split_and!; [exact Hrow|exists dataStr; exact Hdata|done|exact Hadv].
  - left. destruct (usecase.RegisterSchema _ _ _ _) as [r c'] eqn:E.
    by apply Register_inv in E.
Qed.

(** X6: the history is append-only: on a store reached by calls of the
    service, one more call of any kind, under any validator and any
    failures, keeps every version record and every payload as it was. *)
Theorem history_is_append_only v w calls call :
  Z.of_nat (length calls) <= max_int ->
  let d := run v calls in
  let d' := after w call d in
  (forall k record, sqlite.versions d !! k = Some record ->
                    sqlite.versions d' !! k = Some record) /\
  (forall k payload, sqlite.version_data d !! k = Some payload ->
                     sqlite.version_data d' !! k = Some payload).
Proof.
  intros Hn d d'. pose proof (run_inv v calls Hn) as [Hb Hh Hr Ho Hp Hy]. fold d in Hp.
  assert (forall k, sqlite.versions d !! k = None -> sqlite.version_data d !! k = None) as Hfresh.
  { intros k Hk. destruct (sqlite.version_data d !! k) eqn:E; [|done].
    destruct (Hp k) as [? ?]; [eauto|congruence]. }
  subst d'.
  destruct (after_cases w call d)
    as [(Hc & Hv & Hd)|[(cfg & p & stored & _ & _ & Hnone & _ & Hv & _ & Hd)
                       |(cfg & p & stored & row & _ & _ & _ & Hnone & _ & Hv & _ & Hd)]].
  - rewrite Hv, Hd. done.
  - rewrite Hv, Hd. split.
    + intros k record Hk. rewrite lookup_insert_ne; [done|congruence].
    + intros k payload Hk. destruct stored; [|done].
      rewrite lookup_insert_ne; [done|]. intros <-. rewrite (Hfresh _ Hnone) in Hk. done.
  - rewrite Hv, Hd. split.
    + intros k record Hk. rewrite lookup_insert_ne; [done|congruence].
    + intros k payload Hk. destruct stored; [|done].
      rewrite lookup_insert_ne; [done|]. intros <-. rewrite (Hfresh _ Hnone) in Hk. done.
Qed.

(** X7: a configuration is never removed: after one more call of any
    kind its row is still there, with the same creation time and a head
    version that is the same or one higher. *)
Theorem configuration_persists v w calls call name row :
  Z.of_nat (length calls) < max_int ->
  sqlite.configurations (run v calls) !! name = Some row ->
  exists row',
    sqlite.configurations (after w call (run v calls)) !! name = Some row' /\
    sqlite.created_at row' = sqlite.created_at row /\
    (sqlite.version row' = sqlite.version row \/
     sqlite.version row' = sqlite.version row + 1).
Proof.
  intros Hn Hrow. pose proof (run_inv v calls ltac:(lia)) as [Hb Hh Hr Ho Hp Hy].
  pose proof (Hh _ _ Hrow) as Hrange.
  destruct (after_cases w call (run v calls))
    as [(Hc & Hv & Hd)|[(cfg & p & stored & _ & Hnone & _ & Hc & _)
                       |(cfg & p & stored & row0 & Hrow0 & _ & Hver & _ & Hc & _)]].
  - rewrite Hc. eauto.
  - rewrite Hc, lookup_insert_ne by congruence. eauto.
  - rewrite Hc, lookup_alter. case_decide as Hname.
    + subst name. rewrite Hrow. simplify_eq. eexists. split; [done|].
      unfold updated_row; cbn. split; [done|]. right.
      rewrite Hver. apply int_add_1. unfold min_int. lia.
    + eauto.
Qed.

(** X8: on a store reached by calls of the service, when GetConfiguration
    returns a head, GetConfigurationVersion succeeds for every version
    from 1 to the version of the head, with the name, that version and
    the creation time of the head, and answers NOT_FOUND for every other
    number. *)
Theorem every_version_is_readable v w calls name head :
  Z.of_nat (length calls) <= max_int ->
  (usecase.GetConfiguration (engine w) name (sqlite.mkConn (run v calls) [])).1
    = (Some head, None) ->
  forall m,
    (1 <= m <= entity.Version head ->
     exists got,
       (usecase.GetConfigurationVersion (engine w) name m (sqlite.mkConn (run v calls) [])).1
         = (Some got, None) /\
       entity.Name got = name /\
       entity.Version got = m /\
       entity.CreatedAt got = entity.CreatedAt head) /\
    (m < 1 \/ entity.Version head < m ->
     kind_of (usecase.GetConfigurationVersion (engine w) name m
                (sqlite.mkConn (run v calls) [])).1
     = Some errors.ErrorCodeNotFound).
Proof.
  intros Hn. pose proof (run_inv v calls Hn) as [Hb Hh Hr Ho Hp Hy].
  rewrite uc_GetConfiguration_healthy.
  destruct (sqlite.configurations (run v calls) !! name) as [row|] eqn:Hrow; [|done].
  destruct (sqlite.version_data (run v calls) !! (name, sqlite.version row)) as [dataStr|]
    eqn:Hdata; [|done].
  intros [= <-] m. cbn [row_config entity.Version entity.CreatedAt].
  rewrite uc_GetConfigurationVersion_healthy, Hrow. split.
  - intros Hm.
    destruct (proj2 (Hr _ _ m Hrow) Hm) as [record ->].
    assert (is_Some (sqlite.version_data (run v calls) !! (name, m))) as [p ->].
    { destruct (decide (m = sqlite.version row)) as [->|]; [eauto|].
      apply (Hy _ _ _ Hrow). lia. }
    eexists. by split.
  - intros Hm.
    destruct (sqlite.versions (run v calls) !! (name, m)) eqn:E; [|done].
    assert (1 <= m <= sqlite.version row) by (apply (Hr _ _ _ Hrow); eauto). lia.
Qed.

Lemma GetConfiguration_without_payload name c :
  head_without_payload name (sqlite.db c) ->
  exists e c', sqlite.GetConfiguration name c = ((None, Some e), c') /\
               sqlite.db c' = sqlite.db c.
Proof.
  intros (row & Hrow & Hnone).
  destruct (sqlite.GetConfiguration name c) as [[oc oe] c'] eqn:E.
  apply GetConfiguration_inv in E as [Hsame [(row' & ds & Hrow' & Hds & _)|[-> [e ->]]]].
  - simplify_eq.
  - eauto.
Qed.

(** X9: a configuration whose head row has no payload (what a creation
    leaves when its payload write fails) is stuck: GetConfiguration,
    ListConfigurationVersions, UpdateConfiguration and
    RollbackConfiguration answer NOT_FOUND, CreateConfiguration fails, and
    after any call of the service the head is still without payload. *)
Theorem head_without_payload_is_stuck v name c :
  head_without_payload name (sqlite.db c) ->
  kind_of (usecase.GetConfiguration (engine v) name c).1 = Some errors.ErrorCodeNotFound /\
  kind_of (usecase.ListConfigurationVersions (engine v) name c).1
    = Some errors.ErrorCodeNotFound /\
  (forall data now,
     kind_of (usecase.UpdateConfiguration (engine v) name data now c).1
     = Some errors.ErrorCodeNotFound) /\
  (forall target now,
     kind_of (usecase.RollbackConfiguration (engine v) name target now c).1
     = Some errors.ErrorCodeNotFound) /\
  (forall data now,
     (usecase.CreateConfiguration (engine v) name data now c).1.1 = None /\
     is_Some (usecase.CreateConfiguration (engine v) name data now c).1.2) /\
  (forall call, head_without_payload name (after v call (sqlite.db c))).
Proof.
  intros Hstuck.
  destruct (GetConfiguration_without_payload name c Hstuck) as (e & c' & E & Hsame).
  split_and!.
  - uc_unfold. by rewrite E.
  - uc_unfold. by rewrite E.
  - intros data now. uc_unfold. by rewrite E.
  - intros target now. uc_unfold. by rewrite E.
  - intros data now. destruct Hstuck as (row & Hrow & _).
    by destruct (proj1 (existence_guards_write_nothing v name c) row data now Hrow)
      as (? & ? & _).
  - intros call. destruct Hstuck as (row & Hrow & Hnone).
    destruct (after_cases v call (sqlite.db c))
      as [(Hc & Hv & Hd)|[(cfg & p & stored & _ & Hfree & _ & Hc & _ & _ & Hd)
                         |(cfg & p & stored & row0 & Hrow0 & Hpay & _ & _ & Hc & _ & _ & Hd)]].
    + exists row. by rewrite Hc, Hd.
    + exists row. assert (entity.Name cfg <> name) by congruence.
      rewrite Hc, Hd, lookup_insert_ne by done. split; [done|].
      destruct stored; [|done]. rewrite lookup_insert_ne; [done|congruence].
    + assert (entity.Name cfg <> name) as Hne.
      { intros <-. simplify_eq. rewrite Hnone in Hpay. by destruct Hpay. }
      exists row. rewrite Hc, Hd, lookup_alter_ne by done. split; [done|].
      destruct stored; [|done]. rewrite lookup_insert_ne; [done|congruence].
Qed.

(** X10: the two transactions of the repository are all or nothing. A
    CreateConfiguration or UpdateConfiguration of the repository that
    returns an error leaves the store unchanged; one that returns nil has
    written the version record and (Create) the row or (Update) moved the
    head of an existing row; an existing row (Create) or an existing
    version record (both) makes them return an error. *)
Theorem repository_transactions_all_or_nothing cfg c :
  let created := sqlite.CreateConfiguration cfg c in
  let updated := sqlite.UpdateConfiguration cfg c in
  let key := (entity.Name cfg, entity.Version cfg) in
  (is_Some created.1 -> sqlite.db created.2 = sqlite.db c) /\
  (created.1 = None ->
   is_Some (sqlite.configurations (sqlite.db created.2) !! entity.Name cfg) /\
   is_Some (sqlite.versions (sqlite.db created.2) !! key)) /\
  (is_Some (sqlite.configurations (sqlite.db c) !! entity.Name cfg) \/
   is_Some (sqlite.versions (sqlite.db c) !! key) -> is_Some created.1) /\
  (is_Some updated.1 -> sqlite.db updated.2 = sqlite.db c) /\
  (updated.1 = None ->
   is_Some (sqlite.versions (sqlite.db updated.2) !! key) /\
   sqlite.version <$> sqlite.configurations (sqlite.db updated.2) !! entity.Name cfg
   = (fun _ => entity.Version cfg) <$> sqlite.configurations (sqlite.db c) !! entity.Name cfg) /\
  (is_Some (sqlite.versions (sqlite.db c) !! key) -> is_Some updated.1).
Proof.
  intros created updated key. subst created updated key.
  destruct (sqlite.CreateConfiguration cfg c) as [oe c1] eqn:E1.
  destruct (sqlite.UpdateConfiguration cfg c) as [oe' c2] eqn:E2. cbn [fst snd].
  apply CreateConfiguration_inv in E1. apply UpdateConfiguration_inv in E2.
  split_and!.
  - intros [e ->]. by destruct E1 as [[_ ?]|(? & _)].
  - intros ->. destruct E1 as [[[? ?] _]|(_ & _ & _ & Hc & Hv & _)]; [done|].
    by rewrite Hc, Hv, !lookup_insert_eq.
  - intros Hex. destruct E1 as [[? _]|(_ & Hc & Hv & _)]; [done|].
    rewrite Hc, Hv in Hex. by destruct Hex as [[? ?]|[? ?]].
  - intros [e ->]. by destruct E2 as [[_ ?]|(? & _)].
  - intros ->. destruct E2 as [[[? ?] _]|(_ & _ & Hc & Hv & _)]; [done|].
    rewrite Hc, Hv, lookup_insert_eq, lookup_alter, decide_True by done.
    split; [done|]. by destruct (sqlite.configurations (sqlite.db c) !! entity.Name cfg).
  - intros [? Hex]. destruct E2 as [[? _]|(_ & Hv & _)]; [done|]. congruence.
Qed.

(** X11: UpdateConfiguration of the repository does not check that its
    UPDATE met a row: on a name without a row, with a healthy driver, it
    returns nil, leaves the table of configurations as it was and inserts
    the version record. *)
Theorem repository_update_without_row cfg d :
  sqlite.configurations d !! entity.Name cfg = None ->
  sqlite.versions d !! (entity.Name cfg, entity.Version cfg) = None ->
  let out := sqlite.UpdateConfiguration cfg (sqlite.mkConn d []) in
  out.1 = None /\
  sqlite.configurations (sqlite.db out.2) = sqlite.configurations d /\
  is_Some (sqlite.versions (sqlite.db out.2) !! (entity.Name cfg, entity.Version cfg)).
Proof.
  intros Hnone Hfresh out. subst out.
  destruct (UpdateConfiguration_healthy cfg d Hfresh) as [d' E]. rewrite E. cbn [fst snd].
  apply UpdateConfiguration_inv in E as [[[? ?] _]|(_ & _ & Hc & Hv & _)]; [done|].
  cbn [sqlite.db] in *. rewrite Hc, Hv, lookup_insert_eq. split_and!; [done| |done].
  apply map_eq. intros k. rewrite lookup_alter. case_decide; [|done]. subst. by rewrite Hnone.
Qed.

(** X12: after a StoreVersionData that returned no error, GetVersionData
    of that name and version on a healthy connection returns the stored
    bytes; the payloads of the other keys and the other tables are as
    before. *)
Theorem version_data_roundtrip name ver data c :
  (sqlite.StoreVersionData name ver data c).1 = None ->
  let d' := sqlite.db (sqlite.StoreVersionData name ver data c).2 in
  (sqlite.GetVersionData name ver (sqlite.mkConn d' [])).1 = (Some (string_of_raw data), None) /\
  (forall k, k <> (name, ver) ->
     sqlite.version_data d' !! k = sqlite.version_data (sqlite.db c) !! k) /\
  sqlite.configurations d' = sqlite.configurations (sqlite.db c) /\
  sqlite.versions d' = sqlite.versions (sqlite.db c) /\
  sqlite.schemas d' = sqlite.schemas (sqlite.db c).
Proof.
  destruct (sqlite.StoreVersionData name ver data c) as [oe c'] eqn:E. cbn [fst snd].
  intros ->. apply StoreVersionData_inv in E as [[[? ?] _]|(_ & Hc & Hv & Hd & Hs)]; [done|].
  rewrite GetVersionData_healthy, Hd, lookup_insert_eq. split_and!; try done.
  intros k Hk. by rewrite lookup_insert_ne.
Qed.

(** X13: ValidateConfigurationData on a healthy connection, with the JSON
    schema validator: NOT_FOUND when the name has no schema; nil when the
    library finds no violation; VALIDATION_FAILED [JSON validation failed]
    with the violations of the library when there are some;
    INTERNAL_ERROR when the library itself fails. *)
Theorem validate_data_verdict gv gn name data d :
  let v := validator.NewJSONSchemaValidator gv gn in
  let out := usecase.ValidateConfigurationData (engine v) name data (sqlite.mkConn d []) in
  (sqlite.schemas d !! name = None ->
   out.1 ≫= code_of = Some errors.ErrorCodeNotFound) /\
  (forall schema,
     sqlite.schemas d !! name = Some schema ->
     (gv schema (string_of_raw data) = validator.GjsChecked [] -> out.1 = None) /\
     (forall violations,
        violations <> [] ->
        gv schema (string_of_raw data) = validator.GjsChecked violations ->
        out.1 = Some (AppErr (errors.NewValidationFailedError "JSON validation failed"
                                (errors.DetailsValidation violations)))) /\
     (forall msg,
        gv schema (string_of_raw data) = validator.GjsError msg ->
        out.1 ≫= code_of = Some errors.ErrorCodeInternalError)).
Proof.
  intros v out. subst out v. uc_unfold. rewrite GetSchema_healthy. split.
  - by intros ->.
  - intros schema ->. cbn [fst snd validator.ValidateJSON validator.NewJSONSchemaValidator].
    unfold validator.JSONSchemaValidator_ValidateJSON. cbn [string_of_raw].
    split_and!.
    + by intros ->.
    + intros violations Hne ->. by destruct violations.
    + by intros msg ->.
Qed.

Lemma Create_healthy_accepted v name data now d :
  sqlite.configurations d !! name = None ->
  sqlite.versions d !! (name, 1) = None ->
  (forall schema, sqlite.schemas d !! name = Some schema ->
                  validator.ValidateJSON v (Some schema) data = None) ->
  (usecase.CreateConfiguration (engine v) name data now (sqlite.mkConn d [])).1
  = (Some (entity.NewConfiguration name data now), None).
Proof.
  intros Hnone Hfresh Hok. uc_unfold.
  rewrite GetConfiguration_healthy, Hnone. uc_simpl.
  rewrite GetSchema_healthy.
  set (cfg := entity.NewConfiguration name data now).
  assert (exists d1, sqlite.CreateConfiguration cfg (sqlite.mkConn d []) = (None, sqlite.mkConn d1 []))
    as [d1 E1] by (by apply CreateConfiguration_healthy).
  destruct (StoreVersionData_healthy name (entity.Version cfg) data d1) as [d2 E2].
  destruct (sqlite.schemas d !! name) as [schema|] eqn:Hs; uc_simpl.
  - rewrite (Hok schema eq_refl), E1, E2. done.
  - rewrite E1, E2. done.
Qed.

Lemma Update_healthy_accepted v name data now d row dataStr :
  sqlite.configurations d !! name = Some row ->
  sqlite.version_data d !! (name, sqlite.version row) = Some dataStr ->
  sqlite.versions d !! (name, int_add (sqlite.version row) 1) = None ->
  (forall schema, sqlite.schemas d !! name = Some schema ->
                  validator.ValidateJSON v (Some schema) data = None) ->
  (usecase.UpdateConfiguration (engine v) name data now (sqlite.mkConn d [])).1
  = (Some (entity.UpdateVersion (row_config name row dataStr) data now), None).
Proof.
  intros Hrow Hdata Hfresh Hok. uc_unfold.
  rewrite GetConfiguration_healthy, Hrow, Hdata.
  rewrite GetSchema_healthy.
  set (cfg := entity.UpdateVersion (row_config name row dataStr) data now).
  destruct (UpdateConfiguration_healthy cfg d Hfresh) as [d1 E1].
  destruct (StoreVersionData_healthy name (entity.Version cfg) data d1) as [d2 E2].
  destruct (sqlite.schemas d !! name) as [schema|] eqn:Hs; uc_simpl.
  - rewrite (Hok schema eq_refl), E1, E2. done.
  - rewrite E1, E2. done.
Qed.

(** X14: on a store reached by calls of the service and a healthy
    connection, a write whose data the validator accepts succeeds:
    CreateConfiguration on a free name returns version 1 with the data,
    and UpdateConfiguration of a readable configuration returns the data
    under the version after the one of the head. *)
Theorem valid_writes_succeed v w calls name data now :
  Z.of_nat (length calls) < max_int ->
  (forall schema, sqlite.schemas (run v calls) !! name = Some schema ->
                  validator.ValidateJSON w (Some schema) data = None) ->
  (sqlite.configurations (run v calls) !! name = None ->
   (usecase.CreateConfiguration (engine w) name data now (sqlite.mkConn (run v calls) [])).1
   = (Some (entity.NewConfiguration name data now), None)) /\
  (forall head,
     (usecase.GetConfiguration (engine w) name (sqlite.mkConn (run v calls) [])).1
       = (Some head, None) ->
     exists cfg,
       (usecase.UpdateConfiguration (engine w) name data now (sqlite.mkConn (run v calls) [])).1
         = (Some cfg, None) /\
       entity.Version cfg = entity.Version head + 1 /\
       entity.Data cfg = data).
Proof.
  intros Hn Hok. pose proof (run_inv v calls ltac:(lia)) as [Hb Hh Hr Ho Hp Hy]. split.
  - intros Hnone. apply Create_healthy_accepted; [done| |done].
    destruct (sqlite.versions (run v calls) !! (name, 1)) eqn:E; [|done].
    destruct (Ho name 1) as [? ?]; [eauto|congruence].
  - intros head. rewrite uc_GetConfiguration_healthy.
    destruct (sqlite.configurations (run v calls) !! name) as [row|] eqn:Hrow; [|done].
    destruct (sqlite.version_data (run v calls) !! (name, sqlite.version row)) as [dataStr|]
      eqn:Hdata; [|done].
    intros [= <-]. pose proof (Hh _ _ Hrow) as Hrange.
    eexists. split; [|split].
    + apply Update_healthy_accepted with (dataStr := dataStr); [done|done| |done].
      rewrite int_add_1 by (unfold min_int; lia).
      destruct (sqlite.versions (run v calls) !! (name, sqlite.version row + 1)) eqn:E; [|done].
      assert (1 <= sqlite.version row + 1 <= sqlite.version row)
        by (apply (Hr _ _ _ Hrow); eauto).
      lia.
    + cbn. apply int_add_1. unfold min_int. lia.
    + done.
Qed.

(** * Splitting a string at a byte *)

Lemma Split_nonempty s sep : gostrings.Split s sep <> [].
Proof.
  induction s as [|ch rest IH]; cbn; [done|].
  destruct (Ascii.eqb ch sep); [done|]. by destruct (gostrings.Split rest sep).
Qed.

Lemma Split_join s sep : join sep (gostrings.Split s sep) = s.
Proof.
  induction s as [|ch rest IH]; cbn [gostrings.Split]; [done|].
  destruct (Ascii.eqb_spec ch sep) as [->|Hne].
  - pose proof (Split_nonempty rest sep).
    destruct (gostrings.Split rest sep) as [|p ps] eqn:E; [done|].
    cbn [join]. cbn. by rewrite <-IH.
  - pose proof (Split_nonempty rest sep).
    destruct (gostrings.Split rest sep) as [|p ps] eqn:E; [done|].
    rewrite <-IH. destruct ps; done.
Qed.

Lemma Split_pieces s sep piece :
  piece ∈ gostrings.Split s sep -> gostrings.Contains piece sep = false.
Proof.
  revert piece. induction s as [|ch rest IH]; intros piece; cbn [gostrings.Split].
  { intros ->%list_elem_of_singleton. done. }
  destruct (Ascii.eqb ch sep) eqn:Hch.
  - intros [->|Hin]%elem_of_cons; [done|by apply IH].
  - pose proof (Split_nonempty rest sep).
    destruct (gostrings.Split rest sep) as [|p ps] eqn:E; [done|].
    intros [->|Hin]%elem_of_cons.
    + cbn. rewrite Hch. apply IH. by left.
    + apply IH. by right.
Qed.

Lemma Split_length s sep :
  length (gostrings.Split s sep) = S (length (filter (fun ch => ch = sep) (list_ascii_of_string s))).
Proof.
  induction s as [|ch rest IH]; cbn [gostrings.Split list_ascii_of_string]; [done|].
  rewrite filter_cons. destruct (Ascii.eqb_spec ch sep) as [->|Hne].
  - rewrite decide_True by done. cbn. by rewrite IH.
  - rewrite decide_False by done. pose proof (Split_nonempty rest sep).
    destruct (gostrings.Split rest sep) as [|p ps] eqn:E; [done|]. cbn in *. done.
Qed.

Lemma Split_two s sep a b :
  gostrings.Split s sep = [a; b] <->
  s = a ++ String sep b /\ gostrings.Contains a sep = false /\ gostrings.Contains b sep = false.
Proof.
  split.
  - intros H. pose proof (Split_join s sep) as Hj. rewrite H in Hj. cbn in Hj.
    split; [done|]. split; apply (Split_pieces s sep); rewrite H; set_solver.
  - intros (-> & Ha & Hb). clear -Ha Hb.
    assert (gostrings.Split b sep = [b]) as Hsb.
    { clear Ha. induction b as [|ch rest IH]; cbn [gostrings.Split gostrings.Contains] in *;
        [done|].
      apply orb_false_iff in Hb as [-> Hrest]. by rewrite IH. }
    induction a as [|ch rest IH]; simpl in *.
    + rewrite Ascii.eqb_refl. by rewrite Hsb.
    + apply orb_false_iff in Ha as [-> Hrest]. by rewrite IH.
Qed.

(** * Authentication *)

Lemma Authenticate_cases ToLower apiKeys h :
  (exists scheme key clientID,
      h = scheme ++ String " " key /\
      gostrings.Contains scheme " " = false /\ gostrings.Contains key " " = false /\
      ToLower scheme = "bearer" /\ apiKeys !! key = Some clientID /\
      middleware.Authenticate ToLower apiKeys h = middleware.Next clientID) \/
  (exists message,
      message ∈ ["API key is required"; "Invalid authorization format"; "Invalid API key"] /\
      middleware.Authenticate ToLower apiKeys h = unauthorized message).
Proof.
  unfold middleware.Authenticate, unauthorized.
  case_bool_decide as Hempty.
  { right. eexists. split; [|reflexivity]. set_solver. }
  destruct (gostrings.Split h " ") as [|scheme [|key [|more rest]]] eqn:Hsplit;
    try (right; eexists; split; [|reflexivity]; set_solver).
  apply Split_two in Hsplit as (-> & Hs & Hk).
  case_bool_decide as Hlower; [|right; eexists; split; [|reflexivity]; set_solver].
  destruct (apiKeys !! key) as [clientID|] eqn:Hkey;
    [|right; eexists; split; [|reflexivity]; set_solver].
  left. by exists scheme, key, clientID.
Qed.

Lemma Authenticate_Next ToLower (apiKeys : gmap string string) h clientID :
  middleware.Authenticate ToLower apiKeys h = middleware.Next clientID <->
  exists scheme key,
    h = scheme ++ String " " key /\
    gostrings.Contains scheme " " = false /\ gostrings.Contains key " " = false /\
    ToLower scheme = "bearer" /\ apiKeys !! key = Some clientID.
Proof.
  split.
  - intros Hnext.
    destruct (Authenticate_cases ToLower apiKeys h)
      as [(scheme & key & cid & -> & Hs & Hk & Hl & Hkey & Hres)|(msg & _ & Hres)].
    + rewrite Hres in Hnext. injection Hnext as ->. by exists scheme, key.
    + rewrite Hres in Hnext. discriminate.
  - intros (scheme & key & -> & Hs & Hk & Hl & Hkey).
    unfold middleware.Authenticate.
    rewrite bool_decide_false by (by destruct scheme).
    pose proof (proj2 (Split_two (scheme ++ String " " key) " " scheme key)) as ->; [|done].
    by rewrite bool_decide_true, Hkey.
Qed.

(** X15: a request passes the authentication exactly when its
    Authorization header is one word that lower-cases to [bearer], one
    space and a registered key without a space; it is then passed on under
    the client of that key. Every other request is answered 401 with the
    code UNAUTHORIZED and no details. *)
Theorem authenticate_passes_iff ToLower (apiKeys : gmap string string) h :
  (forall clientID,
      middleware.Authenticate ToLower apiKeys h = middleware.Next clientID <->
      exists scheme key,
        h = scheme ++ String " " key /\
        gostrings.Contains scheme " " = false /\ gostrings.Contains key " " = false /\
        ToLower scheme = "bearer" /\ apiKeys !! key = Some clientID) /\
  match middleware.Authenticate ToLower apiKeys h with
  | middleware.Next _ => True
  | middleware.Abort status body =>
      status = StatusUnauthorized /\
      errresp.RCode body = errors.ErrorCodeUnauthorized /\
      errresp.RDetails body = errors.DetailsNil
  end.
Proof.
  split; [intros clientID; apply Authenticate_Next|].
  destruct (Authenticate_cases ToLower apiKeys h)
    as [(scheme & key & cid & _ & _ & _ & _ & _ & ->)|(msg & _ & ->)]; done.
Qed.

(** * The API keys of the environment *)

Lemma parseAPIKeys_fold TrimSpace keysStr :
  main.parseAPIKeys TrimSpace keysStr =
  foldl (add_pair TrimSpace) ∅ (gostrings.Split keysStr ",").
Proof.
  unfold main.parseAPIKeys. case_bool_decide as Hempty; [|done]. by subst.
Qed.

Lemma add_pair_cases TrimSpace result pair :
  (exists key client,
      pair = key ++ String ":" client /\
      gostrings.Contains key ":" = false /\ gostrings.Contains client ":" = false /\
      add_pair TrimSpace result pair = <[TrimSpace key := TrimSpace client]> result) \/
  (length (gostrings.Split pair ":") <> 2%nat /\ add_pair TrimSpace result pair = result).
Proof.
  unfold add_pair.
  destruct (gostrings.Split pair ":") as [|key [|client [|more rest]]] eqn:Hsplit;
    try (right; split; [cbn; lia|done]).
  apply Split_two in Hsplit as (-> & Hk & Hc). left. by exists key, client.
Qed.

Lemma add_pair_well_formed TrimSpace result key client :
  gostrings.Contains key ":" = false -> gostrings.Contains client ":" = false ->
  add_pair TrimSpace result (key ++ String ":" client) =
  <[TrimSpace key := TrimSpace client]> result.
Proof.
  intros Hk Hc. unfold add_pair.
  by pose proof (proj2 (Split_two (key ++ String ":" client) ":" key client)) as ->.
Qed.

Lemma foldl_add_pair_sound TrimSpace pairs result k c :
  foldl (add_pair TrimSpace) result pairs !! k = Some c ->
  result !! k = Some c \/
  exists key client,
    key ++ String ":" client ∈ pairs /\
    gostrings.Contains key ":" = false /\ gostrings.Contains client ":" = false /\
    TrimSpace key = k /\ TrimSpace client = c.
Proof.
  revert result. induction pairs as [|pair pairs IH]; intros result; cbn [foldl]; [by left|].
  intros [Hin|(key & client & Hin & ?)]%IH.
  - destruct (add_pair_cases TrimSpace result pair)
      as [(key & client & -> & Hk & Hc & Heq)|[_ Heq]]; rewrite Heq in Hin; [|by left].
    destruct (decide (TrimSpace key = k)) as [<-|Hne].
    + rewrite lookup_insert_eq in Hin. injection Hin as <-.
      right. exists key, client. split; [by left|done].
    + rewrite lookup_insert_ne in Hin by done. by left.
  - right. exists key, client. split; [by right|done].
Qed.

Lemma foldl_add_pair_keeps TrimSpace pairs result k c :
  result !! k = Some c ->
  (forall key client,
      key ++ String ":" client ∈ pairs ->
      gostrings.Contains key ":" = false -> gostrings.Contains client ":" = false ->
      TrimSpace key <> k) ->
  foldl (add_pair TrimSpace) result pairs !! k = Some c.
Proof.
  revert result. induction pairs as [|pair pairs IH]; intros result Hres Hlater;
    cbn [foldl]; [done|].
  apply IH.
  - destruct (add_pair_cases TrimSpace result pair)
      as [(key & client & -> & Hk & Hc & ->)|[_ ->]]; [|done].
    rewrite lookup_insert_ne; [done|]. apply (Hlater key client); [by left|done..].
  - intros key client Hin. apply Hlater. by right.
Qed.

(** X16: the keys [parseAPIKeys] yields come from the comma-separated
    pieces with exactly one colon: the trimmed text before the colon, with
    the trimmed text after it as client. A piece with no colon or with
    more than one gives no key, and of several pieces with the same key
    the last one decides. *)
Theorem parseAPIKeys_lookup TrimSpace keysStr :
  (forall k c,
      main.parseAPIKeys TrimSpace keysStr !! k = Some c ->
      exists key client,
        key ++ String ":" client ∈ gostrings.Split keysStr "," /\
        gostrings.Contains key ":" = false /\ gostrings.Contains client ":" = false /\
        TrimSpace key = k /\ TrimSpace client = c) /\
  (forall before key client later,
      gostrings.Split keysStr "," = app before ((key ++ String ":" client) :: later) ->
      gostrings.Contains key ":" = false -> gostrings.Contains client ":" = false ->
      (forall key' client',
          key' ++ String ":" client' ∈ later ->
          gostrings.Contains key' ":" = false -> gostrings.Contains client' ":" = false ->
          TrimSpace key' <> TrimSpace key) ->
      main.parseAPIKeys TrimSpace keysStr !! TrimSpace key = Some (TrimSpace client)).
Proof.
  rewrite parseAPIKeys_fold. split.
  - intros k c [Hin|Hin]%foldl_add_pair_sound; [by rewrite lookup_empty in Hin|done].
  - intros before key client later -> Hk Hc Hlater.
    rewrite foldl_app. cbn [foldl]. apply foldl_add_pair_keeps; [|done].
    rewrite add_pair_well_formed by done. apply lookup_insert_eq.
Qed.

Lemma foldl_add_pair_malformed TrimSpace pairs result :
  (forall pair, pair ∈ pairs -> length (gostrings.Split pair ":") <> 2%nat) ->
  foldl (add_pair TrimSpace) result pairs = result.
Proof.
  revert result. induction pairs as [|pair pairs IH]; intros result Hall; cbn [foldl]; [done|].
  rewrite IH by (intros ? ?; apply Hall; by right).
  destruct (add_pair_cases TrimSpace result pair)
    as [(key & client & -> & Hk & Hc & _)|[_ ->]]; [|done].
  exfalso. apply (Hall (key ++ String ":" client)); [by left|].
  by pose proof (proj2 (Split_two (key ++ String ":" client) ":" key client)) as ->.
Qed.

Lemma foldl_add_pair_nonempty TrimSpace pairs result pair :
  pair ∈ pairs -> length (gostrings.Split pair ":") = 2%nat ->
  foldl (add_pair TrimSpace) result pairs <> ∅.
Proof.
  revert result. induction pairs as [|p pairs IH]; intros result Hin Hlen; [by inversion Hin|].
  cbn [foldl]. destruct (decide (pair ∈ pairs)) as [Hlater|Hnot]; [by apply IH|].
  apply elem_of_cons in Hin as [<-|?]; [|done].
  destruct (add_pair_cases TrimSpace result pair)
    as [(key & client & -> & Hk & Hc & Heq)|[? _]]; [|done].
  intros Hempty.
  assert (is_Some (foldl (add_pair TrimSpace) (add_pair TrimSpace result
            (key ++ String ":" client)) pairs !! TrimSpace key)) as [c Hc'].
  { clear Hempty IH Hnot. rewrite Heq. clear Heq.
    assert (is_Some ((<[TrimSpace key := TrimSpace client]> result) !! TrimSpace key)) as Hsome
      by (rewrite lookup_insert_eq; by eexists).
    revert Hsome. generalize (<[TrimSpace key := TrimSpace client]> result).
    induction pairs as [|q pairs IHp]; intros m Hsome; cbn [foldl]; [done|].
    apply IHp.
    destruct (add_pair_cases TrimSpace m q) as [(k' & c' & -> & _ & _ & ->)|[_ ->]]; [|done].
    destruct (decide (TrimSpace k' = TrimSpace key)) as [->|Hne].
    - rewrite lookup_insert_eq. by eexists.
    - by rewrite lookup_insert_ne. }
  rewrite Hempty, lookup_empty in Hc'. done.
Qed.

Lemma apiKeys_default TrimSpace env :
  (forall pair, pair ∈ gostrings.Split env "," -> length (gostrings.Split pair ":") <> 2%nat) ->
  main.apiKeys TrimSpace env = {[ "dev-api-key" := "development" ]}.
Proof.
  intros Hall. unfold main.apiKeys. rewrite parseAPIKeys_fold.
  rewrite foldl_add_pair_malformed by done.
  rewrite bool_decide_true by apply map_size_empty. by rewrite insert_empty.
Qed.

(** X17: the development key [dev-api-key] of the client [development]
    is installed when API_KEYS yields no key, that is when none of its
    comma-separated pieces has exactly one colon, and it is then the only
    key; as soon as one piece is well formed, the keys are those of
    API_KEYS and nothing else. *)
Theorem default_key_only_without_keys TrimSpace env :
  ((forall pair, pair ∈ gostrings.Split env "," -> length (gostrings.Split pair ":") <> 2%nat) ->
   main.apiKeys TrimSpace env = {[ "dev-api-key" := "development" ]}) /\
  (forall pair,
      pair ∈ gostrings.Split env "," -> length (gostrings.Split pair ":") = 2%nat ->
      main.apiKeys TrimSpace env = main.parseAPIKeys TrimSpace env /\
      main.parseAPIKeys TrimSpace env <> ∅).
Proof.
  split; [apply apiKeys_default|].
  unfold main.apiKeys. rewrite parseAPIKeys_fold.
  intros pair Hin Hlen.
  pose proof (foldl_add_pair_nonempty TrimSpace _ ∅ pair Hin Hlen) as Hne.
  split; [|done]. rewrite bool_decide_false; [done|]. by intros ?%map_size_empty_inv.
Qed.

(** X18: when API_KEYS yields no key, the requests that pass the
    authentication are exactly those whose header is a word that
    lower-cases to [bearer], one space and [dev-api-key]; they are served
    as the client [development]. *)
Theorem development_key_is_the_only_key ToLower TrimSpace env h clientID
    (Hnone : forall pair,
        pair ∈ gostrings.Split env "," -> length (gostrings.Split pair ":") <> 2%nat) :
  middleware.Authenticate ToLower (main.apiKeys TrimSpace env) h = middleware.Next clientID <->
  clientID = "development" /\
  exists scheme,
    h = scheme ++ " dev-api-key" /\ gostrings.Contains scheme " " = false /\
    ToLower scheme = "bearer".
Proof.
  rewrite (apiKeys_default TrimSpace env Hnone), Authenticate_Next. split.
  - intros (scheme & key & -> & Hs & Hk & Hl & Hkey).
    apply lookup_singleton_Some in Hkey as [<- <-]. split; [done|]. by exists scheme.
  - intros (-> & scheme & -> & Hs & Hl). exists scheme, "dev-api-key".
    split_and!; try done.
Qed.

(** * The directory of the database *)

Lemma LastIndex_spec s sep :
  (gostrings.Contains s sep = false /\ gostrings.LastIndex s sep = -1) \/
  (exists a b,
      s = a ++ String sep b /\ gostrings.Contains b sep = false /\
      gostrings.LastIndex s sep = Z.of_nat (String.length a)).
Proof.
  induction s as [|ch rest IH]; [by left|].
  cbn [gostrings.Contains gostrings.LastIndex].
  destruct IH as [[Hc Hi]|(a & b & -> & Hb & Hi)].
  - rewrite Hi, Hc. cbn [Z.leb Z.compare Z.opp]. destruct (Ascii.eqb_spec ch sep) as [->|Hne].
    + right. exists "", rest. done.
    + by left.
  - right. exists (String ch a), b. split; [done|]. split; [done|].
    rewrite Hi. destruct (Z.leb_spec 0 (Z.of_nat (String.length a))); [|lia].
    cbn [String.length]. lia.
Qed.

Lemma substring_prefix a b : substring 0 (String.length a) (a ++ b) = a.
Proof.
  induction a as [|ch a IH]; simpl.
  - by destruct b.
  - by rewrite IH.
Qed.

Lemma Contains_app a sep b : gostrings.Contains (a ++ String sep b) sep = true.
Proof.
  induction a as [|ch a IH]; simpl.
  - by rewrite Ascii.eqb_refl.
  - rewrite IH. apply orb_true_r.
Qed.

(** X19: the directory the service creates for its database is the path
    up to its last slash, the rest being the file name; a SQLITE_DB_PATH
    without any slash makes the slice expression panic at start-up, and an
    unset one stands for [data/config.db], directory [data]. *)
Theorem database_directory env :
  let dbPath := if bool_decide (env = "") then "data/config.db" else env in
  (main.dir env = None <-> gostrings.Contains dbPath "/" = false) /\
  (forall d, main.dir env = Some d <->
     exists file, dbPath = d ++ String "/" file /\ gostrings.Contains file "/" = false) /\
  main.dir "" = Some "data".
Proof.
  intros dbPath. unfold main.dir. fold dbPath.
  split_and!; [| |done].
  - destruct (LastIndex_spec dbPath "/") as [[Hc Hi]|(a & b & Heq & Hb & Hi)].
    + rewrite Hi. done.
    + rewrite Hi, Heq, Contains_app.
      destruct (Z.ltb_spec (Z.of_nat (String.length a)) 0); [lia|]. done.
  - intros d. destruct (LastIndex_spec dbPath "/") as [[Hc Hi]|(a & b & Heq & Hb & Hi)].
    + rewrite Hi. split; [done|]. intros (file & Heq & _).
      rewrite Heq, Contains_app in Hc. done.
    + rewrite Hi, Heq.
      destruct (Z.ltb_spec (Z.of_nat (String.length a)) 0); [lia|].
      rewrite Nat2Z.id, substring_prefix. split.
      * intros [= <-]. by exists b.
      * intros (file & Heq' & Hfile). f_equal.
        clear -Heq' Hb Hfile. revert d Heq'.
        induction a as [|ch a IH]; intros [|ch' d]; cbn [String.append]; intros Heq'.
        -- done.
        -- injection Heq' as <- ->. by rewrite Contains_app in Hb.
        -- injection Heq' as -> <-. by rewrite Contains_app in Hfile.
        -- injection Heq' as -> Heq'. f_equal. by apply IH.
Qed.

(** * The HTTP handlers *)

Ltac handler_unfold :=
  unfold handler.CreateConfiguration, handler.UpdateConfiguration, handler.GetConfiguration,
    handler.GetConfigurationVersion, handler.ListConfigurationVersions,
    handler.RollbackConfiguration, handler.RegisterSchema, handler.GetSchema.

Ltac code_listed := solve [repeat constructor].

Ltac code_not_listed H :=
  repeat (apply elem_of_cons in H as [H|H]; [discriminate H|]);
  apply elem_of_nil in H; destruct H.

Ltac answers_done :=
  unfold answers; cbn [fst snd errresp.RCode errresp.NewErrorResponse errresp.ToErrorResponse
                       status_of_code];
  first [done | split; [done|code_listed]].

Ltac by_kinds H :=
  let e := fresh "e" in let k := fresh "k" in let Hk := fresh "Hk" in let Hin := fresh "Hin" in
  match goal with
  | |- context [match ?err with Some _ => _ | None => _ end] =>
      destruct err as [[e|e]|];
      [ destruct (H _ eq_refl) as (k & Hk & Hin); discriminate Hk
      | destruct (H _ eq_refl) as (k & Hk & Hin);
        cbn [code_of] in Hk; injection Hk as Hk;
        destruct (errors.Code e) eqn:Hcode; subst k;
        first [ by code_not_listed Hin
              | unfold answers;
                cbn [fst snd errresp.RCode errresp.NewErrorResponse errresp.ToErrorResponse];
                rewrite Hcode; split; [done|code_listed] ]
      | try answers_done ]
  end.

Section HandlerStatus.

Context {S : Type} (r : repository.ConfigurationRepository S).
Variable gojsonschema_Validate : string -> string -> validator.GjsResult.
Variable gojsonschema_NewSchema : string -> option string.
Variable strconv_Atoi : string -> string + Z.
Variable json_Unmarshal : string -> option string.

Local Abbreviation svc :=
  (usecase.NewConfigurationUseCase gojsonschema_Validate gojsonschema_NewSchema r).

Lemma handler_Create_answers req now s :
  answers StatusCreated
    [errors.ErrorCodeInvalidRequest; errors.ErrorCodeAlreadyExists;
     errors.ErrorCodeValidationFailed; errors.ErrorCodeInternalError]
    (handler.CreateConfiguration svc req now s).1.
Proof.
  handler_unfold. destruct req as [msg|[name data]]; [answers_done|].
  pose proof (Create_kinds r gojsonschema_Validate gojsonschema_NewSchema name data now s) as Hkinds.
  unfold fails_only_with in Hkinds.
  destruct (usecase.CreateConfiguration _ name data now s) as [[cfg err] s']. cbn [fst snd] in Hkinds.
  by_kinds Hkinds.
Qed.

Lemma handler_Update_answers name req now s :
  answers StatusOK
    [errors.ErrorCodeInvalidRequest; errors.ErrorCodeNotFound;
     errors.ErrorCodeValidationFailed; errors.ErrorCodeInternalError]
    (handler.UpdateConfiguration svc name req now s).1.
Proof.
  handler_unfold. case_bool_decide; [answers_done|].
  destruct req as [msg|data]; [answers_done|].
  pose proof (Update_kinds r gojsonschema_Validate gojsonschema_NewSchema name data now s) as Hkinds.
  unfold fails_only_with in Hkinds.
  destruct (usecase.UpdateConfiguration _ name data now s) as [[cfg err] s']. cbn [fst snd] in Hkinds.
  by_kinds Hkinds.
Qed.

Lemma handler_Get_answers name s :
  answers StatusOK [errors.ErrorCodeInvalidRequest; errors.ErrorCodeNotFound]
    (handler.GetConfiguration svc name s).1.
Proof.
  handler_unfold. case_bool_decide; [answers_done|].
  pose proof (Get_kinds r gojsonschema_Validate gojsonschema_NewSchema name s) as Hkinds.
  unfold fails_only_with in Hkinds.
  destruct (usecase.GetConfiguration _ name s) as [[cfg err] s']. cbn [fst snd] in Hkinds.
  by_kinds Hkinds.
Qed.

Lemma handler_GetVersion_answers name versionStr s :
  answers StatusOK [errors.ErrorCodeInvalidRequest; errors.ErrorCodeNotFound]
    (handler.GetConfigurationVersion svc strconv_Atoi name versionStr s).1.
Proof.
  handler_unfold. case_bool_decide; [answers_done|]. case_bool_decide; [answers_done|].
  destruct (strconv_Atoi versionStr) as [msg|ver]; [answers_done|].
  pose proof (GetVersion_kinds r gojsonschema_Validate gojsonschema_NewSchema name ver s) as Hkinds.
  unfold fails_only_with in Hkinds.
  destruct (usecase.GetConfigurationVersion _ name ver s) as [[cfg err] s']. cbn [fst snd] in Hkinds.
  by_kinds Hkinds.
Qed.

Lemma handler_List_answers name s :
  answers StatusOK
    [errors.ErrorCodeInvalidRequest; errors.ErrorCodeNotFound; errors.ErrorCodeInternalError]
    (handler.ListConfigurationVersions svc name s).1.
Proof.
  handler_unfold. case_bool_decide; [answers_done|].
  pose proof (List_kinds r gojsonschema_Validate gojsonschema_NewSchema name s) as Hkinds.
  unfold fails_only_with in Hkinds.
  destruct (usecase.ListConfigurationVersions _ name s) as [[cfg err] s']. cbn [fst snd] in Hkinds.
  by_kinds Hkinds.
Qed.

Lemma handler_Rollback_answers name req now s :
  answers StatusOK
    [errors.ErrorCodeInvalidRequest; errors.ErrorCodeNotFound; errors.ErrorCodeInternalError]
    (handler.RollbackConfiguration svc name req now s).1.
Proof.
  handler_unfold. case_bool_decide; [answers_done|].
  destruct req as [msg|target]; [answers_done|].
  pose proof (Rollback_kinds r gojsonschema_Validate gojsonschema_NewSchema name target now s)
    as Hkinds.
  unfold fails_only_with in Hkinds.
  destruct (usecase.RollbackConfiguration _ name target now s) as [[cfg err] s'].
  cbn [fst snd] in Hkinds.
  by_kinds Hkinds.
Qed.

Lemma handler_Register_answers name req s :
  answers StatusCreated [errors.ErrorCodeInvalidRequest; errors.ErrorCodeInternalError]
    (handler.RegisterSchema svc name req s).1.
Proof.
  handler_unfold. case_bool_decide; [answers_done|].
  destruct req as [msg|schema]; [answers_done|].
  pose proof (Register_kinds r gojsonschema_Validate gojsonschema_NewSchema name schema s) as Hkinds.
  unfold fails_only_with in Hkinds.
  destruct (usecase.RegisterSchema _ name schema s) as [err s']. cbn [fst snd] in Hkinds.
  by_kinds Hkinds.
Qed.

Lemma handler_GetSchema_answers name s :
  answers StatusOK
    [errors.ErrorCodeInvalidRequest; errors.ErrorCodeNotFound; errors.ErrorCodeInternalError]
    (handler.GetSchema svc json_Unmarshal name s).1.
Proof.
  handler_unfold. case_bool_decide; [answers_done|].
  pose proof (GetSchema_kinds r gojsonschema_Validate gojsonschema_NewSchema name s) as Hkinds.
  unfold fails_only_with in Hkinds.
  destruct (usecase.GetSchema _ name s) as [[schema err] s']. cbn [fst snd] in Hkinds.
  by_kinds Hkinds.
  destruct (json_Unmarshal _); answers_done.
Qed.

(** X20: over any repository, every response of the eight handlers is
    either the success status of its endpoint (201 for a creation and a
    schema registration, 200 otherwise) with a result as body, or an error
    body under the status of its code: NOT_FOUND 404, ALREADY_EXISTS 409,
    VALIDATION_FAILED and INVALID_REQUEST 400, INTERNAL_ERROR 500. The
    codes are those listed for the endpoint, so the two reads of a
    configuration never answer 500. *)
Theorem status_follows_the_error_code name versionStr now s :
  (forall req,
      answers StatusCreated
        [errors.ErrorCodeInvalidRequest; errors.ErrorCodeAlreadyExists;
         errors.ErrorCodeValidationFailed; errors.ErrorCodeInternalError]
        (handler.CreateConfiguration svc req now s).1) /\
  (forall req,
      answers StatusOK
        [errors.ErrorCodeInvalidRequest; errors.ErrorCodeNotFound;
         errors.ErrorCodeValidationFailed; errors.ErrorCodeInternalError]
        (handler.UpdateConfiguration svc name req now s).1) /\
  answers StatusOK [errors.ErrorCodeInvalidRequest; errors.ErrorCodeNotFound]
    (handler.GetConfiguration svc name s).1 /\
  answers StatusOK [errors.ErrorCodeInvalidRequest; errors.ErrorCodeNotFound]
    (handler.GetConfigurationVersion svc strconv_Atoi name versionStr s).1 /\
  answers StatusOK
    [errors.ErrorCodeInvalidRequest; errors.ErrorCodeNotFound; errors.ErrorCodeInternalError]
    (handler.ListConfigurationVersions svc name s).1 /\
  (forall req,
      answers StatusOK
        [errors.ErrorCodeInvalidRequest; errors.ErrorCodeNotFound;
         errors.ErrorCodeInternalError]
        (handler.RollbackConfiguration svc name req now s).1) /\
  (forall req,
      answers StatusCreated [errors.ErrorCodeInvalidRequest; errors.ErrorCodeInternalError]
        (handler.RegisterSchema svc name req s).1) /\
  answers StatusOK
    [errors.ErrorCodeInvalidRequest; errors.ErrorCodeNotFound; errors.ErrorCodeInternalError]
    (handler.GetSchema svc json_Unmarshal name s).1.
Proof.
  split_and!; intros.
  - apply handler_Create_answers.
  - apply handler_Update_answers.
  - apply handler_Get_answers.
  - apply handler_GetVersion_answers.
  - apply handler_List_answers.
  - apply handler_Rollback_answers.
  - apply handler_Register_answers.
  - apply handler_GetSchema_answers.
Qed.

End HandlerStatus.

Ltac status_lia :=
  cbn [fst snd];
  unfold StatusOK, StatusCreated, StatusBadRequest, StatusUnauthorized, StatusNotFound,
    StatusConflict, StatusInternalServerError;
  lia.

Lemma handler_Create_client_error v req now c :
  client_error (handler.CreateConfiguration (engine v) req now c).1.1 ->
  sqlite.db (handler.CreateConfiguration (engine v) req now c).2 = sqlite.db c.
Proof.
  handler_unfold. destruct req as [msg|[name data]]; [done|].
  destruct (usecase.CreateConfiguration (engine v) name data now c) as [[cfg err] c'] eqn:E.
  apply Create_inv in E as [(_ & _ & Hsame)|(_ & _ & _ & _ & _ & Hcase)]; cbn [fst snd] in *.
  { intros _. destruct err as [[e|a]|]; [|destruct (errors.Code a)|]; exact Hsame. }
  unfold client_error.
  destruct Hcase as [(_ & Hkind & _)|(Heq & _)].
  - unfold kind_of in Hkind. cbn [snd] in Hkind. destruct err as [[e|a]|]; try done.
    cbn in Hkind. injection Hkind as ->. status_lia.
  - injection Heq as -> ->. status_lia.
Qed.

Lemma handler_Update_client_error v name req now c :
  client_error (handler.UpdateConfiguration (engine v) name req now c).1.1 ->
  sqlite.db (handler.UpdateConfiguration (engine v) name req now c).2 = sqlite.db c.
Proof.
  handler_unfold. case_bool_decide; [done|]. destruct req as [msg|data]; [done|].
  destruct (usecase.UpdateConfiguration (engine v) name data now c) as [[cfg err] c'] eqn:E.
  apply Update_inv in E as [(_ & _ & Hsame)|(row & dataStr & _ & _ & Hcase)];
    cbn [fst snd] in *.
  { intros _. destruct err as [[e|a]|]; [|destruct (errors.Code a)|]; exact Hsame. }
  unfold client_error.
  destruct Hcase as [(_ & Hkind & _)|(Heq & _)].
  - unfold kind_of in Hkind. cbn [snd] in Hkind. destruct err as [[e|a]|]; try done.
    cbn in Hkind. injection Hkind as ->. status_lia.
  - injection Heq as -> ->. status_lia.
Qed.

Lemma handler_Rollback_client_error v name req now c :
  client_error (handler.RollbackConfiguration (engine v) name req now c).1.1 ->
  sqlite.db (handler.RollbackConfiguration (engine v) name req now c).2 = sqlite.db c.
Proof.
  handler_unfold. case_bool_decide; [done|]. destruct req as [msg|target]; [done|].
  destruct (usecase.RollbackConfiguration (engine v) name target now c)
    as [[cfg err] c'] eqn:E.
  apply Rollback_inv in E as [(_ & _ & Hsame)|(row & dataStr & payload & _ & _ & _ & Hcase)];
    cbn [fst snd] in *.
  { intros _. destruct err as [[e|a]|]; [|destruct (errors.Code a)|]; exact Hsame. }
  unfold client_error.
  destruct Hcase as [(_ & _ & Hsame)|[(_ & Hkind & _)|(Heq & _)]].
  - intros _. destruct err as [[e|a]|]; [|destruct (errors.Code a)|]; exact Hsame.
  - unfold kind_of in Hkind. cbn [snd] in Hkind. destruct err as [[e|a]|]; try done.
    cbn in Hkind. injection Hkind as ->. status_lia.
  - injection Heq as -> ->. status_lia.
Qed.

Lemma handler_Register_client_error v name req c :
  client_error (handler.RegisterSchema (engine v) name req c).1.1 ->
  sqlite.db (handler.RegisterSchema (engine v) name req c).2 = sqlite.db c.
Proof.
  handler_unfold. case_bool_decide; [done|]. destruct req as [msg|schema]; [done|].
  pose proof (uc_RegisterSchema_spec v name schema c) as Hspec. cbv zeta in Hspec.
  destruct (usecase.RegisterSchema (engine v) name schema c) as [err c'].
  cbn [fst snd] in *. unfold client_error.
  destruct Hspec as [[_ Hsame]|(-> & _)].
  - intros _. destruct err as [[e|a]|]; [|destruct (errors.Code a)|]; exact Hsame.
  - status_lia.
Qed.

(** X21: over the SQLite store and whatever its failures, a request that
    a writing handler answers with a status of the class 4xx (400, 404,
    409) has written nothing. *)
Theorem client_errors_write_nothing v name now c :
  (forall req,
      client_error (handler.CreateConfiguration (engine v) req now c).1.1 ->
      sqlite.db (handler.CreateConfiguration (engine v) req now c).2 = sqlite.db c) /\
  (forall req,
      client_error (handler.UpdateConfiguration (engine v) name req now c).1.1 ->
      sqlite.db (handler.UpdateConfiguration (engine v) name req now c).2 = sqlite.db c) /\
  (forall req,
      client_error (handler.RollbackConfiguration (engine v) name req now c).1.1 ->
      sqlite.db (handler.RollbackConfiguration (engine v) name req now c).2 = sqlite.db c) /\
  (forall req,
      client_error (handler.RegisterSchema (engine v) name req c).1.1 ->
      sqlite.db (handler.RegisterSchema (engine v) name req c).2 = sqlite.db c).
Proof.
  split_and!; intros req.
  - apply handler_Create_client_error.
  - apply handler_Update_client_error.
  - apply handler_Rollback_client_error.
  - apply handler_Register_client_error.
Qed.

Lemma handler_Get_healthy v name d :
  name <> "" ->
  (handler.GetConfiguration (engine v) name (sqlite.mkConn d [])).1 =
  match (usecase.GetConfiguration (engine v) name (sqlite.mkConn d [])).1 with
  | (Some got, None) => (StatusOK, handler.ConfigurationBody (Some got))
  | _ => (StatusNotFound,
          handler.ErrorBody
            (errresp.ToErrorResponse (errors.NewNotFoundError "Configuration" name)))
  end.
Proof.
  intros Hname. handler_unfold. rewrite bool_decide_false by done.
  pose proof (uc_GetConfiguration_healthy v name d) as Hget.
  destruct (usecase.GetConfiguration (engine v) name (sqlite.mkConn d [])) as [[cfg err] c'].
  cbn [fst snd] in *.
  destruct (sqlite.configurations d !! name) as [row|]; [|by injection Hget as -> ->].
  destruct (sqlite.version_data d !! (name, sqlite.version row));
    by injection Hget as -> ->.
Qed.

Lemma handler_Create_created v name data now c body :
  (handler.CreateConfiguration (engine v) (inr (name, data)) now c).1 = (StatusCreated, body) ->
  exists cfg,
    body = handler.ConfigurationBody (Some cfg) /\
    (usecase.CreateConfiguration (engine v) name data now c).1 = (Some cfg, None) /\
    (handler.CreateConfiguration (engine v) (inr (name, data)) now c).2 =
    (usecase.CreateConfiguration (engine v) name data now c).2.
Proof.
  handler_unfold.
  destruct (usecase.CreateConfiguration (engine v) name data now c) as [[cfg err] c'] eqn:E.
  apply Create_inv in E. cbn [fst snd] in E.
  destruct E as [(Hnil & [e ->] & _)|(_ & _ & _ & _ & _ & Hcase)].
  { destruct e as [e|a]; [done|]. by destruct (errors.Code a). }
  destruct Hcase as [(_ & Hkind & _)|(Heq & _)].
  - unfold kind_of in Hkind. cbn [snd] in Hkind. destruct err as [[e|a]|]; try done.
    by destruct (errors.Code a).
  - injection Heq as -> ->. cbn [fst snd]. intros [= <-]. eauto.
Qed.

Lemma handler_Update_ok v name data now c body :
  (handler.UpdateConfiguration (engine v) name (inr data) now c).1 = (StatusOK, body) ->
  name <> "" /\
  exists cfg,
    body = handler.ConfigurationBody (Some cfg) /\
    (usecase.UpdateConfiguration (engine v) name data now c).1 = (Some cfg, None) /\
    (handler.UpdateConfiguration (engine v) name (inr data) now c).2 =
    (usecase.UpdateConfiguration (engine v) name data now c).2.
Proof.
  handler_unfold. case_bool_decide as Hname; [done|]. intros Hok. split; [done|]. revert Hok.
  destruct (usecase.UpdateConfiguration (engine v) name data now c) as [[cfg err] c'] eqn:E.
  apply Update_inv in E. cbn [fst snd] in E.
  destruct E as [(Hnil & [e ->] & _)|(row & dataStr & _ & _ & Hcase)].
  { destruct e as [e|a]; [done|]. by destruct (errors.Code a). }
  destruct Hcase as [(_ & Hkind & _)|(Heq & _)].
  - unfold kind_of in Hkind. cbn [snd] in Hkind. destruct err as [[e|a]|]; try done.
    by destruct (errors.Code a).
  - injection Heq as -> ->. cbn [fst snd]. intros [= <-]. eauto.
Qed.

Lemma handler_Rollback_ok v name target now c body :
  (handler.RollbackConfiguration (engine v) name (inr target) now c).1 = (StatusOK, body) ->
  name <> "" /\
  exists cfg,
    body = handler.ConfigurationBody (Some cfg) /\
    (usecase.RollbackConfiguration (engine v) name target now c).1 = (Some cfg, None) /\
    (handler.RollbackConfiguration (engine v) name (inr target) now c).2 =
    (usecase.RollbackConfiguration (engine v) name target now c).2.
Proof.
  handler_unfold. case_bool_decide as Hname; [done|]. intros Hok. split; [done|]. revert Hok.
  destruct (usecase.RollbackConfiguration (engine v) name target now c)
    as [[cfg err] c'] eqn:E.
  apply Rollback_inv in E as [(Hnil & Hkind & _)|(row & dataStr & payload & _ & _ & _ & Hcase)];
    cbn [fst snd] in *.
  { unfold kind_of in Hkind. cbn [snd] in Hkind. destruct err as [[e|a]|]; try done.
    by destruct (errors.Code a). }
  destruct Hcase as [(_ & Hkind & _)|[(_ & Hkind & _)|(Heq & _)]].
  - unfold kind_of in Hkind. cbn [snd] in Hkind. destruct err as [[e|a]|]; try done.
    by destruct (errors.Code a).
  - unfold kind_of in Hkind. cbn [snd] in Hkind. destruct err as [[e|a]|]; try done.
    by destruct (errors.Code a).
  - injection Heq as -> ->. cbn [fst snd]. intros [= <-]. eauto.
Qed.

(** X22: the configuration in the body of a successful write (201 of a
    creation, 200 of an update or a rollback) is the one a GET of that name
    answers with 200 right afterwards, on a healthy connection: same name,
    version, data bytes, times and rollback fields. *)
Theorem http_write_then_get v now c body :
  (forall name data,
      name <> "" ->
      (handler.CreateConfiguration (engine v) (inr (name, data)) now c).1
        = (StatusCreated, body) ->
      exists cfg got,
        body = handler.ConfigurationBody (Some cfg) /\
        (handler.GetConfiguration (engine v) name
           (sqlite.mkConn
              (sqlite.db (handler.CreateConfiguration (engine v) (inr (name, data)) now c).2)
              [])).1 = (StatusOK, handler.ConfigurationBody (Some got)) /\
        same_configuration got cfg) /\
  (forall name data,
      (handler.UpdateConfiguration (engine v) name (inr data) now c).1 = (StatusOK, body) ->
      exists cfg got,
        body = handler.ConfigurationBody (Some cfg) /\
        (handler.GetConfiguration (engine v) name
           (sqlite.mkConn
              (sqlite.db (handler.UpdateConfiguration (engine v) name (inr data) now c).2)
              [])).1 = (StatusOK, handler.ConfigurationBody (Some got)) /\
        same_configuration got cfg) /\
  (forall name target,
      (handler.RollbackConfiguration (engine v) name (inr target) now c).1
        = (StatusOK, body) ->
      exists cfg got,
        body = handler.ConfigurationBody (Some cfg) /\
        (handler.GetConfiguration (engine v) name
           (sqlite.mkConn
              (sqlite.db (handler.RollbackConfiguration (engine v) name (inr target) now c).2)
              [])).1 = (StatusOK, handler.ConfigurationBody (Some got)) /\
        same_configuration got cfg).
Proof.
  split_and!.
  - intros name data Hname (cfg & -> & Hok & ->)%handler_Create_created.
    destruct (Get_after_Create v c cfg name data now Hok) as (got & Hget & Hsame).
    exists cfg, got. split; [done|]. split; [|done].
    rewrite handler_Get_healthy by done. by rewrite Hget.
  - intros name data (Hname & cfg & -> & Hok & ->)%handler_Update_ok.
    destruct (Get_after_Update v c cfg name data now Hok) as (got & Hget & Hsame).
    exists cfg, got. split; [done|]. split; [|done].
    rewrite handler_Get_healthy by done. by rewrite Hget.
  - intros name target (Hname & cfg & -> & Hok & ->)%handler_Rollback_ok.
    destruct (Get_after_Rollback v c cfg name target now Hok) as (got & Hget & Hsame).
    exists cfg, got. split; [done|]. split; [|done].
    rewrite handler_Get_healthy by done. by rewrite Hget.
Qed.

(** X23: after a schema registration answered 201 (with the name and
    [schema registered successfully]), a GET of the schema on a healthy
    connection answers 200 with the value of the registered bytes when
    [json.Unmarshal] decodes them, and 500 [Failed to parse schema] with
    its message when it does not. *)
Theorem http_schema_roundtrip v json_Unmarshal name schema c :
  (handler.RegisterSchema (engine v) name (inr schema) c).1.1 = StatusCreated ->
  (handler.RegisterSchema (engine v) name (inr schema) c).1.2
    = handler.RegisteredBody name "schema registered successfully" /\
  (handler.GetSchema (engine v) json_Unmarshal name
     (sqlite.mkConn (sqlite.db (handler.RegisterSchema (engine v) name (inr schema) c).2) [])).1
  = match json_Unmarshal (string_of_raw schema) with
    | Some err =>
        (StatusInternalServerError,
         handler.ErrorBody
           (errresp.NewErrorResponse "Failed to parse schema" errors.ErrorCodeInternalError
              (errors.DetailsString err)))
    | None => (StatusOK, handler.SchemaBody (string_of_raw schema))
    end.
Proof.
  handler_unfold. case_bool_decide as Hname; [done|].
  pose proof (uc_RegisterSchema_spec v name schema c) as Hspec. cbv zeta in Hspec.
  destruct (usecase.RegisterSchema (engine v) name schema c) as [err c'].
  cbn [fst snd] in *.
  destruct Hspec as [[[e ->] _]|(-> & _ & Hs & _)].
  { destruct e as [e|a]; [done|]. by destruct (errors.Code a). }
  intros _. split; [done|]. cbn [fst snd].
  pose proof (uc_GetSchema_healthy v name (sqlite.db c')) as Hget.
  destruct (usecase.GetSchema (engine v) name (sqlite.mkConn (sqlite.db c') []))
    as [[got gerr] c2].
  cbn [fst snd] in *. rewrite Hs, lookup_insert_eq in Hget. injection Hget as -> ->.
  cbn [string_of_raw]. by destruct (json_Unmarshal (string_of_raw schema)).
Qed.

(** * The validator that keeps its schemas *)

Section SchemaValidatorFacts.

Context {Schema : Type}.
Variable NewSchema : string -> string + Schema.
Variable Schema_Validate : Schema -> string -> validator.GjsResult.

Lemma coherent_new : coherent NewSchema (schema_validator.NewSchemaValidator Schema).
Proof. intros name. cbn. by rewrite !lookup_empty. Qed.

Lemma coherent_register v name bytes :
  coherent NewSchema v -> coherent NewSchema (schema_validator.RegisterSchema Schema NewSchema v name bytes).2.
Proof.
  intros Hv other. unfold schema_validator.RegisterSchema.
  destruct (NewSchema (string_of_raw bytes)) as [err|schema] eqn:Hnew; cbn [snd]; [apply Hv|].
  cbn [schema_validator.schemas schema_validator.schemaJSON].
  destruct (decide (other = name)) as [->|Hne].
  - rewrite !lookup_insert_eq. by exists bytes.
  - rewrite !lookup_insert_ne by done. apply Hv.
Qed.

Lemma coherent_registered regs : coherent NewSchema (registered NewSchema regs).
Proof.
  unfold registered. generalize coherent_new.
  generalize (schema_validator.NewSchemaValidator Schema).
  induction regs as [|[name bytes] regs IH]; intros v Hv; cbn [foldl]; [done|].
  apply IH. by apply coherent_register.
Qed.

(** X24: whatever registrations were made on a new SchemaValidator,
    failed ones included, when a name has a schema then GetSchema returns
    bytes that the library compiles, and the verdict of Validate for that
    name is the one of the schema compiled from these bytes; when it has
    none, GetSchema and Validate fail with [no schema registered for
    configuration: <name>]. *)
Theorem kept_schema_is_the_compiled_one regs name data :
  let v := registered NewSchema regs in
  if schema_validator.HasSchema Schema v name
  then exists bytes schema,
         schema_validator.GetSchema Schema v name = (bytes, None) /\
         NewSchema (string_of_raw bytes) = inr schema /\
         schema_validator.Validate Schema Schema_Validate v name data =
         match Schema_Validate schema (string_of_raw data) with
         | validator.GjsError err => (None, Some ("validation error: " ++ err))
         | validator.GjsChecked [] => (None, None)
         | validator.GjsChecked violations => (Some violations, None)
         end
  else schema_validator.GetSchema Schema v name =
         (None, Some ("no schema registered for configuration: " ++ name)) /\
       schema_validator.Validate Schema Schema_Validate v name data =
         (None, Some ("no schema registered for configuration: " ++ name)).
Proof.
  intros v. pose proof (coherent_registered regs name) as Hco. fold v in Hco.
  unfold schema_validator.HasSchema, schema_validator.GetSchema, schema_validator.Validate.
  destruct (schema_validator.schemas Schema v !! name) as [schema|]; [|done].
  destruct Hco as (bytes & -> & Hnew). by exists bytes, schema.
Qed.

(** X25: a registration the library accepts makes its bytes the schema of
    the name, replacing an earlier one, and leaves the answers for the
    other names as they were; one the library refuses returns [invalid
    schema for <name>: <message>] and leaves the validator as it was. *)
Theorem schema_registration v name bytes :
  let out := schema_validator.RegisterSchema Schema NewSchema v name bytes in
  match NewSchema (string_of_raw bytes) with
  | inr schema =>
      out.1 = None /\
      schema_validator.HasSchema Schema out.2 name = true /\
      schema_validator.GetSchema Schema out.2 name = (bytes, None) /\
      (forall data,
          schema_validator.Validate Schema Schema_Validate out.2 name data =
          match Schema_Validate schema (string_of_raw data) with
          | validator.GjsError err => (None, Some ("validation error: " ++ err))
          | validator.GjsChecked [] => (None, None)
          | validator.GjsChecked violations => (Some violations, None)
          end) /\
      (forall other data,
          other <> name ->
          schema_validator.GetSchema Schema out.2 other
            = schema_validator.GetSchema Schema v other /\
          schema_validator.Validate Schema Schema_Validate out.2 other data
            = schema_validator.Validate Schema Schema_Validate v other data)
  | inl err =>
      out = (Some ("invalid schema for " ++ name ++ ": " ++ err), v)
  end.
Proof.
  intros out. subst out. unfold schema_validator.RegisterSchema.
  destruct (NewSchema (string_of_raw bytes)) as [err|schema]; [done|].
  unfold schema_validator.HasSchema, schema_validator.GetSchema, schema_validator.Validate.
  cbn [fst snd schema_validator.schemas schema_validator.schemaJSON].
  rewrite !lookup_insert_eq. split_and!; try done.
  intros other data Hne. by rewrite !lookup_insert_ne.
Qed.

End SchemaValidatorFacts.

(** * The properties above at concrete inputs *)

Lemma register_schema_roundtrip_witness :
  let c := sqlite.mkConn sqlite.empty_db [] in
  let out := usecase.RegisterSchema (engine demo_validator) "x" (Some "strict") c in
  out.1 = None /\
  (usecase.GetSchema (engine demo_validator) "x" (sqlite.mkConn (sqlite.db out.2) [])).1
    = (Some "strict", None).
Proof.
  intros c out.
  assert (H : out.1 = None) by (vm_compute; reflexivity).
  exact (conj H (proj1 (register_schema_roundtrip demo_validator "x" (Some "strict") c H))).
Defined.

Lemma history_is_append_only_witness :
  let calls := [Create "x" (Some "a") 10 []] in
  let d := run demo_validator calls in
  let d' := after demo_validator (Update "x" (Some "b") 20 []) d in
  Z.of_nat (length calls) <= max_int /\
  (forall k record, sqlite.versions d !! k = Some record ->
                    sqlite.versions d' !! k = Some record) /\
  (forall k payload, sqlite.version_data d !! k = Some payload ->
                     sqlite.version_data d' !! k = Some payload).
Proof.
  intros calls d d'.
  assert (H : Z.of_nat (length calls) <= max_int) by (unfold max_int; simpl; lia).
  exact (conj H (history_is_append_only demo_validator demo_validator calls
                   (Update "x" (Some "b") 20 []) H)).
Defined.

Lemma configuration_persists_witness :
  let calls := [Create "x" (Some "a") 10 []] in
  let row := {| sqlite.version := 1; sqlite.created_at := 10; sqlite.updated_at := 10;
                sqlite.rollback_from := None; sqlite.rollback_to := None |} in
  Z.of_nat (length calls) < max_int /\
  sqlite.configurations (run demo_validator calls) !! "x" = Some row /\
  exists row',
    sqlite.configurations
      (after demo_validator (Update "x" (Some "b") 20 []) (run demo_validator calls)) !! "x"
      = Some row' /\
    sqlite.created_at row' = sqlite.created_at row /\
    (sqlite.version row' = sqlite.version row \/
     sqlite.version row' = sqlite.version row + 1).
Proof.
  intros calls row.
  assert (H1 : Z.of_nat (length calls) < max_int) by (unfold max_int; simpl; lia).
  assert (H2 : sqlite.configurations (run demo_validator calls) !! "x" = Some row)
    by (vm_compute; reflexivity).
  exact (conj H1 (conj H2
           (configuration_persists demo_validator demo_validator calls
              (Update "x" (Some "b") 20 []) "x" row H1 H2))).
Defined.

Lemma every_version_is_readable_witness :
  let calls := [Create "x" (Some "a") 10 []; Update "x" (Some "b") 20 []] in
  let head := {| entity.Name := "x"; entity.Version := 2; entity.Data := Some "b";
                 entity.CreatedAt := 10; entity.UpdatedAt := 20;
                 entity.RollbackFrom := 0; entity.RollbackTo := 0 |} in
  let c := sqlite.mkConn (run demo_validator calls) [] in
  Z.of_nat (length calls) <= max_int /\
  (usecase.GetConfiguration (engine demo_validator) "x" c).1 = (Some head, None) /\
  (exists got,
     (usecase.GetConfigurationVersion (engine demo_validator) "x" 1 c).1 = (Some got, None) /\
     entity.Name got = "x" /\ entity.Version got = 1 /\
     entity.CreatedAt got = entity.CreatedAt head) /\
  kind_of (usecase.GetConfigurationVersion (engine demo_validator) "x" 3 c).1
    = Some errors.ErrorCodeNotFound.
Proof.
  intros calls head c.
  assert (H1 : Z.of_nat (length calls) <= max_int) by (unfold max_int; simpl; lia).
  assert (H2 : (usecase.GetConfiguration (engine demo_validator) "x" c).1 = (Some head, None))
    by (vm_compute; reflexivity).
  split; [exact H1|]. split; [exact H2|]. split.
  - apply (proj1 (every_version_is_readable demo_validator demo_validator calls "x" head
                    H1 H2 1)).
    simpl. lia.
  - apply (proj2 (every_version_is_readable demo_validator demo_validator calls "x" head
                    H1 H2 3)).
    simpl. lia.
Defined.

Lemma head_without_payload_is_stuck_witness :
  let d := run demo_validator [Create "x" (Some "a") 10 payload_failure] in
  let c := sqlite.mkConn d [] in
  head_without_payload "x" d /\
  kind_of (usecase.GetConfiguration (engine demo_validator) "x" c).1
    = Some errors.ErrorCodeNotFound /\
  (forall data now,
     kind_of (usecase.UpdateConfiguration (engine demo_validator) "x" data now c).1
     = Some errors.ErrorCodeNotFound).
Proof.
  intros d c.
  assert (H : head_without_payload "x" (sqlite.db c)).
  { eexists. split; vm_compute; reflexivity. }
  pose proof (head_without_payload_is_stuck demo_validator "x" c H) as Hstuck.
  exact (conj H (conj (proj1 Hstuck) (proj1 (proj2 (proj2 Hstuck))))).
Defined.

Lemma repository_update_without_row_witness :
  let cfg := entity.UpdateVersion (entity.NewConfiguration "x" (Some "a") 10) (Some "b") 20 in
  let out := sqlite.UpdateConfiguration cfg (sqlite.mkConn sqlite.empty_db []) in
  sqlite.configurations sqlite.empty_db !! entity.Name cfg = None /\
  sqlite.versions sqlite.empty_db !! (entity.Name cfg, entity.Version cfg) = None /\
  out.1 = None /\
  sqlite.configurations (sqlite.db out.2) = sqlite.configurations sqlite.empty_db /\
  is_Some (sqlite.versions (sqlite.db out.2) !! (entity.Name cfg, entity.Version cfg)).
Proof.
  intros cfg out.
  assert (H1 : sqlite.configurations sqlite.empty_db !! entity.Name cfg = None)
    by (vm_compute; reflexivity).
  assert (H2 : sqlite.versions sqlite.empty_db !! (entity.Name cfg, entity.Version cfg) = None)
    by (vm_compute; reflexivity).
  exact (conj H1 (conj H2 (repository_update_without_row cfg sqlite.empty_db H1 H2))).
Defined.

Lemma version_data_roundtrip_witness :
  let c := sqlite.mkConn sqlite.empty_db [] in
  let out := sqlite.StoreVersionData "x" 1 (Some "a") c in
  out.1 = None /\
  (sqlite.GetVersionData "x" 1 (sqlite.mkConn (sqlite.db out.2) [])).1 = (Some "a", None).
Proof.
  intros c out.
  assert (H : out.1 = None) by (vm_compute; reflexivity).
  exact (conj H (proj1 (version_data_roundtrip "x" 1 (Some "a") c H))).
Defined.

Lemma valid_writes_succeed_witness :
  let calls := [Register "x" (Some "strict") []; Create "x" (Some "ok") 10 []] in
  let c := sqlite.mkConn (run demo_validator calls) [] in
  Z.of_nat (length calls) < max_int /\
  (forall schema,
     sqlite.schemas (run demo_validator calls) !! "x" = Some schema ->
     validator.ValidateJSON demo_validator (Some schema) (Some "ok") = None) /\
  (forall head,
     (usecase.GetConfiguration (engine demo_validator) "x" c).1 = (Some head, None) ->
     exists cfg,
       (usecase.UpdateConfiguration (engine demo_validator) "x" (Some "ok") 20 c).1
         = (Some cfg, None) /\
       entity.Version cfg = entity.Version head + 1 /\
       entity.Data cfg = Some "ok").
Proof.
  intros calls c.
  assert (H1 : Z.of_nat (length calls) < max_int) by (unfold max_int; simpl; lia).
  assert (H2 : forall schema,
             sqlite.schemas (run demo_validator calls) !! "x" = Some schema ->
             validator.ValidateJSON demo_validator (Some schema) (Some "ok") = None).
  { intros schema Hs. vm_compute in Hs. injection Hs as <-. vm_compute. reflexivity. }
  exact (conj H1 (conj H2
           (proj2 (valid_writes_succeed demo_validator demo_validator calls "x" (Some "ok") 20
                     H1 H2)))).
Defined.

Lemma development_key_is_the_only_key_witness :
  (forall pair,
      pair ∈ gostrings.Split "secret" "," -> length (gostrings.Split pair ":") <> 2%nat) /\
  middleware.Authenticate demo_ToLower (main.apiKeys demo_TrimSpace "secret")
    "Bearer dev-api-key" = middleware.Next "development".
Proof.
  assert (H : forall pair,
             pair ∈ gostrings.Split "secret" "," ->
             length (gostrings.Split pair ":") <> 2%nat).
  { intros pair Hin. change (pair ∈ ["secret"]) in Hin.
    apply list_elem_of_singleton in Hin as ->. vm_compute. lia. }
  split; [exact H|].
  apply (proj2 (development_key_is_the_only_key demo_ToLower demo_TrimSpace "secret"
                  "Bearer dev-api-key" "development" H)).
  split; [reflexivity|]. exists "Bearer". split; [reflexivity|].
  split; vm_compute; reflexivity.
Defined.

Lemma http_schema_roundtrip_witness :
  let c := sqlite.mkConn sqlite.empty_db [] in
  let out := handler.RegisterSchema (engine demo_validator) "x" (inr (Some "strict")) c in
  out.1.1 = StatusCreated /\
  (handler.GetSchema (engine demo_validator) (fun _ => None) "x"
     (sqlite.mkConn (sqlite.db out.2) [])).1 = (StatusOK, handler.SchemaBody "strict").
Proof.
  intros c out.
  assert (H : out.1.1 = StatusCreated) by (vm_compute; reflexivity).
  exact (conj H (proj2 (http_schema_roundtrip demo_validator (fun _ => None) "x"
                          (Some "strict") c H))).
Defined.
